(** * Cluster lifecycle coordinator of go-swarm: a shallow embedding

    The coordinator ([Manager] in the Go package [swarm]) drives a Docker
    Swarm cluster through a swappable transport ([Switcher] and its
    [Runner]).  Every method is embedded below as a computation in a small
    state-and-error monad.  The state is the coordinator's session: the
    current target, the chronological history of everything asked of the
    transport and of the Go runtime, and the log journal.  The transport,
    the runtime (random source, clock, [select]) and the external decoders
    are one record [Env] of oracles that answer from the history so far. *)

From stdpp Require Import gmap strings list.
From Stdlib Require Import ZArith Lia.

Local Open Scope string_scope.
Local Open Scope list_scope.

(** ** Data model *)

(** Modelled from the spec: the declaration of [VMNode] is not in the
    sources at hand.  A candidate member has a hostname, a public and a
    private address and a set of tags (role, labels). *)
Record VMNode : Type := mkVMNode {
  Hostname : string;
  PublicAddress : string;
  PrivateAddress : string;
  Tags : list (string * string)
}.

Abbreviation VMNodes := (list VMNode) (only parsing).

(** Modelled from the spec: the tag names and role values are declared
    outside the sources at hand; the role tag is [manager] or [worker]. *)
Definition RoleTag : string := "role".
Definition LabelsTag : string := "labels".
Definition ManagerRole : string := "manager".
Definition WorkerRole : string := "worker".

(** Modelled from the spec: [VMNode.GetTag] is not in the sources at hand;
    it reads one tag of the node, the empty string when the tag is unset. *)
Fixpoint lookupTag (key : string) (tags : list (string * string)) : string :=
  match tags with
  | [] => ""
  | (k, v) :: rest => if decide (k = key) then v else lookupTag key rest
  end.

Definition GetTag (node : VMNode) (key : string) : string :=
  lookupTag key (Tags node).

(** Modelled from the spec: [VMNodes.FilterByTag] is not in the sources at
    hand; it keeps, in order, the members whose tag [key] has value [value]. *)
Definition FilterByTag (vms : VMNodes) (key value : string) : VMNodes :=
  filter (fun vm => GetTag vm key = value) vms.

(** Modelled from the spec: the declaration of [NodeInfo] and its method
    [IsManager] are not in the sources at hand.  The code reads
    [node.Swarm.NodeID], [node.Swarm.Cluster.ID], the [Addr] of every entry
    of [node.Swarm.RemoteManagers], and [node.IsManager()]. *)
Record NodeInfo : Type := mkNodeInfo {
  Swarm_NodeID : string;
  Swarm_Cluster_ID : string;
  Swarm_RemoteManagers : list string;
  IsManager : bool
}.

(** Modelled from the spec: one row of the roster ([NodeStatus]). *)
Record NodeStatus : Type := mkNodeStatus {
  Status_Hostname : string;
  Status_Role : string;
  Status_Availability : string;
  Status_State : string
}.

(** Modelled from the spec: one task row with its desired and current
    state. *)
Record Task : Type := mkTask {
  DesiredState : string;
  CurrentState : string
}.

Abbreviation Tasks := (list Task) (only parsing).

(** The parsed label tag: a Go [map[string][]string], listed in the order
    in which the runtime iterates over it; [None] is a nil slice. *)
Abbreviation Labels := (list (string * option (list string))) (only parsing).

(** Durations and clock readings, in nanoseconds as in Go's [time]. *)
Definition Second : Z := 1000000000%Z.
Definition Minute : Z := (60 * Second)%Z.
Definition drainTimeout : Z := (Minute * 10)%Z.
Definition tickInterval : Z := (Second * 5)%Z.

(** ** Command vocabulary *)

Inductive Command : Type :=
| infoCommand
| nodesCommand
| tasksCommand (node : string)
| initCommand (advertise listen : string)
| joinCommand (advertise listen token manager : string)
| tokenCommand (role : string)
| updateCommand (options node : string).

Definition setAvailability (a : string) : string := "--availability " +:+ a.
Definition labelAdd (l : string) : string := "--label-add " +:+ l.
Definition availabilityDrain : string := "drain".
Definition availabilityActive : string := "active".
Definition managerToken : string := "manager".
Definition workerToken : string := "worker".

(** The double-quote character of the templates. *)
Definition dquote : string := String (Ascii.ascii_of_nat 34) EmptyString.

(** The command line that [fmt.Sprintf] builds from each template. *)
Definition render (c : Command) : string :=
  match c with
  | infoCommand =>
      "docker info --format " +:+ dquote +:+ "{{ json . }}" +:+ dquote
  | nodesCommand =>
      "docker node ls --format " +:+ dquote +:+ "{{ json . }}" +:+ dquote
  | tasksCommand node =>
      "docker node ps --format " +:+ dquote +:+ "{{ json .}}" +:+ dquote
        +:+ " " +:+ node
  | initCommand a l =>
      "docker swarm init --advertise-addr " +:+ a +:+ " --listen-addr " +:+ l
  | joinCommand a l t m =>
      "docker swarm join --advertise-addr " +:+ a +:+ " --listen-addr " +:+ l
        +:+ " --token " +:+ t +:+ " " +:+ m +:+ ":2377"
  | tokenCommand r => "docker swarm join-token -q " +:+ r
  | updateCommand o n => "docker node update " +:+ o +:+ " " +:+ n
  end.

(** ** Failures

    One constructor per [fmt.Errorf] site of the package; a [cause]
    argument is the error wrapped by [%w] (or printed by [%s]).  Errors
    that come from the transport itself are opaque. *)
Inductive error : Type :=
| TransportError (addr : string)
    (* what Switcher.Switch returned *)
| SwitchingToNode (addr : string) (cause : error)
    (* "error switching to node %s: %s" *)
| NoRunnerConfigured
    (* "error no runner configured" *)
| CreatingWorker
    (* "error creating worker: %w" *)
| StartingWorker
    (* "error starting worker: %w" *)
| ExecutionError (stdout stderr : string)
    (* "error running worker: %s" *)
| DeserializationError
    (* "error parsing json data: %s" *)
| RunningInfoCommand (cause : error)
| GettingNodeInfo (cause : error)
| NoSuitableManager
    (* "unable to connect to suitable manager" *)
| SwitchingNodesTo (addr : string) (cause : error)
| RunningJoinCommand (cause : error)
| GettingNodeInfoFrom (cause : error)
| ParsingLabels
| RunningUpdateCommand (cause : error)
| ConnectingToManager (cause : error)
| RunningNodesCommand (cause : error)
| InvalidQuorumSize (managers : nat)
    (* "error expected 3 or 5 managers but got %d" *)
| SwitchingToAManagerNode (cause : error)
| SwitchingToManagerNode (cause : error)
| ClusterAlreadyExists (clusterID : string)
    (* "error swarm cluster with id %s already exists" *)
| RunningInitCommand (cause : error)
| LabellingWorker (cause : error)
| LabellingManager (cause : error)
| RefreshingNodeInfo (cause : error)
| GettingManagerToken (cause : error)
| GettingWorkerToken (cause : error)
| JoiningManager (new manager clusterID : string) (cause : error)
| JoiningWorker (new manager clusterID : string) (cause : error)
| GettingCurrentNodes (cause : error)
| NoExistingCluster
    (* "error no swarm cluster found" *)
| RunningTasksCommand (cause : error)
| DrainTimeout (node : string) (elapsed : Z)
    (* "error timed out waiting for %s to drain after %s" *)
| DrainingNode (node : string) (cause : error)
| RunningTokenCommand (cause : error)
| Panic (what : string).
    (* a Go run-time panic: index out of range, rand.Intn of n <= 0 *)

(** ** The session and its environment *)

(** How one [runCmd] ended. *)
Inductive RunOutcome : Type :=
| RunnerMissing
| CommandRejected
| StartFailed
| WaitFailed (stdout stderr : string)
| Completed (stdout : string).

(** Everything the coordinator asks of the outside world, in order. *)
Inductive Event : Type :=
| Switched (addr : string) (accepted : bool)
| Ran (on : string) (cmd : Command) (outcome : RunOutcome)
| WithTimeout (d : Z)
| NewTicker (d : Z)
| TickerFired
| DeadlineFired
| TickerStopped
| ContextCancelled.

Inductive LogEntry : Type :=
| LogSwitchFailed (addr : string)
| LogRunning (on : string) (cmd : string)
| LogWorkerFailed (stdout stderr : string)
| LogBadManagerAddress (addr : string)
| LogManagerUnreachable (host : string)
| LogBadLabels
| LogTasksRetry (node : string)
| LogDrained (node : string) (elapsed : Z)
| LogStillWaiting (node : string) (elapsed : Z)
| LogTimedOut (node : string) (elapsed : Z)
| LogDrainFailed (node : string).

Record Session : Type := mkSession {
  target : string;
  history : list Event;
  journal : list LogEntry
}.

(** The transport, the Go runtime and the decoders.  The oracles answer
    from the history, so any deterministic run of any transport is one
    [Env]. *)
Record Env : Type := mkEnv {
  (* Switcher.Switch: does the switch to this address succeed? *)
  switchAccepted : list Event -> string -> bool;
  (* Switcher.Runner, nil for RunnerMissing, and its Command/Start/Wait on
     the current target *)
  runOutcome : list Event -> string -> RunOutcome;
  (* the state of math/rand *)
  randSource : list Event -> nat;
  (* time.Now *)
  clock : list Event -> Z;
  (* which ready case select takes: true is the ticker's channel *)
  selectTicker : list Event -> bool;
  (* net.SplitHostPort *)
  SplitHostPort : string -> option (string * string);
  (* ParseLabels, declared outside the sources at hand *)
  ParseLabels : string -> option Labels;
  (* json.Unmarshal into a NodeInfo *)
  unmarshalNodeInfo : string -> option NodeInfo;
  (* jsonlines.Decode into []NodeStatus and into Tasks *)
  decodeNodes : string -> option (list NodeStatus);
  decodeTasks : string -> option Tasks;
  (* strings.TrimSpace *)
  TrimSpace : string -> string;
  (* whether one task row reports a shutdown state *)
  taskShutdown : Task -> bool
}.

(** Modelled from the spec: [Tasks.AllShutdown] is not in the sources at
    hand; a node is drained when every task row reports a shutdown state. *)
Definition AllShutdown (E : Env) (ts : Tasks) : bool :=
  forallb (taskShutdown E) ts.

(** What [runCmd] leaves in the history: the event of the command it
    handed to the runner, and nothing when there is no runner to hand it
    to. *)
Definition issued (on : string) (cmd : Command) (out : RunOutcome)
  : list Event :=
  match out with
  | RunnerMissing => []
  | _ => [Ran on cmd out]
  end.

(** ** The monad of coordinator methods *)

Inductive res (A : Type) : Type :=
| Ok (a : A)
| Err (e : error)
| OutOfFuel.
Arguments Ok {A} a.
Arguments Err {A} e.
Arguments OutOfFuel {A}.

Definition M (A : Type) : Type := Session -> res A * Session.

Definition ret {A} (a : A) : M A := fun s => (Ok a, s).
Definition fail {A} (e : error) : M A := fun s => (Err e, s).

Definition bind {A B} (c : M A) (k : A -> M B) : M B :=
  fun s =>
    match c s with
    | (Ok a, s') => k a s'
    | (Err e, s') => (Err e, s')
    | (OutOfFuel, s') => (OutOfFuel, s')
    end.

(** [if err != nil { return fmt.Errorf(..., err) }] *)
Definition wrap {A} (ctx : error -> error) (c : M A) : M A :=
  fun s =>
    match c s with
    | (Err e, s') => (Err (ctx e), s')
    | r => r
    end.

(** [if err != nil { ...; continue }]: the failure is handled locally. *)
Definition orElse {A} (c : M A) (h : error -> M A) : M A :=
  fun s =>
    match c s with
    | (Err e, s') => h e s'
    | r => r
    end.

Notation "'let*' x ':=' c 'in' k" := (bind c (fun x => k))
  (at level 10, x name, c at level 100, k at level 200).
Notation "c ';;;' k" := (bind c (fun _ => k))
  (at level 100, k at level 200, right associativity).

(** [r, err := c]: the outcome as a value, for code that goes on after a
    failure. *)
Definition attempt {A} (c : M A) : M (error + A) :=
  fun s =>
    match c s with
    | (Ok a, s') => (Ok (inr a), s')
    | (Err e, s') => (Ok (inl e), s')
    | (OutOfFuel, s') => (OutOfFuel, s')
    end.

(** [defer cleanup()]: runs when the function returns, however it does. *)
Definition deferring {A} (cleanup : M unit) (c : M A) : M A :=
  fun s => let (r, s') := c s in (r, snd (cleanup s')).

(** [for _, x := range l { body }], left at the first failure. *)
Fixpoint forEach {A} (l : list A) (body : A -> M unit) : M unit :=
  match l with
  | [] => ret tt
  | x :: rest => bind (body x) (fun _ => forEach rest body)
  end.

Definition emit (ev : Event) : M unit :=
  fun s => (Ok tt, mkSession (target s) (history s ++ [ev]) (journal s)).

Definition logf (l : LogEntry) : M unit :=
  fun s => (Ok tt, mkSession (target s) (history s) (journal s ++ [l])).

Section Coordinator.

Variable E : Env.

(** [Switcher.Switch]: on success the address becomes the current
    target. *)
Definition Switch (addr : string) : M unit :=
  fun s =>
    let ok := switchAccepted E (history s) addr in
    let h := history s ++ [Switched addr ok] in
    if ok then (Ok tt, mkSession addr h (journal s))
    else (Err (TransportError addr), mkSession (target s) h (journal s)).

Definition SwitchNode (nodeAddr : string) : M unit :=
  orElse (Switch nodeAddr)
    (fun err =>
       logf (LogSwitchFailed nodeAddr) ;;;
       fail (SwitchingToNode nodeAddr err)).

Definition runCmd (cmd : Command) : M string :=
  fun s =>
    let out := runOutcome E (history s) (render cmd) in
    let h := history s ++ [Ran (target s) cmd out] in
    let running := journal s ++ [LogRunning (target s) (render cmd)] in
    match out with
    | RunnerMissing => (Err NoRunnerConfigured, s)
    | CommandRejected => (Err CreatingWorker, mkSession (target s) h running)
    | StartFailed => (Err StartingWorker, mkSession (target s) h running)
    | WaitFailed so se =>
        (Err (ExecutionError so se),
         mkSession (target s) h (running ++ [LogWorkerFailed so se]))
    | Completed so => (Ok so, mkSession (target s) h running)
    end.

Definition GetInfo : M NodeInfo :=
  let* out := wrap RunningInfoCommand (runCmd infoCommand) in
  match unmarshalNodeInfo E out with
  | None => fail DeserializationError
  | Some node => ret node
  end.

(** The loop of [ensureManager] over [node.Swarm.RemoteManagers]. *)
Fixpoint tryRemoteManagers (addrs : list string) : M unit :=
  match addrs with
  | [] => fail NoSuitableManager
  | remoteManager :: rest =>
      match SplitHostPort E remoteManager with
      | None =>
          logf (LogBadManagerAddress remoteManager) ;;;
          tryRemoteManagers rest
      | Some (host, _) =>
          orElse (SwitchNode host)
            (fun _ =>
               logf (LogManagerUnreachable host) ;;;
               tryRemoteManagers rest)
      end
  end.

Definition ensureManager : M unit :=
  let* node := wrap GettingNodeInfo GetInfo in
  if negb (IsManager node)
  then tryRemoteManagers (Swarm_RemoteManagers node)
  else ret tt.

Definition joinSwarm (newNode managerNode : VMNode) (token : string) : M unit :=
  wrap (SwitchingNodesTo (PublicAddress newNode))
    (SwitchNode (PublicAddress newNode)) ;;;
  let cmd :=
    joinCommand (PrivateAddress newNode) (PrivateAddress newNode) token
      (PrivateAddress managerNode) in
  wrap RunningJoinCommand (runCmd cmd) ;;;
  ret tt.

(** One [--label-add] option of [labelNode]: [values != nil ||
    len(values) > 0] holds exactly when the slice is not nil. *)
Definition labelOption (kv : string * option (list string)) : string :=
  let label :=
    match snd kv with
    | Some values => fst kv +:+ "=" +:+ String.concat "," values
    | None => fst kv
    end in
  labelAdd label.

Definition labelNode (node : VMNode) : M unit :=
  wrap (SwitchingNodesTo (PublicAddress node))
    (SwitchNode (PublicAddress node)) ;;;
  let* info := wrap GettingNodeInfoFrom GetInfo in
  match ParseLabels E (GetTag node LabelsTag) with
  | None => logf LogBadLabels ;;; fail ParsingLabels
  | Some [] => ret tt
  | Some labels =>
      let labelOptions := map labelOption labels in
      let cmd :=
        updateCommand (String.concat " " labelOptions) (Swarm_NodeID info) in
      wrap RunningUpdateCommand (runCmd cmd) ;;;
      ret tt
  end.

Definition GetNodes : M (list NodeStatus) :=
  wrap ConnectingToManager ensureManager ;;;
  let* stdout := wrap RunningNodesCommand (runCmd nodesCommand) in
  match decodeNodes E stdout with
  | None => fail DeserializationError
  | Some nodes => ret nodes
  end.

Definition JoinToken (tokenType : string) : M string :=
  let* stdout := wrap RunningTokenCommand (runCmd (tokenCommand tokenType)) in
  ret (TrimSpace E stdout).

(** [rand.Intn(n)]: some index below [n]; it panics for [n <= 0]. *)
Definition Intn (n : nat) : M nat :=
  fun s =>
    match n with
    | O => (Err (Panic "invalid argument to Intn"), s)
    | S _ => (Ok (randSource E (history s) mod n), s)
    end.

(** [l[i]] *)
Definition index {A} (l : list A) (i : nat) : M A :=
  match l !! i with
  | Some x => ret x
  | None => fail (Panic "index out of range")
  end.

Definition CreateSwarm (vms : VMNodes) : M unit :=
  let managers := FilterByTag vms RoleTag ManagerRole in
  if negb ((length managers =? 3)%nat || (length managers =? 5)%nat)
  then fail (InvalidQuorumSize (length managers))
  else
    let workers := FilterByTag vms RoleTag WorkerRole in
    let* randomIndex := Intn (length managers) in
    let* manager := index managers randomIndex in
    wrap SwitchingToAManagerNode (SwitchNode (PublicAddress manager)) ;;;
    let* node := wrap GettingNodeInfo GetInfo in
    let clusterID := Swarm_Cluster_ID node in
    if negb (String.eqb clusterID "")
    then fail (ClusterAlreadyExists clusterID)
    else
      let cmd := initCommand (PrivateAddress manager) (PrivateAddress manager) in
      wrap RunningInitCommand (runCmd cmd) ;;;
      wrap LabellingWorker (labelNode manager) ;;;
      let* node := wrap RefreshingNodeInfo GetInfo in
      let clusterID := Swarm_Cluster_ID node in
      let* managerToken := wrap GettingManagerToken (JoinToken managerToken) in
      let* workerToken := wrap GettingWorkerToken (JoinToken workerToken) in
      forEach managers (fun newManager =>
        if String.eqb (PublicAddress newManager) (PublicAddress manager)
        then ret tt
        else
          wrap (JoiningManager (PublicAddress newManager)
                  (PublicAddress manager) clusterID)
            (joinSwarm newManager manager managerToken) ;;;
          wrap LabellingManager (labelNode newManager)) ;;;
      forEach workers (fun worker =>
        wrap (JoiningWorker (PublicAddress worker)
                (PublicAddress manager) clusterID)
          (joinSwarm worker manager workerToken) ;;;
        wrap LabellingWorker (labelNode worker)) ;;;
      wrap SwitchingToManagerNode (SwitchNode (PublicAddress manager)).

(** The [map[string]bool] that [UpdateSwarm] fills from the roster. *)
Definition rosterHostnames (nodes : list NodeStatus) : gmap string bool :=
  foldl (fun currentNodes node => <[Status_Hostname node := true]> currentNodes)
    ∅ nodes.

Definition UpdateSwarm (vms : VMNodes) : M unit :=
  let* nodes := wrap GettingCurrentNodes GetNodes in
  let currentNodes := rosterHostnames nodes in
  let newNodes : VMNodes :=
    filter (fun vm => currentNodes !! Hostname vm = None) vms in
  let managers := FilterByTag vms RoleTag ManagerRole in
  if negb ((length managers =? 3)%nat || (length managers =? 5)%nat)
  then fail (InvalidQuorumSize (length managers))
  else
    let* randomIndex := Intn (length managers) in
    let* manager := index managers randomIndex in
    let newWorkers := FilterByTag newNodes RoleTag WorkerRole in
    let newManagers := FilterByTag newNodes RoleTag ManagerRole in
    wrap ConnectingToManager ensureManager ;;;
    let* node := wrap GettingNodeInfo GetInfo in
    let clusterID := Swarm_Cluster_ID node in
    if String.eqb clusterID ""
    then fail NoExistingCluster
    else
      let* managerToken := wrap GettingManagerToken (JoinToken managerToken) in
      let* workerToken := wrap GettingWorkerToken (JoinToken workerToken) in
      forEach newManagers (fun newManager =>
        wrap (JoiningManager (PublicAddress newManager)
                (PublicAddress manager) clusterID)
          (joinSwarm newManager manager managerToken) ;;;
        wrap LabellingManager (labelNode newManager)) ;;;
      forEach newWorkers (fun newWorker =>
        wrap (JoiningWorker (PublicAddress newWorker)
                (PublicAddress manager) clusterID)
          (joinSwarm newWorker manager workerToken) ;;;
        wrap LabellingWorker (labelNode newWorker)) ;;;
      wrap SwitchingToManagerNode (SwitchNode (PublicAddress manager)).

Definition getTasks (node : string) : M Tasks :=
  let* stdout := wrap RunningTasksCommand (runCmd (tasksCommand node)) in
  match decodeTasks E stdout with
  | None => fail DeserializationError
  | Some tasks => ret tasks
  end.

(** [time.Now()] *)
Definition timeNow : M Z :=
  fun s => (Ok (clock E (history s)), s).

(** One [select] over the ticker's channel and [ctx.Done()]: the case
    taken, [true] for the ticker's. *)
Definition selectCase : M bool :=
  fun s =>
    let tick := selectTicker E (history s) in
    (Ok tick,
     mkSession (target s)
       (history s ++ [if tick then TickerFired else DeadlineFired])
       (journal s)).

(** The [for { select { ... } }] of [drainNode]; [fuel] bounds the number
    of iterations. *)
Fixpoint drainLoop (fuel : nat) (node : string) (startedAt : Z) : M unit :=
  match fuel with
  | O => fun s => (OutOfFuel, s)
  | S fuel' =>
      let* tick := selectCase in
      if tick then
        let* now := timeNow in
        let elapsed := (now - startedAt)%Z in
        let* polled := attempt (getTasks node) in
        match polled with
        | inl _ =>
            logf (LogTasksRetry node) ;;;
            drainLoop fuel' node startedAt
        | inr tasks =>
            if AllShutdown E tasks
            then logf (LogDrained node elapsed) ;;; ret tt
            else
              logf (LogStillWaiting node elapsed) ;;;
              drainLoop fuel' node startedAt
        end
      else
        let* now := timeNow in
        let elapsed := (now - startedAt)%Z in
        logf (LogTimedOut node elapsed) ;;;
        fail (DrainTimeout node elapsed)
  end.

Definition drainNode (fuel : nat) (node : string) : M unit :=
  let* startedAt := timeNow in
  let cmd := updateCommand (setAvailability availabilityDrain) node in
  wrap RunningUpdateCommand (runCmd cmd) ;;;
  emit (WithTimeout drainTimeout) ;;;
  deferring (emit ContextCancelled)
    (emit (NewTicker tickInterval) ;;;
     deferring (emit TickerStopped)
       (drainLoop fuel node startedAt)).

Definition DrainNodes (fuel : nat) (nodes : list string) : M unit :=
  wrap ConnectingToManager ensureManager ;;;
  forEach nodes (fun node =>
    orElse (drainNode fuel node)
      (fun err =>
         logf (LogDrainFailed node) ;;;
         fail (DrainingNode node err))).

End Coordinator.

(** ** Reading a history *)

(** The commands that change the cluster, each with the target it ran on;
    queries (info, roster, tasks, tokens) and switches are left out. *)
Inductive Mutation : Type :=
| Init (on advertise : string)
| Join (on advertise token manager : string)
| Update (on options : string).

Definition mutationOf (ev : Event) : option Mutation :=
  match ev with
  | Ran on (initCommand a _) _ => Some (Init on a)
  | Ran on (joinCommand a _ t m) _ => Some (Join on a t m)
  | Ran on (updateCommand o _) _ => Some (Update on o)
  | _ => None
  end.

Definition mutations (h : list Event) : list Mutation := omap mutationOf h.

(** The commands of a history, each with the target it ran on. *)
Definition commandOf (ev : Event) : option (string * Command) :=
  match ev with
  | Ran on cmd _ => Some (on, cmd)
  | _ => None
  end.

Definition commands (h : list Event) : list (string * Command) :=
  omap commandOf h.

(** The target switches of a history, each with its result. *)
Definition switchOf (ev : Event) : option (string * bool) :=
  match ev with
  | Switched addr ok => Some (addr, ok)
  | _ => None
  end.

Definition switches (h : list Event) : list (string * bool) := omap switchOf h.

(** The node declares labels: its label tag parses to a non-empty map. *)
Definition declaresLabels (E : Env) (node : VMNode) : bool :=
  match ParseLabels E (GetTag node LabelsTag) with
  | Some (_ :: _) => true
  | _ => false
  end.

(** What labelling [node] changes: one update command on the node itself
    when it declares labels, nothing otherwise. *)
Definition labelling (E : Env) (node : VMNode) : list Mutation :=
  match ParseLabels E (GetTag node LabelsTag) with
  | Some (l :: ls) =>
      [Update (PublicAddress node)
         (String.concat " " (map labelOption (l :: ls)))]
  | _ => []
  end.

(** What admitting [node] through [manager] changes: the join command on
    the node itself, then its labelling. *)
Definition joining (E : Env) (token : string) (manager node : VMNode)
  : list Mutation :=
  Join (PublicAddress node) (PrivateAddress node) token
    (PrivateAddress manager) :: labelling E node.

(** The join that [joinSwarm] runs on [newNode] to admit it through
    [managerNode]. *)
Definition joinOf (newNode managerNode : VMNode) (token : string) : Command :=
  joinCommand (PrivateAddress newNode) (PrivateAddress newNode) token
    (PrivateAddress managerNode).

(** The update by which [labelNode] sets [labels] on the node that
    reports [info]: the node is named by the identifier it reports. *)
Definition labelUpdate (labels : Labels) (info : NodeInfo) : Command :=
  updateCommand (String.concat " " (map labelOption labels))
    (Swarm_NodeID info).

Definition isInit (m : Mutation) : bool :=
  match m with Init _ _ => true | _ => false end.
Definition isJoin (m : Mutation) : bool :=
  match m with Join _ _ _ _ => true | _ => false end.
Definition isUpdate (m : Mutation) : bool :=
  match m with Update _ _ => true | _ => false end.

(** [Skipped E h addrs h']: tried in listed order from history [h], every
    candidate of [addrs] is passed over, because its address does not
    parse or because the switch to it is refused; [h'] is the history
    after the last of them. *)
Inductive Skipped (E : Env) : list Event -> list string -> list Event -> Prop :=
| Skipped_nil h :
    Skipped E h [] h
| Skipped_unparsed h a rest h' :
    SplitHostPort E a = None ->
    Skipped E h rest h' ->
    Skipped E h (a :: rest) h'
| Skipped_refused h a host port rest h' :
    SplitHostPort E a = Some (host, port) ->
    switchAccepted E h host = false ->
    Skipped E (h ++ [Switched host false]) rest h' ->
    Skipped E h (a :: rest) h'.

(** ** A scripted environment

    A transport stub driven by tables, for running the coordinator on
    concrete inputs. *)

Fixpoint assoc {A} (key : string) (table : list (string * A)) : option A :=
  match table with
  | [] => None
  | (k, v) :: rest => if decide (k = key) then Some v else assoc key rest
  end.

(** The address the stub is bound to after a history: that of the last
    accepted switch. *)
Definition boundTo (h : list Event) : string :=
  foldl (fun t ev => match ev with Switched a true => a | _ => t end) "" h.

(** The ticks received from the ticker created last. *)
Definition ticksReceived (h : list Event) : nat :=
  foldl (fun n ev =>
           match ev with
           | NewTicker _ => O
           | TickerFired => S n
           | _ => n
           end) O h.

(** A clock that moves only while the coordinator waits: by the ticker's
    period on a tick, by the context's timeout when the deadline fires. *)
Definition clockStep (st : Z * Z * Z) (ev : Event) : Z * Z * Z :=
  let '(t, period, timeout) := st in
  match ev with
  | NewTicker d => (t, Z.max 0 d, timeout)
  | WithTimeout d => (t, period, Z.max 0 d)
  | TickerFired => ((t + period)%Z, period, timeout)
  | DeadlineFired => ((t + timeout)%Z, period, timeout)
  | _ => st
  end.

Definition scriptedClock (h : list Event) : Z :=
  fst (fst (foldl clockStep (0%Z, 0%Z, 0%Z) h)).

(** [host:port], cut at the first colon. *)
Fixpoint cutAtColon (a : string) : option (string * string) :=
  match a with
  | EmptyString => None
  | String c rest =>
      if Ascii.eqb c (Ascii.ascii_of_nat 58) then Some (EmptyString, rest)
      else
        match cutAtColon rest with
        | Some (host, port) => Some (String c host, port)
        | None => None
        end
  end.

Record Script : Type := mkScript {
  (* the addresses whose switch is refused *)
  refusing : list string;
  (* what docker info reports, by target *)
  infoOf : list (string * NodeInfo);
  (* the roster that docker node ls reports *)
  rosterOf : list NodeStatus;
  (* what math/rand yields *)
  seedOf : nat;
  (* how a task query ends, by command line and number of ticks so far *)
  tasksOf : string -> nat -> RunOutcome;
  (* the number of ticks after which the deadline fires *)
  deadlineAfter : nat
}.

Definition scripted (sc : Script) : Env := {|
  switchAccepted _ addr := negb (bool_decide (addr ∈ refusing sc));
  runOutcome h cmd :=
    if String.prefix "docker info" cmd then Completed (boundTo h)
    else if String.prefix "docker node ls" cmd then Completed "roster"
    else if String.prefix "docker node ps" cmd
         then tasksOf sc cmd (ticksReceived h)
    else if String.prefix "docker swarm join-token -q " cmd
         then Completed ("SWMTKN-" +:+ String.substring 27 (String.length cmd) cmd)
    else Completed "";
  randSource _ := seedOf sc;
  clock := scriptedClock;
  selectTicker h := (ticksReceived h <? deadlineAfter sc)%nat;
  SplitHostPort := cutAtColon;
  ParseLabels tag := if decide (tag = "") then Some [] else Some [(tag, None)];
  unmarshalNodeInfo out := assoc out (infoOf sc);
  decodeNodes out := if decide (out = "roster") then Some (rosterOf sc) else None;
  decodeTasks out :=
    if decide (out = "idle") then Some [mkTask "shutdown" "Shutdown"]
    else if decide (out = "busy") then Some [mkTask "running" "Running"]
    else None;
  TrimSpace out := out;
  taskShutdown t := String.eqb (CurrentState t) "Shutdown"
|}.

(** A fresh session bound to no node yet. *)
Definition fresh : Session := mkSession "" [] [].

(** *** Scripts *)

(** The current target is an active manager. *)
Definition onManager : Script :=
  mkScript [] [("", mkNodeInfo "n0" "c1" ["10.0.0.2:2377"] true)] [] 0
    (fun _ _ => Completed "idle") 0.

(** A worker that knows the managers [A] and [B]; [A] is unreachable. *)
Definition onWorker : Script :=
  mkScript ["A"] [("", mkNodeInfo "n0" "c1" ["A:2377"; "B:2377"] false)] [] 0
    (fun _ _ => Completed "idle") 0.

(** The desired manager set is not a quorum of 3 or 5. *)
Definition invalidQuorum (vms : VMNodes) : Prop :=
  length (FilterByTag vms RoleTag ManagerRole) <> 3%nat /\
  length (FilterByTag vms RoleTag ManagerRole) <> 5%nat.

(** A computation that changes nothing in the cluster, however it ends:
    what it adds to the history holds no mutating command. *)
Definition quiet {A} (c : M A) : Prop :=
  forall s, exists H,
    history (snd (c s)) = history s ++ H /\ mutations H = [].

(** An empty manifest against a running cluster. *)
Definition emptyManifest : Script :=
  mkScript [] [("", mkNodeInfo "n0" "c1" [] true)]
    [mkNodeStatus "h1" "manager" "active" "ready"] 0
    (fun _ _ => Completed "idle") 0.

(** Three managers and two workers; [labelled] gives each node its label
    tag. *)
Definition member (host role labels : string) : VMNode :=
  mkVMNode host (host +:+ ".pub") (host +:+ ".priv")
    [(RoleTag, role); (LabelsTag, labels)].

Definition fiveNodes : VMNodes :=
  [member "M1" "manager" "zone=a"; member "W1" "worker" "";
   member "M2" "manager" ""; member "M3" "manager" "rack=7";
   member "W2" "worker" "disk=ssd"].

(** Every node reports that it is in no cluster; [seed] picks the leader. *)
Definition virgin (seed : nat) : Script :=
  mkScript []
    (map (fun vm => (PublicAddress vm,
                     mkNodeInfo ("id-" +:+ Hostname vm) "" [] false))
       fiveNodes)
    [] seed (fun _ _ => Completed "idle") 0.

(** A manifest that lists one public address twice: the managers [M1]
    and [M3] are both reached at [X.pub]. *)
Definition sharedAddress : VMNodes :=
  [mkVMNode "M1" "X.pub" "M1.priv" [(RoleTag, "manager"); (LabelsTag, "")];
   member "M2" "manager" "";
   mkVMNode "M3" "X.pub" "M3.priv" [(RoleTag, "manager"); (LabelsTag, "")]].

(** Both addresses report that they are in no cluster; the random source
    picks [M1]. *)
Definition virginShared : Script :=
  mkScript []
    [("X.pub", mkNodeInfo "id-X" "" [] false);
     ("M2.pub", mkNodeInfo "id-M2" "" [] false)]
    [] 0 (fun _ _ => Completed "idle") 0.

(** The node [M2] already belongs to cluster [c9]. *)
Definition occupied : Script :=
  mkScript []
    [("M2.pub", mkNodeInfo "id-M2" "c9" [] true)]
    [] 1 (fun _ _ => Completed "idle") 0.

(** How many mutations of a kind a history holds. *)
Definition countIf (p : Mutation -> bool) (ms : list Mutation) : nat :=
  length (List.filter p ms).

(** The desired members whose hostname is not in the live roster. *)
Definition absentFrom (roster : list NodeStatus) (vms : VMNodes) : VMNodes :=
  filter (fun vm => Hostname vm ∉ map Status_Hostname roster) vms.

(** The target a mutation ran on. *)
Definition ranOn (m : Mutation) : string :=
  match m with
  | Init on _ => on
  | Join on _ _ _ => on
  | Update on _ => on
  end.

(** The manager address a join refers to. *)
Definition joinsVia (via : string) (m : Mutation) : Prop :=
  match m with
  | Join _ _ _ manager => manager = via
  | _ => True
  end.

Definition infoTable (cluster : string) (hosts : list string)
  : list (string * NodeInfo) :=
  ("", mkNodeInfo "id-0" cluster [] true)
    :: map (fun h => (h +:+ ".pub", mkNodeInfo ("id-" +:+ h) cluster [] true))
         hosts.

Definition rosterRows (hosts : list string) : list NodeStatus :=
  map (fun h => mkNodeStatus h "manager" "active" "ready") hosts.

(** A running cluster of [h1], [h2], [h3], to be grown by the worker
    [h4]. *)
Definition grownByWorker : Script :=
  mkScript [] (infoTable "c1" ["h1"; "h2"; "h3"; "h4"])
    (rosterRows ["h1"; "h2"; "h3"]) 0 (fun _ _ => Completed "idle") 0.

Definition withWorker : VMNodes :=
  [member "h1" "manager" ""; member "h2" "manager" "";
   member "h3" "manager" ""; member "h4" "worker" ""].

(** A cluster of [h1] alone, to be grown by the managers [h2] and [h3];
    the random source picks [h3]. *)
Definition grownByManagers : Script :=
  mkScript [] (infoTable "c1" ["h1"; "h2"; "h3"])
    (rosterRows ["h1"]) 2 (fun _ _ => Completed "idle") 0.

Definition threeManagers : VMNodes :=
  [member "h1" "manager" ""; member "h2" "manager" "";
   member "h3" "manager" ""].

(** ** Reading a drain *)

(** What one poll of the task roster shows: [true] only when the query
    succeeded, its output decoded, and every task reports shutdown. *)
Definition pollDrained (E : Env) (out : RunOutcome) : bool :=
  match out with
  | Completed stdout =>
      match decodeTasks E stdout with
      | Some tasks => AllShutdown E tasks
      | None => false
      end
  | _ => false
  end.

(** The command by which [drainNode] sets the availability of [node]. *)
Definition drainCommand (node : string) : Command :=
  updateCommand (setAvailability availabilityDrain) node.

(** [Starved E node on h n h']: from history [h], the ticker's case is
    taken [n] times in a row and none of these polls of [node], run on
    target [on], sees it drained (the query fails, or some task is not
    shut down); [h'] is the history after the last of them.  Each poll
    leaves its tick and what its task query issued. *)
Inductive Starved (E : Env) (node on : string)
  : list Event -> nat -> list Event -> Prop :=
| Starved_now h :
    Starved E node on h 0 h
| Starved_tick h n h' :
    selectTicker E h = true ->
    pollDrained E
      (runOutcome E (h ++ [TickerFired]) (render (tasksCommand node))) = false ->
    Starved E node on
      (h ++ TickerFired ::
         issued on (tasksCommand node)
           (runOutcome E (h ++ [TickerFired]) (render (tasksCommand node))))
      n h' ->
    Starved E node on h (S n) h'.

(** The runtime's clock never runs backwards. *)
Definition clockMonotone (E : Env) : Prop :=
  forall h h', (clock E h <= clock E (h ++ h'))%Z.

(** The runtime's ticker: the first tick of a ticker of period [d] is not
    received before [d] has passed since the ticker was made. *)
Definition tickerPunctual (E : Env) : Prop :=
  forall h d,
    selectTicker E (h ++ [NewTicker d]) = true ->
    (clock E h + d <= clock E (h ++ [NewTicker d; TickerFired]))%Z.

(** *** Drain scripts *)

(** On an active manager: [n1] is idle at once, every other node stays
    busy; the deadline fires after two ticks. *)
Definition busyNodes : Script :=
  mkScript [] [("", mkNodeInfo "id-0" "c1" [] true)] [] 0
    (fun cmd _ =>
       if decide (cmd = render (tasksCommand "n1"))
       then Completed "idle" else Completed "busy")
    2.

(** The first poll fails, the second sees the node idle. *)
Definition flakyPoll : Script :=
  mkScript [] [("", mkNodeInfo "id-0" "c1" [] true)] [] 0
    (fun _ ticks =>
       match ticks with
       | 1%nat => WaitFailed "" "connection reset"
       | _ => Completed "idle"
       end)
    5.

(** Every node is idle from the start. *)
Definition idleNodes : Script :=
  mkScript [] [("", mkNodeInfo "id-0" "c1" [] true)] [] 0
    (fun _ _ => Completed "idle") 3.

(** ** Listing the managers *)

(** The failures of [GetManagers], one per [fmt.Errorf] of the function. *)
Inductive managersError : Type :=
| ManagersInfo (cause : error)
    (* "error getting node info: %w" *)
| ManagersAddress (addr : string)
    (* "error parsing remote manager address: %w" *)
| ManagersSwitch (host : string) (cause : error)
    (* "error switching nodes to %s: %w" *)
| ManagersNodeInfo (cause : error).
    (* "error getting manager node info: %w" *)

Section Managers.

Variable E : Env.

(** The loop of [GetManagers]; [managers] is the slice appended to. *)
Fixpoint visitManagers (addrs : list string) (managers : list NodeInfo)
  : M (managersError + list NodeInfo) :=
  match addrs with
  | [] => ret (inr managers)
  | remoteManager :: rest =>
      match SplitHostPort E remoteManager with
      | None => ret (inl (ManagersAddress remoteManager))
      | Some (host, _) =>
          let* switched := attempt (SwitchNode E host) in
          match switched with
          | inl err => ret (inl (ManagersSwitch host err))
          | inr _ =>
              let* info := attempt (GetInfo E) in
              match info with
              | inl err => ret (inl (ManagersNodeInfo err))
              | inr node => visitManagers rest (managers ++ [node])
              end
          end
      end
  end.

(** [GetManagers]: the pair [(managers, err)] it returns is the sum. *)
Definition GetManagers : M (managersError + list NodeInfo) :=
  let* info := attempt (GetInfo E) in
  match info with
  | inl err => ret (inl (ManagersInfo err))
  | inr node => visitManagers (Swarm_RemoteManagers node) []
  end.

End Managers.

(** The hosts of the addresses that parse, in order. *)
Definition hostsOf (E : Env) (addrs : list string) : list string :=
  omap (fun a => fst <$> SplitHostPort E a) addrs.

(** The commands of a history that set a node's availability or labels. *)
Definition updateOf (c : string * Command) : option (string * string * string) :=
  match c with
  | (on, updateCommand options node) => Some (on, options, node)
  | _ => None
  end.

Definition updates (h : list Event) : list (string * string * string) :=
  omap updateOf (commands h).

(** A computation whose mutating commands follow a plan: a run that
    succeeds has issued exactly one of the admitted plans, a run that
    fails has issued the beginning of one. *)
Definition follows {A} (c : M A) (admitted : list Mutation -> Prop) : Prop :=
  forall s, exists H plan,
    history (snd (c s)) = history s ++ H /\
    admitted plan /\
    match fst (c s) with
    | Ok _ => mutations H = plan
    | _ => mutations H `prefix_of` plan
    end.

(** What a formation led by [leader] sets out to do. *)
Definition formationPlan (E : Env) (vms : VMNodes) (leader : VMNode)
    (mtoken wtoken : string) : list Mutation :=
  Init (PublicAddress leader) (PrivateAddress leader)
    :: labelling E leader
    ++ flat_map (joining E mtoken leader)
         (filter (fun m => PublicAddress m <> PublicAddress leader)
            (FilterByTag vms RoleTag ManagerRole))
    ++ flat_map (joining E wtoken leader) (FilterByTag vms RoleTag WorkerRole).

(** ** The create command of the front end *)

(** Modelled from the spec: the declaration of the Clusterfile is not in
    the sources at hand; [Create] reads its [Nodes]. *)
Record Clusterfile : Type := mkClusterfile {
  Nodes : VMNodes
}.

(** The [swarm.Swarmer] interface, as far as [Create] uses it. *)
Record Swarmer : Type := mkSwarmer {
  swarmerCreateSwarm : VMNodes -> M unit;
  swarmerGetInfo : M NodeInfo
}.

(** The coordinator is a [Swarmer]. *)
Definition managerSwarmer (E : Env) : Swarmer :=
  mkSwarmer (CreateSwarm E) (GetInfo E).

(** What [Create] prints. *)
Inductive Printed : Type :=
| ErrReadingClusterfile
    (* "error reading Clusterfile: %s\n" on stderr *)
| ErrParsingClusterfile
    (* "error parsing Clusterfile: %s\n" on stderr *)
| ErrValidatingClusterfile
    (* "error validating Clusterfile: %s\n" on stderr *)
| ErrCreatingCluster (cause : error)
    (* "error creating swarm cluster: %s\n" on stderr *)
| ErrNodeInfo (cause : error)
    (* "error creating node info: %s\n" on stderr *)
| ClusterCreated (clusterID : string).
    (* "Swarm Cluster successfully created with id: %s\n" on stdout *)

(** What [Create] takes from outside the sources at hand. *)
Record FrontEnd : Type := mkFrontEnd {
  (* the exit status of a failed command *)
  StatusError : Z;
  (* os.Open and the content read from the file; None when it fails *)
  openFile : string -> option string;
  (* what os.Stdin holds *)
  standardInput : string;
  (* swarm.ReadClusterfile *)
  ReadClusterfile : string -> option Clusterfile;
  (* Clusterfile.Validate: does it pass? *)
  Validate : Clusterfile -> bool;
  (* Status(swarmer, nil), with what it prints left out *)
  Status : M Z
}.

Definition Create (F : FrontEnd) (swarmer : Swarmer) (args : list string)
  : M (Z * list Printed) :=
  let* clusterFile := index args 0 in
  let opened :=
    if String.eqb clusterFile "-" then Some (standardInput F)
    else openFile F clusterFile in
  match opened with
  | None => ret (StatusError F, [ErrReadingClusterfile])
  | Some f =>
      match ReadClusterfile F f with
      | None => ret (StatusError F, [ErrParsingClusterfile])
      | Some cf =>
          if negb (Validate F cf)
          then ret (StatusError F, [ErrValidatingClusterfile])
          else
            let* created := attempt (swarmerCreateSwarm swarmer (Nodes cf)) in
            match created with
            | inl err => ret (StatusError F, [ErrCreatingCluster err])
            | inr _ =>
                let* info := attempt (swarmerGetInfo swarmer) in
                match info with
                | inl err => ret (StatusError F, [ErrNodeInfo err])
                | inr node =>
                    let* status := Status F in
                    ret (status, [ClusterCreated (Swarm_Cluster_ID node)])
                end
            end
      end
  end.

(** *** More scripts *)

(** A worker that knows the managers [B], [A] and [C]; [A] is unreachable. *)
Definition threeKnown : Script :=
  mkScript ["A"]
    [("", mkNodeInfo "id-0" "c1" ["B:2377"; "A:2377"; "C:2377"] false);
     ("B", mkNodeInfo "id-B" "c1" [] true);
     ("C", mkNodeInfo "id-C" "c1" [] true)]
    [] 0 (fun _ _ => Completed "idle") 0.

(** The same with every manager reachable. *)
Definition allReachable : Script :=
  mkScript []
    [("", mkNodeInfo "id-0" "c1" ["B:2377"; "C:2377"] false);
     ("B", mkNodeInfo "id-B" "c1" [] true);
     ("C", mkNodeInfo "id-C" "c1" [] true)]
    [] 0 (fun _ _ => Completed "idle") 0.

(** The node reached first reports no cluster. *)
Definition noCluster : Script :=
  mkScript [] (infoTable "" ["h1"; "h2"; "h3"])
    (rosterRows ["h1"]) 0 (fun _ _ => Completed "idle") 0.

(** A cluster that already holds every desired member. *)
Definition complete : Script :=
  mkScript [] (infoTable "c1" ["h1"; "h2"; "h3"])
    (rosterRows ["h1"; "h2"; "h3"; "h9"]) 1 (fun _ _ => Completed "idle") 0.

(** What an update through [manager] sets out to do, given the roster. *)
Definition updatePlan (E : Env) (vms : VMNodes) (roster : list NodeStatus)
    (manager : VMNode) (mtoken wtoken : string) : list Mutation :=
  flat_map (joining E mtoken manager)
    (FilterByTag (absentFrom roster vms) RoleTag ManagerRole)
  ++ flat_map (joining E wtoken manager)
       (FilterByTag (absentFrom roster vms) RoleTag WorkerRole).

(** An event of the polling loop of [drainNode] for [node] on target
    [on]: a tick, the deadline, or a task query of that node there. *)
Definition polling (node on : string) (ev : Event) : Prop :=
  match ev with
  | TickerFired | DeadlineFired => True
  | Ran on' (tasksCommand n) _ => on' = on /\ n = node
  | _ => False
  end.

(** The availability update that draining [node] on target [on] issues. *)
Definition drainUpdate (on node : string) : string * string * string :=
  (on, setAvailability availabilityDrain, node).

(** The third poll sees the node idle; the deadline is far. *)
Definition thirdPoll : Script :=
  mkScript [] [("", mkNodeInfo "id-0" "c1" [] true)] [] 0
    (fun _ ticks =>
       match ticks with
       | 1%nat => Completed "busy"
       | 2%nat => WaitFailed "" "timeout"
       | _ => Completed "idle"
       end)
    120.

(** The session of [drainNode] for [n1] when its loop starts. *)
Definition pollingStarts : Session :=
  mkSession ""
    [Ran "" (drainCommand "n1") (Completed "");
     WithTimeout drainTimeout; NewTicker tickInterval]
    [LogRunning "" (render (drainCommand "n1"))].

(** The template a command was built from. *)
Inductive Template : Type :=
| InfoT | NodesT | TasksT | InitT | JoinT | TokenT | UpdateT.

Definition templateOf (c : Command) : Template :=
  match c with
  | infoCommand => InfoT
  | nodesCommand => NodesT
  | tasksCommand _ => TasksT
  | initCommand _ _ => InitT
  | joinCommand _ _ _ _ => JoinT
  | tokenCommand _ => TokenT
  | updateCommand _ _ => UpdateT
  end.

(** Reading the template back off a command line, by its fixed
    beginning. *)
Definition templateOfLine (line : string) : option Template :=
  if String.prefix "docker info " line then Some InfoT
  else if String.prefix "docker node ls " line then Some NodesT
  else if String.prefix "docker node ps " line then Some TasksT
  else if String.prefix "docker swarm init " line then Some InitT
  else if String.prefix "docker swarm join " line then Some JoinT
  else if String.prefix "docker swarm join-token " line then Some TokenT
  else if String.prefix "docker node update " line then Some UpdateT
  else None.

(** The leader's label tag does not parse. *)
Definition badLabels : VMNodes :=
  [member "M1" "manager" "zone="; member "M2" "manager" "";
   member "M3" "manager" ""].

Definition strictLabels : Env :=
  let E := scripted (virgin 0) in
  mkEnv (switchAccepted E) (runOutcome E) (randSource E) (clock E)
    (selectTicker E) (SplitHostPort E)
    (fun tag => if decide (tag = "zone=") then None else ParseLabels E tag)
    (unmarshalNodeInfo E) (decodeNodes E) (decodeTasks E) (TrimSpace E)
    (taskShutdown E).

(** A front end over one Clusterfile, [cluster.yml], that holds
    [fiveNodes]; [valid] is what its validation says. *)
Definition frontEnd (valid : bool) : FrontEnd :=
  mkFrontEnd 1
    (fun name => if decide (name = "cluster.yml") then Some "five" else None)
    "stdin"
    (fun content =>
       if decide (content = "five") then Some (mkClusterfile fiveNodes)
       else None)
    (fun _ => valid)
    (ret 0%Z).

(** A computation that ends neither in a run-time panic nor out of
    fuel. *)
Definition sound {A} (c : M A) : Prop :=
  forall s,
    fst (c s) <> OutOfFuel /\ forall what, fst (c s) <> Err (Panic what).

(** A context that wraps an error is not a panic. *)
Definition wraps (ctx : error -> error) : Prop :=
  forall e what, ctx e <> Panic what.

(** A manifest with two managers only, and a front end that reads it. *)
Definition twoManagers : VMNodes :=
  [member "M1" "manager" ""; member "M2" "manager" "";
   member "W1" "worker" ""].

Definition frontEndOfTwo : FrontEnd :=
  mkFrontEnd 1
    (fun name => if decide (name = "cluster.yml") then Some "two" else None)
    "stdin"
    (fun content =>
       if decide (content = "two") then Some (mkClusterfile twoManagers)
       else None)
    (fun _ => true)
    (ret 0%Z).

(** ** Inversion of successful runs *)

Arguments render : simpl never.

Lemma mutations_app h1 h2 : mutations (h1 ++ h2) = mutations h1 ++ mutations h2.
Proof. apply omap_app. Qed.

Lemma commands_app h1 h2 : commands (h1 ++ h2) = commands h1 ++ commands h2.
Proof. apply omap_app. Qed.

Lemma switches_app h1 h2 : switches (h1 ++ h2) = switches h1 ++ switches h2.
Proof. apply omap_app. Qed.

Section Runs.

Variable E : Env.

Lemma bind_Ok {A B} (c : M A) (k : A -> M B) s b s' :
  bind c k s = (Ok b, s') ->
  exists a s1, c s = (Ok a, s1) /\ k a s1 = (Ok b, s').
Proof.
  unfold bind. destruct (c s) as [[a | e |] s1]; intros H; try discriminate.
  eauto.
Qed.

Lemma wrap_Ok {A} ctx (c : M A) s a s' :
  wrap ctx c s = (Ok a, s') -> c s = (Ok a, s').
Proof.
  unfold wrap. destruct (c s) as [[a' | e |] s1]; intros H; congruence.
Qed.

Lemma Switch_Ok addr s u s' :
  Switch E addr s = (Ok u, s') ->
  switchAccepted E (history s) addr = true /\
  s' = mkSession addr (history s ++ [Switched addr true]) (journal s).
Proof.
  unfold Switch. destruct (switchAccepted E (history s) addr); intros H.
  - split; [reflexivity | congruence].
  - discriminate.
Qed.

Lemma SwitchNode_Ok addr s u s' :
  SwitchNode E addr s = (Ok u, s') ->
  switchAccepted E (history s) addr = true /\
  s' = mkSession addr (history s ++ [Switched addr true]) (journal s).
Proof.
  unfold SwitchNode, orElse. intros H.
  destruct (Switch E addr s) as [[[] | e |] s1] eqn:Hs.
  - apply Switch_Ok in Hs. destruct Hs as [Hok ->]. split; congruence.
  - discriminate.
  - discriminate.
Qed.

Lemma SwitchNode_refused addr s :
  switchAccepted E (history s) addr = false ->
  SwitchNode E addr s =
    (Err (SwitchingToNode addr (TransportError addr)),
     mkSession (target s) (history s ++ [Switched addr false])
       (journal s ++ [LogSwitchFailed addr])).
Proof.
  intros H. unfold SwitchNode, orElse, Switch. rewrite H. reflexivity.
Qed.

Lemma SwitchNode_accepted addr s :
  switchAccepted E (history s) addr = true ->
  SwitchNode E addr s =
    (Ok tt, mkSession addr (history s ++ [Switched addr true]) (journal s)).
Proof.
  intros H. unfold SwitchNode, orElse, Switch. rewrite H. reflexivity.
Qed.

Lemma runCmd_Ok cmd s out s' :
  runCmd E cmd s = (Ok out, s') ->
  runOutcome E (history s) (render cmd) = Completed out /\
  s' = mkSession (target s)
         (history s ++ [Ran (target s) cmd (Completed out)])
         (journal s ++ [LogRunning (target s) (render cmd)]).
Proof.
  unfold runCmd.
  destruct (runOutcome E (history s) (render cmd)); intros H;
    try discriminate.
  injection H as -> <-. split; reflexivity.
Qed.

Lemma runCmd_completed cmd s out :
  runOutcome E (history s) (render cmd) = Completed out ->
  runCmd E cmd s =
    (Ok out,
     mkSession (target s)
       (history s ++ [Ran (target s) cmd (Completed out)])
       (journal s ++ [LogRunning (target s) (render cmd)])).
Proof. intros H. unfold runCmd. rewrite H. reflexivity. Qed.

(** A command changes neither the target nor, but for its own event, the
    history, however it ends; with no runner to hand it to it leaves no
    event. *)
Lemma runCmd_session cmd s :
  target (snd (runCmd E cmd s)) = target s /\
  history (snd (runCmd E cmd s)) =
    history s ++ issued (target s) cmd (runOutcome E (history s) (render cmd)).
Proof.
  unfold runCmd.
  destruct (runOutcome E (history s) (render cmd)); split; cbn;
    rewrite ?app_nil_r; reflexivity.
Qed.

Lemma GetInfo_Ok s node s' :
  GetInfo E s = (Ok node, s') ->
  exists out,
    runOutcome E (history s) (render infoCommand) = Completed out /\
    unmarshalNodeInfo E out = Some node /\
    s' = mkSession (target s)
           (history s ++ [Ran (target s) infoCommand (Completed out)])
           (journal s ++ [LogRunning (target s) (render infoCommand)]).
Proof.
  unfold GetInfo. intros H.
  apply bind_Ok in H. destruct H as (out & s1 & Hrun & Hk).
  apply wrap_Ok, runCmd_Ok in Hrun. destruct Hrun as [Hout ->].
  exists out. destruct (unmarshalNodeInfo E out) as [n |]; [| discriminate].
  injection Hk as -> <-. auto.
Qed.

Lemma GetInfo_completed s out node :
  runOutcome E (history s) (render infoCommand) = Completed out ->
  unmarshalNodeInfo E out = Some node ->
  GetInfo E s =
    (Ok node,
     mkSession (target s)
       (history s ++ [Ran (target s) infoCommand (Completed out)])
       (journal s ++ [LogRunning (target s) (render infoCommand)])).
Proof.
  intros Hout Hnode. unfold GetInfo, bind, wrap.
  rewrite (runCmd_completed _ _ _ Hout). cbn. rewrite Hnode. reflexivity.
Qed.

End Runs.

(** ** Manager failover *)

Section Failover.

Variable E : Env.

Lemma tryRemoteManagers_skipped addrs : forall s h',
  Skipped E (history s) addrs h' ->
  exists s',
    tryRemoteManagers E addrs s = (Err NoSuitableManager, s') /\
    target s' = target s /\ history s' = h'.
Proof.
  induction addrs as [| a rest IH]; intros s h' Hsk;
    inversion Hsk as [| ? ? ? ? Hp Hrest | ? ? host port ? ? Hp Href Hrest];
    subst.
  - exists s. auto.
  - cbn. rewrite Hp. unfold bind, logf.
    edestruct IH as (s' & Hrun & Ht & Hh); [| rewrite Hrun; eauto].
    assumption.
  - cbn. rewrite Hp. unfold orElse. rewrite (SwitchNode_refused E _ _ Href).
    unfold bind, logf.
    edestruct IH as (s' & Hrun & Ht & Hh); [| rewrite Hrun; eauto].
    assumption.
Qed.

Lemma tryRemoteManagers_first skipped : forall a rest host port s h1,
  Skipped E (history s) skipped h1 ->
  SplitHostPort E a = Some (host, port) ->
  switchAccepted E h1 host = true ->
  exists s',
    tryRemoteManagers E (skipped ++ a :: rest) s = (Ok tt, s') /\
    target s' = host /\ history s' = h1 ++ [Switched host true].
Proof.
  induction skipped as [| c more IH]; intros a rest host port s h1 Hsk Hp Hacc;
    inversion Hsk as [| ? ? ? ? Hc Hrest | ? ? chost cport ? ? Hc Href Hrest];
    subst.
  - cbn. rewrite Hp. unfold orElse.
    rewrite (SwitchNode_accepted E _ _ Hacc). eauto.
  - cbn. rewrite Hc. unfold bind, logf.
    edestruct (IH a rest host port) as (s' & Hrun & Ht & Hh);
      [| eassumption | eassumption | rewrite Hrun; eauto].
    assumption.
  - cbn. rewrite Hc. unfold orElse. rewrite (SwitchNode_refused E _ _ Href).
    unfold bind, logf.
    edestruct (IH a rest host port) as (s' & Hrun & Ht & Hh);
      [| eassumption | eassumption | rewrite Hrun; eauto].
    assumption.
Qed.

(** Passing candidates over leaves only refused switches in the history. *)
Lemma Skipped_only_switches h addrs h' :
  Skipped E h addrs h' ->
  exists sw, h' = h ++ sw /\ commands sw = [] /\
    Forall (fun ev => exists host, ev = Switched host false) sw.
Proof.
  induction 1 as [h | h a rest h' Hp Hsk IH | h a host port rest h' Hp Hr Hsk IH].
  - exists []. rewrite app_nil_r. auto.
  - exact IH.
  - destruct IH as (sw & -> & Hc & Hall).
    exists (Switched host false :: sw). rewrite <- app_assoc. cbn.
    repeat split; eauto.
Qed.

End Failover.

Section FailoverClaims.

Variable E : Env.

(** C8. Whenever the information queried on the current target reports an
    active manager, [ensureManager] succeeds at once: the only event is
    that one query, the target is unchanged and no switch is made. *)
Theorem ensureManager_active_manager s out node :
  runOutcome E (history s) (render infoCommand) = Completed out ->
  unmarshalNodeInfo E out = Some node ->
  IsManager node = true ->
  exists s',
    ensureManager E s = (Ok tt, s') /\
    target s' = target s /\
    history s' = history s ++ [Ran (target s) infoCommand (Completed out)] /\
    switches (history s') = switches (history s).
Proof.
  intros Hout Hnode Hmgr. eexists. unfold ensureManager, bind, wrap.
  rewrite (GetInfo_completed E _ _ _ Hout Hnode). rewrite Hmgr. cbn.
  repeat split. cbn [history]. rewrite switches_app. apply app_nil_r.
Qed.

(** C4. When the current target does not report an active manager,
    [ensureManager] tries the remote managers of that same report in
    listed order.  Candidates whose address does not parse or whose switch
    is refused are passed over; at the first candidate whose switch is
    accepted it succeeds with that candidate as target and nothing asked of
    it (no command follows the switch); when every candidate is passed
    over, among them when there is none, it fails with
    [NoSuitableManager]. *)
Theorem ensureManager_failover s out node :
  runOutcome E (history s) (render infoCommand) = Completed out ->
  unmarshalNodeInfo E out = Some node ->
  IsManager node = false ->
  let h0 := history s ++ [Ran (target s) infoCommand (Completed out)] in
  (forall skipped a rest host port h1,
      Swarm_RemoteManagers node = skipped ++ a :: rest ->
      Skipped E h0 skipped h1 ->
      SplitHostPort E a = Some (host, port) ->
      switchAccepted E h1 host = true ->
      exists s',
        ensureManager E s = (Ok tt, s') /\
        target s' = host /\
        history s' = h1 ++ [Switched host true] /\
        commands (history s') = commands h0) /\
  (forall h1,
      Skipped E h0 (Swarm_RemoteManagers node) h1 ->
      exists s',
        ensureManager E s = (Err NoSuitableManager, s') /\
        target s' = target s /\
        history s' = h1 /\
        commands (history s') = commands h0).
Proof.
  intros Hout Hnode Hmgr h0.
  set (s1 := mkSession (target s) h0
               (journal s ++ [LogRunning (target s) (render infoCommand)])).
  assert (Hrun : forall k : NodeInfo -> M unit,
             bind (wrap GettingNodeInfo (GetInfo E)) k s = k node s1).
  { intros k. unfold bind, wrap.
    rewrite (GetInfo_completed E _ _ _ Hout Hnode). reflexivity. }
  split.
  - intros skipped a rest host port h1 Hlist Hsk Hp Hacc.
    unfold ensureManager. rewrite Hrun, Hmgr, Hlist. cbn [negb].
    destruct (tryRemoteManagers_first E skipped a rest host port s1 h1 Hsk Hp Hacc)
      as (s' & Hok & Ht & Hh).
    exists s'. repeat split; try assumption.
    rewrite Hh. destruct (Skipped_only_switches E _ _ _ Hsk) as (sw & -> & Hc & _).
    rewrite !commands_app, Hc. cbn. rewrite !app_nil_r. reflexivity.
  - intros h1 Hsk. unfold ensureManager. rewrite Hrun, Hmgr. cbn [negb].
    destruct (tryRemoteManagers_skipped E (Swarm_RemoteManagers node) s1 h1 Hsk)
      as (s' & Hfail & Ht & Hh).
    exists s'. repeat split; try assumption.
    rewrite Hh. destruct (Skipped_only_switches E _ _ _ Hsk) as (sw & -> & Hc & _).
    rewrite !commands_app, Hc. cbn. rewrite !app_nil_r. reflexivity.
Qed.

End FailoverClaims.

Lemma ensureManager_active_manager_witness :
  exists s',
    ensureManager (scripted onManager) fresh = (Ok tt, s') /\
    target s' = "" /\
    history s' = [Ran "" infoCommand (Completed "")] /\
    switches (history s') = [].
Proof.
  apply (ensureManager_active_manager (scripted onManager) fresh ""
           (mkNodeInfo "n0" "c1" ["10.0.0.2:2377"] true));
    reflexivity.
Defined.

Lemma ensureManager_failover_witness :
  exists s',
    ensureManager (scripted onWorker) fresh = (Ok tt, s') /\
    target s' = "B" /\
    history s' =
      [Ran "" infoCommand (Completed ""); Switched "A" false] ++
      [Switched "B" true] /\
    commands (history s') = [("", infoCommand)].
Proof.
  apply (proj1 (ensureManager_failover (scripted onWorker) fresh ""
                  (mkNodeInfo "n0" "c1" ["A:2377"; "B:2377"] false)
                  eq_refl eq_refl eq_refl)
           ["A:2377"] "B:2377" [] "B" "2377").
  - reflexivity.
  - eapply Skipped_refused; [reflexivity | reflexivity | apply Skipped_nil].
  - reflexivity.
  - reflexivity.
Defined.

(** ** Computations that leave the cluster as it is *)

Section Quiet.

Variable E : Env.

Lemma quiet_ret {A} (a : A) : quiet (ret a).
Proof. intros s. exists []. cbn. rewrite app_nil_r. auto. Qed.

Lemma quiet_fail {A} e : quiet (@fail A e).
Proof. intros s. exists []. cbn. rewrite app_nil_r. auto. Qed.

Lemma quiet_logf l : quiet (logf l).
Proof. intros s. exists []. cbn. rewrite app_nil_r. auto. Qed.

Lemma quiet_bind {A B} (c : M A) (k : A -> M B) :
  quiet c -> (forall a, quiet (k a)) -> quiet (bind c k).
Proof.
  intros Hc Hk s. unfold bind. destruct (Hc s) as (H1 & Hh1 & Hm1).
  destruct (c s) as [[a | e |] s1]; cbn in *; eauto.
  destruct (Hk a s1) as (H2 & Hh2 & Hm2).
  exists (H1 ++ H2). rewrite Hh2, Hh1, <- app_assoc, mutations_app, Hm1, Hm2.
  auto.
Qed.

Lemma quiet_wrap {A} ctx (c : M A) : quiet c -> quiet (wrap ctx c).
Proof.
  intros Hc s. unfold wrap. destruct (Hc s) as (H1 & Hh1 & Hm1).
  destruct (c s) as [[a | e |] s1]; cbn in *; eauto.
Qed.

Lemma quiet_orElse {A} (c : M A) h :
  quiet c -> (forall e, quiet (h e)) -> quiet (orElse c h).
Proof.
  intros Hc Hh s. unfold orElse. destruct (Hc s) as (H1 & Hh1 & Hm1).
  destruct (c s) as [[a | e |] s1]; cbn in *; eauto.
  destruct (Hh e s1) as (H2 & Hh2 & Hm2).
  exists (H1 ++ H2). rewrite Hh2, Hh1, <- app_assoc, mutations_app, Hm1, Hm2.
  auto.
Qed.

Lemma quiet_Switch addr : quiet (Switch E addr).
Proof.
  intros s. unfold Switch.
  destruct (switchAccepted E (history s) addr); eexists; cbn; eauto.
Qed.

Lemma quiet_SwitchNode addr : quiet (SwitchNode E addr).
Proof.
  apply quiet_orElse; [apply quiet_Switch |].
  intros e. apply quiet_bind; [apply quiet_logf | intros; apply quiet_fail].
Qed.

Lemma quiet_runCmd cmd :
  (forall on o, mutationOf (Ran on cmd o) = None) -> quiet (runCmd E cmd).
Proof.
  intros Hq s. destruct (runCmd_session E cmd s) as [_ Hh].
  eexists. split; [exact Hh |].
  destruct (runOutcome E (history s) (render cmd)) eqn:Hout;
    [reflexivity | ..];
    match goal with
    | |- mutations (issued ?on cmd ?o) = [] =>
        change (mutations (issued on cmd o))
          with (from_option (fun m => [m]) [] (mutationOf (Ran on cmd o)))
    end;
    rewrite Hq; reflexivity.
Qed.

Lemma quiet_GetInfo : quiet (GetInfo E).
Proof.
  apply quiet_bind.
  - apply quiet_wrap, quiet_runCmd. reflexivity.
  - intros out. destruct (unmarshalNodeInfo E out);
      [apply quiet_ret | apply quiet_fail].
Qed.

Lemma quiet_tryRemoteManagers addrs : quiet (tryRemoteManagers E addrs).
Proof.
  induction addrs as [| a rest IH]; cbn.
  - apply quiet_fail.
  - destruct (SplitHostPort E a) as [[host port] |].
    + apply quiet_orElse; [apply quiet_SwitchNode |].
      intros _. apply quiet_bind; [apply quiet_logf | intros; exact IH].
    + apply quiet_bind; [apply quiet_logf | intros; exact IH].
Qed.

Lemma quiet_ensureManager : quiet (ensureManager E).
Proof.
  apply quiet_bind; [apply quiet_wrap, quiet_GetInfo |].
  intros node. destruct (negb (IsManager node));
    [apply quiet_tryRemoteManagers | apply quiet_ret].
Qed.

Lemma quiet_GetNodes : quiet (GetNodes E).
Proof.
  apply quiet_bind; [apply quiet_wrap, quiet_ensureManager |].
  intros _. apply quiet_bind.
  - apply quiet_wrap, quiet_runCmd. reflexivity.
  - intros out. destruct (decodeNodes E out);
      [apply quiet_ret | apply quiet_fail].
Qed.

End Quiet.

(** ** Quorum size *)

Lemma quorum_rejected n :
  n <> 3%nat -> n <> 5%nat -> negb ((n =? 3)%nat || (n =? 5)%nat) = true.
Proof.
  intros H3 H5.
  destruct (Nat.eqb_spec n 3); [contradiction |].
  destruct (Nat.eqb_spec n 5); [contradiction | reflexivity].
Qed.

Lemma quorum_admitted n :
  n = 3%nat \/ n = 5%nat -> negb ((n =? 3)%nat || (n =? 5)%nat) = false.
Proof. intros [-> | ->]; reflexivity. Qed.

Section QuorumClaims.

Variable E : Env.

(** C1, as the code has it.  When the manager-tagged members are neither
    3 nor 5, [CreateSwarm] fails with [InvalidQuorumSize] and the session
    is untouched: nothing was asked of any node.  [UpdateSwarm] queries the
    live roster first; once that query has succeeded it fails with
    [InvalidQuorumSize] with nothing further asked of any node, and however
    the query ends no mutating command is issued. *)
Theorem invalid_quorum_rejected vms s :
  invalidQuorum vms ->
  let n := length (FilterByTag vms RoleTag ManagerRole) in
  CreateSwarm E vms s = (Err (InvalidQuorumSize n), s) /\
  (forall roster s1,
      GetNodes E s = (Ok roster, s1) ->
      UpdateSwarm E vms s = (Err (InvalidQuorumSize n), s1)) /\
  (exists H,
      history (snd (UpdateSwarm E vms s)) = history s ++ H /\
      mutations H = []).
Proof.
  intros [H3 H5] n. repeat split.
  - unfold CreateSwarm. fold n. rewrite (quorum_rejected n H3 H5). reflexivity.
  - intros roster s1 Hget. unfold UpdateSwarm, bind, wrap. rewrite Hget.
    fold n. rewrite (quorum_rejected n H3 H5). reflexivity.
  - unfold UpdateSwarm. fold n. rewrite (quorum_rejected n H3 H5).
    apply quiet_bind; [apply quiet_wrap, quiet_GetNodes |].
    intros; apply quiet_fail.
Qed.

End QuorumClaims.

Lemma invalid_quorum_rejected_witness :
  CreateSwarm (scripted emptyManifest) [] fresh =
    (Err (InvalidQuorumSize 0), fresh) /\
  fst (UpdateSwarm (scripted emptyManifest) [] fresh) =
    Err (InvalidQuorumSize 0).
Proof.
  assert (Hbad : invalidQuorum []) by (split; cbn; lia).
  destruct (invalid_quorum_rejected (scripted emptyManifest) [] fresh Hbad)
    as (Hc & Hu & _).
  split; [exact Hc |].
  erewrite Hu; reflexivity.
Defined.

(** C1 as stated fails for [UpdateSwarm]: with no manager in the manifest
    it has already run two commands, the information query and the roster
    listing, when it fails with [InvalidQuorumSize]. *)
Lemma UpdateSwarm_invalid_quorum_after_commands :
  invalidQuorum [] /\
  fst (UpdateSwarm (scripted emptyManifest) [] fresh) =
    Err (InvalidQuorumSize 0) /\
  commands (history (snd (UpdateSwarm (scripted emptyManifest) [] fresh))) =
    [("", infoCommand); ("", nodesCommand)] /\
  ~ (forall (E : Env) (vms : VMNodes) (s : Session),
        invalidQuorum vms ->
        exists n, UpdateSwarm E vms s = (Err (InvalidQuorumSize n), s)).
Proof.
  split; [split; cbn; lia |].
  split; [reflexivity |]. split; [reflexivity |].
  intros Hclaim.
  destruct (Hclaim (scripted emptyManifest) [] fresh) as [n Hn].
  - split; cbn; lia.
  - apply (f_equal snd) in Hn. apply (f_equal history) in Hn.
    cbn in Hn. discriminate Hn.
Qed.

(** ** Cluster formation *)

Section Formation.

Variable E : Env.

Lemma Intn_pos n s :
  n <> O -> Intn E n s = (Ok (randSource E (history s) mod n), s).
Proof. intros Hn. destruct n; [contradiction | reflexivity]. Qed.

Lemma index_Some {A} (l : list A) i x s :
  l !! i = Some x -> index l i s = (Ok x, s).
Proof. intros H. unfold index. rewrite H. reflexivity. Qed.

Lemma index_Ok {A} (l : list A) i x s s' :
  index l i s = (Ok x, s') -> l !! i = Some x /\ s' = s.
Proof.
  unfold index. destruct (l !! i); cbn; intros H; [| discriminate].
  injection H as -> ->. auto.
Qed.

(** The leader drawn by [rand.Intn] is one of the managers. *)
Lemma leader_exists (managers : VMNodes) seed :
  length managers = 3%nat \/ length managers = 5%nat ->
  exists leader, managers !! (seed mod length managers) = Some leader.
Proof.
  intros Hn. apply lookup_lt_is_Some_2.
  apply Nat.mod_upper_bound. lia.
Qed.

(** C7. When the information queried on the leader that [CreateSwarm]
    selected reports a cluster identifier that is not empty, [CreateSwarm]
    fails with [ClusterAlreadyExists]; by then it has switched to the
    leader and run that query, and no init or other mutating command. *)
Theorem CreateSwarm_cluster_exists vms s leader out node :
  let managers := FilterByTag vms RoleTag ManagerRole in
  length managers = 3%nat \/ length managers = 5%nat ->
  managers !! (randSource E (history s) mod length managers) = Some leader ->
  switchAccepted E (history s) (PublicAddress leader) = true ->
  let h1 := history s ++ [Switched (PublicAddress leader) true] in
  runOutcome E h1 (render infoCommand) = Completed out ->
  unmarshalNodeInfo E out = Some node ->
  Swarm_Cluster_ID node <> "" ->
  exists s',
    CreateSwarm E vms s =
      (Err (ClusterAlreadyExists (Swarm_Cluster_ID node)), s') /\
    history s' =
      h1 ++ [Ran (PublicAddress leader) infoCommand (Completed out)] /\
    mutations (history s') = mutations (history s).
Proof.
  intros managers Hn Hleader Hsw h1 Hout Hnode Hid.
  unfold CreateSwarm. fold managers. rewrite (quorum_admitted _ Hn).
  cbn [negb]. unfold bind at 1. rewrite Intn_pos by lia.
  unfold bind at 1. rewrite (index_Some _ _ _ _ Hleader).
  unfold bind at 1. unfold wrap at 1.
  rewrite (SwitchNode_accepted E _ _ Hsw).
  unfold bind at 1. unfold wrap at 1.
  rewrite (GetInfo_completed E _ out node); [| exact Hout | exact Hnode].
  destruct (String.eqb_spec (Swarm_Cluster_ID node) ""); [contradiction |].
  cbn [negb]. eexists. split; [reflexivity |]. split; [reflexivity |].
  cbn [history]. rewrite !mutations_app. cbn. rewrite !app_nil_r. reflexivity.
Qed.

End Formation.

Lemma CreateSwarm_cluster_exists_witness :
  exists s',
    CreateSwarm (scripted occupied) fiveNodes fresh =
      (Err (ClusterAlreadyExists "c9"), s') /\
    history s' =
      [Switched "M2.pub" true] ++
      [Ran "M2.pub" infoCommand (Completed "M2.pub")] /\
    mutations (history s') = [].
Proof.
  apply (CreateSwarm_cluster_exists (scripted occupied) fiveNodes fresh
           (member "M2" "manager" "") "M2.pub"
           (mkNodeInfo "id-M2" "c9" [] true)).
  - left. reflexivity.
  - reflexivity.
  - reflexivity.
  - reflexivity.
  - reflexivity.
  - discriminate.
Defined.

(** ** What a successful run leaves in the history *)

Section Effects.

Variable E : Env.

Lemma joinSwarm_Ok newNode managerNode token s u s' :
  joinSwarm E newNode managerNode token s = (Ok u, s') ->
  target s' = PublicAddress newNode /\
  exists out,
    history s' =
      history s ++
      [Switched (PublicAddress newNode) true;
       Ran (PublicAddress newNode)
         (joinCommand (PrivateAddress newNode) (PrivateAddress newNode) token
            (PrivateAddress managerNode))
         (Completed out)].
Proof.
  unfold joinSwarm. intros H.
  apply bind_Ok in H. destruct H as ([] & s1 & Hsw & H).
  apply wrap_Ok, SwitchNode_Ok in Hsw. destruct Hsw as [_ ->].
  apply bind_Ok in H. destruct H as (out & s2 & Hrun & H).
  apply wrap_Ok, runCmd_Ok in Hrun. destruct Hrun as [_ ->].
  injection H as _ <-. cbn. split; [reflexivity |].
  exists out. rewrite <- app_assoc. reflexivity.
Qed.

Lemma labelNode_Ok node s u s' :
  labelNode E node s = (Ok u, s') ->
  target s' = PublicAddress node /\
  exists H, history s' = history s ++ H /\ mutations H = labelling E node.
Proof.
  unfold labelNode, labelling. intros H.
  apply bind_Ok in H. destruct H as ([] & s1 & Hsw & H).
  apply wrap_Ok, SwitchNode_Ok in Hsw. destruct Hsw as [_ ->].
  apply bind_Ok in H. destruct H as (info & s2 & Hinfo & H).
  apply wrap_Ok, GetInfo_Ok in Hinfo. destruct Hinfo as (out & _ & _ & ->).
  destruct (ParseLabels E (GetTag node LabelsTag)) as [[| l ls] |].
  - injection H as _ <-. cbn. split; [reflexivity |].
    eexists. rewrite <- app_assoc. split; reflexivity.
  - apply bind_Ok in H. destruct H as (out' & s3 & Hrun & H).
    apply wrap_Ok, runCmd_Ok in Hrun. destruct Hrun as [_ ->].
    injection H as _ <-. cbn. split; [reflexivity |].
    eexists. rewrite <- !app_assoc. split; reflexivity.
  - apply bind_Ok in H. destruct H as ([] & s3 & _ & H). discriminate.
Qed.

(** Joining then labelling one node, as both [CreateSwarm] and
    [UpdateSwarm] do in their loops. *)
Lemma admit_Ok ctxJoin ctxLabel node managerNode token s u s' :
  (wrap ctxJoin (joinSwarm E node managerNode token) ;;;
   wrap ctxLabel (labelNode E node)) s = (Ok u, s') ->
  target s' = PublicAddress node /\
  exists H,
    history s' = history s ++ H /\
    mutations H = joining E token managerNode node.
Proof.
  intros H. apply bind_Ok in H. destruct H as ([] & s1 & Hjoin & Hlabel).
  apply wrap_Ok, joinSwarm_Ok in Hjoin. destruct Hjoin as (_ & out & Hh1).
  apply wrap_Ok, labelNode_Ok in Hlabel.
  destruct Hlabel as (Ht & H2 & Hh2 & Hm2).
  split; [exact Ht |]. eexists. rewrite Hh2, Hh1, <- app_assoc.
  split; [reflexivity |]. rewrite mutations_app, Hm2. reflexivity.
Qed.

Lemma forEach_Ok {A} (body : A -> M unit) (f : A -> list Mutation) l :
  (forall x s s',
      body x s = (Ok tt, s') ->
      exists H, history s' = history s ++ H /\ mutations H = f x) ->
  forall s s',
    forEach l body s = (Ok tt, s') ->
    exists H, history s' = history s ++ H /\ mutations H = flat_map f l.
Proof.
  intros Hbody. induction l as [| x rest IH]; intros s s' H.
  - injection H as <-. exists []. rewrite app_nil_r. auto.
  - cbn in H. apply bind_Ok in H. destruct H as ([] & s1 & Hx & Hrest).
    apply Hbody in Hx. destruct Hx as (H1 & Hh1 & Hm1).
    apply IH in Hrest. destruct Hrest as (H2 & Hh2 & Hm2).
    exists (H1 ++ H2). rewrite Hh2, Hh1, <- app_assoc, mutations_app, Hm1, Hm2.
    auto.
Qed.

Lemma flat_map_skipping {A B} (P : A -> Prop) `{!forall x, Decision (P x)}
    (f : A -> list B) l :
  flat_map (fun x => if decide (P x) then f x else []) l =
  flat_map f (filter P l).
Proof.
  induction l as [| x rest IH]; [reflexivity |].
  cbn. rewrite IH. unfold filter at 2. cbn. destruct (decide (P x)); reflexivity.
Qed.

End Effects.

(** ** Counting mutations *)

Section Counting.

Variable E : Env.

Lemma countIf_app p ms1 ms2 :
  countIf p (ms1 ++ ms2) = (countIf p ms1 + countIf p ms2)%nat.
Proof. unfold countIf. rewrite List.filter_app, length_app. reflexivity. Qed.

Lemma labelling_counts node :
  countIf isInit (labelling E node) = 0%nat /\
  countIf isJoin (labelling E node) = 0%nat /\
  countIf isUpdate (labelling E node) =
    (if declaresLabels E node then 1 else 0)%nat.
Proof.
  unfold labelling, declaresLabels.
  destruct (ParseLabels E (GetTag node LabelsTag)) as [[| l ls] |];
    repeat split; reflexivity.
Qed.

Lemma joining_counts token manager nodes :
  countIf isInit (flat_map (joining E token manager) nodes) = 0%nat /\
  countIf isJoin (flat_map (joining E token manager) nodes) = length nodes /\
  countIf isUpdate (flat_map (joining E token manager) nodes) =
    length (List.filter (declaresLabels E) nodes).
Proof.
  induction nodes as [| n rest (IHi & IHj & IHu)]; [repeat split; reflexivity |].
  destruct (labelling_counts n) as (Li & Lj & Lu).
  change (flat_map (joining E token manager) (n :: rest))
    with ([Join (PublicAddress n) (PrivateAddress n) token
             (PrivateAddress manager)]
          ++ labelling E n ++ flat_map (joining E token manager) rest).
  rewrite !countIf_app, Li, Lj, Lu, IHi, IHj, IHu. cbn [List.filter].
  destruct (declaresLabels E n); repeat split; reflexivity.
Qed.

Lemma filter_other_addresses (nodes : list VMNode) a :
  a ∉ map PublicAddress nodes ->
  filter (fun m => PublicAddress m <> a) nodes = nodes.
Proof.
  induction nodes as [| x rest IH]; intros Hnotin; [reflexivity |].
  cbn in Hnotin. apply not_elem_of_cons in Hnotin. destruct Hnotin as [Hne Hrest].
  rewrite filter_cons_True by congruence. f_equal. apply IH, Hrest.
Qed.

(** With pairwise distinct public addresses, the managers other than the
    leader are the managers with the leader's position removed. *)
Lemma others_delete (managers : list VMNode) : forall i leader,
  NoDup (map PublicAddress managers) ->
  managers !! i = Some leader ->
  filter (fun m => PublicAddress m <> PublicAddress leader) managers =
    delete i managers.
Proof.
  induction managers as [| m rest IH]; intros i leader Hnd Hi; [discriminate |].
  cbn in Hnd. apply NoDup_cons in Hnd. destruct Hnd as [Hnotin Hnd].
  destruct i as [| i]; cbn in Hi.
  - injection Hi as ->.
    rewrite filter_cons_False by (intros Hne; apply Hne; reflexivity).
    cbn. apply filter_other_addresses, Hnotin.
  - assert (Hin : leader ∈ rest) by (eapply list_elem_of_lookup_2; eassumption).
    rewrite filter_cons_True.
    + cbn. f_equal. apply IH; assumption.
    + intros Heq. apply Hnotin. rewrite Heq. apply list_elem_of_fmap. eauto.
Qed.

End Counting.

Section FormationClaims.

Variable E : Env.

Lemma quorum_admitted_inv n :
  negb ((n =? 3)%nat || (n =? 5)%nat) = false -> n = 3%nat \/ n = 5%nat.
Proof.
  destruct (Nat.eqb_spec n 3); [auto |].
  destruct (Nat.eqb_spec n 5); [auto | discriminate].
Qed.

Lemma Intn_Ok n s r s' :
  Intn E n s = (Ok r, s') ->
  r = (randSource E (history s) mod n)%nat /\ s' = s.
Proof.
  unfold Intn. destruct n; [discriminate |]. intros H.
  injection H as <- <-. auto.
Qed.

Lemma JoinToken_Ok tokenType s token s' :
  JoinToken E tokenType s = (Ok token, s') ->
  target s' = target s /\
  exists out,
    token = TrimSpace E out /\
    history s' =
      history s ++ [Ran (target s) (tokenCommand tokenType) (Completed out)].
Proof.
  unfold JoinToken. intros H.
  apply bind_Ok in H as (out & s1 & Hrun & H).
  apply wrap_Ok, runCmd_Ok in Hrun. destruct Hrun as [_ ->].
  injection H as <- <-. cbn. eauto.
Qed.

(** C3, as amended.  A successful [CreateSwarm] has drawn its leader
    among the 3 or 5 managers and changed the cluster by exactly this
    sequence: one init command on the leader, the leader's labelling, then
    for every manager whose public address is not the leader's, in
    manifest order, its join with the manager token followed by its
    labelling, then the same for every worker with the worker token.  So
    there is one init, one join per manager at another address and per
    worker, every manager join before every worker join, and one label
    update per such node that declares labels.  The run ends with the
    switch back to the leader.  When the managers' public addresses are
    pairwise distinct, the managers at another address are all managers
    but the leader. *)
Theorem CreateSwarm_forms_cluster vms s s' :
  CreateSwarm E vms s = (Ok tt, s') ->
  let managers := FilterByTag vms RoleTag ManagerRole in
  let workers := FilterByTag vms RoleTag WorkerRole in
  let i := (randSource E (history s) mod length managers)%nat in
  exists leader mtoken wtoken H,
    (length managers = 3%nat \/ length managers = 5%nat) /\
    managers !! i = Some leader /\
    history s' = history s ++ H ++ [Switched (PublicAddress leader) true] /\
    target s' = PublicAddress leader /\
    let others :=
      filter (fun m => PublicAddress m <> PublicAddress leader) managers in
    mutations H =
      Init (PublicAddress leader) (PrivateAddress leader)
        :: labelling E leader
        ++ flat_map (joining E mtoken leader) others
        ++ flat_map (joining E wtoken leader) workers /\
    countIf isInit (mutations H) = 1%nat /\
    countIf isJoin (mutations H) = (length others + length workers)%nat /\
    countIf isUpdate (mutations H) =
      length (List.filter (declaresLabels E) (leader :: others ++ workers)) /\
    (NoDup (map PublicAddress managers) ->
     others = delete i managers /\
     length others = (length managers - 1)%nat).
Proof.
  intros Hrun managers workers i.
  unfold CreateSwarm in Hrun. fold managers workers in Hrun.
  destruct (negb ((length managers =? 3)%nat || (length managers =? 5)%nat))
    eqn:Hq; [discriminate |].
  apply quorum_admitted_inv in Hq.
  apply bind_Ok in Hrun as (ri & s1 & Hr & Hrun).
  apply Intn_Ok in Hr. destruct Hr as [-> ->]. fold i in Hrun.
  apply bind_Ok in Hrun as (leader & s2 & Hidx & Hrun).
  apply index_Ok in Hidx. destruct Hidx as [Hleader ->].
  apply bind_Ok in Hrun as ([] & s3 & Hsw & Hrun).
  apply wrap_Ok, SwitchNode_Ok in Hsw. destruct Hsw as [_ ->].
  apply bind_Ok in Hrun as (node & s4 & Hinfo & Hrun).
  apply wrap_Ok, GetInfo_Ok in Hinfo. destruct Hinfo as (out & _ & _ & ->).
  destruct (negb (Swarm_Cluster_ID node =? "")%string); [discriminate |].
  apply bind_Ok in Hrun as (out1 & s5 & Hinit & Hrun).
  apply wrap_Ok, runCmd_Ok in Hinit. destruct Hinit as [_ ->].
  apply bind_Ok in Hrun as ([] & s6 & Hlabel & Hrun).
  apply wrap_Ok, labelNode_Ok in Hlabel.
  destruct Hlabel as (Ht6 & H6 & Hh6 & Hm6). cbn in Hh6.
  apply bind_Ok in Hrun as (node' & s7 & Hinfo & Hrun).
  apply wrap_Ok, GetInfo_Ok in Hinfo. destruct Hinfo as (out2 & _ & _ & ->).
  apply bind_Ok in Hrun as (mtoken & s8 & Hmt & Hrun).
  apply wrap_Ok, JoinToken_Ok in Hmt. destruct Hmt as (_ & out3 & _ & Hh8).
  cbn in Hh8.
  apply bind_Ok in Hrun as (wtoken & s9 & Hwt & Hrun).
  apply wrap_Ok, JoinToken_Ok in Hwt. destruct Hwt as (_ & out4 & _ & Hh9).
  apply bind_Ok in Hrun as ([] & s10 & Hmgrs & Hrun).
  apply (forEach_Ok _
           (fun m => if decide (PublicAddress m <> PublicAddress leader)
                     then joining E mtoken leader m else [])) in Hmgrs.
  2:{ intros x t t' Hx.
      destruct (String.eqb_spec (PublicAddress x) (PublicAddress leader))
        as [Heq | Hne].
      - injection Hx as <-. exists []. rewrite app_nil_r.
        rewrite decide_False by (intros Hne; apply Hne, Heq). auto.
      - rewrite decide_True by exact Hne.
        apply admit_Ok in Hx. destruct Hx as [_ Hx]. exact Hx. }
  destruct Hmgrs as (H10 & Hh10 & Hm10). rewrite flat_map_skipping in Hm10.
  apply bind_Ok in Hrun as ([] & s11 & Hwks & Hrun).
  apply (forEach_Ok _ (joining E wtoken leader)) in Hwks.
  2:{ intros x t t' Hx. apply admit_Ok in Hx. destruct Hx as [_ Hx]. exact Hx. }
  destruct Hwks as (H11 & Hh11 & Hm11).
  apply wrap_Ok, SwitchNode_Ok in Hrun. destruct Hrun as [_ ->].
  set (others := filter (fun m => PublicAddress m <> PublicAddress leader)
                   managers) in *.
  set (H := [Switched (PublicAddress leader) true;
             Ran (PublicAddress leader) infoCommand (Completed out);
             Ran (PublicAddress leader)
               (initCommand (PrivateAddress leader) (PrivateAddress leader))
               (Completed out1)]
            ++ H6
            ++ [Ran (target s6) infoCommand (Completed out2);
                Ran (target s6) (tokenCommand managerToken) (Completed out3)]
            ++ [Ran (target s8) (tokenCommand workerToken) (Completed out4)]
            ++ H10 ++ H11).
  assert (HmH : mutations H =
                Init (PublicAddress leader) (PrivateAddress leader)
                  :: labelling E leader
                  ++ flat_map (joining E mtoken leader) others
                  ++ flat_map (joining E wtoken leader) workers).
  { unfold H. rewrite !mutations_app, Hm6, Hm10, Hm11. reflexivity. }
  exists leader, mtoken, wtoken, H.
  split; [exact Hq |]. split; [exact Hleader |].
  split.
  { cbn [history]. rewrite Hh11, Hh10, Hh9, Hh8, Hh6. unfold H.
    rewrite <- !app_assoc. reflexivity. }
  split; [reflexivity |].
  destruct (labelling_counts E leader) as (Li & Lj & Lu).
  destruct (joining_counts E mtoken leader others) as (Mi & Mj & Mu).
  destruct (joining_counts E wtoken leader workers) as (Wi & Wj & Wu).
  split; [exact HmH |]. rewrite HmH.
  change (Init (PublicAddress leader) (PrivateAddress leader)
            :: labelling E leader
            ++ flat_map (joining E mtoken leader) others
            ++ flat_map (joining E wtoken leader) workers)
    with ([Init (PublicAddress leader) (PrivateAddress leader)]
            ++ labelling E leader
            ++ flat_map (joining E mtoken leader) others
            ++ flat_map (joining E wtoken leader) workers).
  rewrite !countIf_app, Li, Lj, Lu, Mi, Mj, Mu, Wi, Wj, Wu.
  split; [reflexivity |]. split; [reflexivity |].
  split.
  { cbn [List.filter]. rewrite List.filter_app.
    change (countIf isUpdate
              [Init (PublicAddress leader) (PrivateAddress leader)])
      with 0%nat.
    subst others.
    destruct (declaresLabels E leader); cbn [length];
      rewrite length_app; lia. }
  intros Hnd. pose proof (others_delete managers i leader Hnd Hleader) as Hd.
  split; [exact Hd |]. unfold others. rewrite Hd, length_delete.
  - reflexivity.
  - eauto.
Qed.

End FormationClaims.

Lemma CreateSwarm_forms_cluster_witness :
  exists s' leader H,
    CreateSwarm (scripted (virgin 1)) fiveNodes fresh = (Ok tt, s') /\
    leader = member "M2" "manager" "" /\
    history s' = H ++ [Switched "M2.pub" true] /\
    countIf isInit (mutations H) = 1%nat /\
    countIf isJoin (mutations H) = 4%nat /\
    countIf isUpdate (mutations H) = 3%nat.
Proof.
  set (s' := snd (CreateSwarm (scripted (virgin 1)) fiveNodes fresh)).
  assert (Hrun : CreateSwarm (scripted (virgin 1)) fiveNodes fresh = (Ok tt, s'))
    by (vm_compute; reflexivity).
  destruct (CreateSwarm_forms_cluster (scripted (virgin 1)) fiveNodes fresh s'
              Hrun)
    as (leader & mt & wt & H & _ & Hl & Hh & _ & _ & Hi & Hj & Hu & _).
  vm_compute in Hl. injection Hl as <-.
  exists s', (member "M2" "manager" ""), H.
  split; [exact Hrun |]. split; [reflexivity |].
  split; [exact Hh |]. split; [exact Hi |].
  split; [exact (eq_trans Hj ltac:(vm_compute; reflexivity)) |].
  exact (eq_trans Hu ltac:(vm_compute; reflexivity)).
Defined.

(** C3, the claim as worded fails: not every non-leader manager is
    joined.  The manifest [sharedAddress] holds three managers; [M1] is
    drawn as leader, [M2] and [M3] are the two non-leader managers, and
    [M3] is listed with the public address of [M1].  [CreateSwarm]
    succeeds, and the whole of what it changed is the init on [M1] and the
    join of [M2]: one join command for two non-leader managers, none for
    [M3]. *)
Lemma CreateSwarm_shared_address_skips_manager :
  exists s' leader,
    CreateSwarm (scripted virginShared) sharedAddress fresh = (Ok tt, s') /\
    length (FilterByTag sharedAddress RoleTag ManagerRole) = 3%nat /\
    FilterByTag sharedAddress RoleTag ManagerRole !! 0%nat = Some leader /\
    Hostname leader = "M1" /\
    map Hostname
      (filter (fun m => Hostname m <> Hostname leader)
         (FilterByTag sharedAddress RoleTag ManagerRole)) = ["M2"; "M3"] /\
    countIf isJoin (mutations (history s')) = 1%nat /\
    mutations (history s') =
      [Init "X.pub" "M1.priv";
       Join "M2.pub" "M2.priv" "SWMTKN-manager" "M1.priv"] /\
    ~ (forall (E : Env) (vms : VMNodes) (t : Session),
          CreateSwarm E vms fresh = (Ok tt, t) ->
          countIf isJoin (mutations (history t)) =
            (length (FilterByTag vms RoleTag ManagerRole) - 1
             + length (FilterByTag vms RoleTag WorkerRole))%nat).
Proof.
  set (s' := snd (CreateSwarm (scripted virginShared) sharedAddress fresh)).
  assert (Hrun : CreateSwarm (scripted virginShared) sharedAddress fresh
                 = (Ok tt, s')) by (vm_compute; reflexivity).
  assert (Hjoins : countIf isJoin (mutations (history s')) = 1%nat)
    by (vm_compute; reflexivity).
  exists s', (mkVMNode "M1" "X.pub" "M1.priv"
                [(RoleTag, "manager"); (LabelsTag, "")]).
  split; [exact Hrun |].
  split; [vm_compute; reflexivity |].
  split; [vm_compute; reflexivity |].
  split; [reflexivity |].
  split; [vm_compute; reflexivity |].
  split; [exact Hjoins |].
  split; [vm_compute; reflexivity |].
  intros Hclaim.
  specialize (Hclaim (scripted virginShared) sharedAddress s' Hrun).
  rewrite Hjoins in Hclaim. vm_compute in Hclaim. discriminate Hclaim.
Qed.

(** ** Incremental update *)

Section Update.

Variable E : Env.

Lemma quiet_run {A} (c : M A) s r s' :
  quiet c -> c s = (r, s') ->
  exists H, history s' = history s ++ H /\ mutations H = [].
Proof. intros Hq Hrun. specialize (Hq s). rewrite Hrun in Hq. exact Hq. Qed.

Lemma rosterHostnames_lookup nodes h :
  rosterHostnames nodes !! h = None <-> h ∉ map Status_Hostname nodes.
Proof.
  unfold rosterHostnames.
  assert (Hgen : forall (m : gmap string bool),
             foldl (fun currentNodes node =>
                      <[Status_Hostname node := true]> currentNodes) m nodes
               !! h = None <->
             m !! h = None /\ h ∉ map Status_Hostname nodes).
  { induction nodes as [| n rest IH]; intros m; cbn.
    - split; [intros Hm; split; [exact Hm | apply not_elem_of_nil] | tauto].
    - rewrite IH, lookup_insert_None, not_elem_of_cons. intuition congruence. }
  rewrite Hgen, lookup_empty. tauto.
Qed.

Lemma UpdateSwarm_Ok vms s s' :
  UpdateSwarm E vms s = (Ok tt, s') ->
  let managers := FilterByTag vms RoleTag ManagerRole in
  exists roster s1 manager mtoken wtoken H,
    GetNodes E s = (Ok roster, s1) /\
    (length managers = 3%nat \/ length managers = 5%nat) /\
    managers !! (randSource E (history s1) mod length managers)%nat
      = Some manager /\
    history s' = history s1 ++ H ++ [Switched (PublicAddress manager) true] /\
    target s' = PublicAddress manager /\
    mutations H =
      flat_map (joining E mtoken manager)
        (FilterByTag (absentFrom roster vms) RoleTag ManagerRole)
      ++ flat_map (joining E wtoken manager)
           (FilterByTag (absentFrom roster vms) RoleTag WorkerRole).
Proof.
  intros Hrun managers. unfold UpdateSwarm in Hrun. fold managers in Hrun.
  apply bind_Ok in Hrun as (roster & s1 & Hget & Hrun).
  apply wrap_Ok in Hget.
  destruct (negb ((length managers =? 3)%nat || (length managers =? 5)%nat))
    eqn:Hq; [discriminate |].
  apply quorum_admitted_inv in Hq.
  apply bind_Ok in Hrun as (ri & s2 & Hr & Hrun).
  apply Intn_Ok in Hr. destruct Hr as [-> ->].
  apply bind_Ok in Hrun as (manager & s3 & Hidx & Hrun).
  apply index_Ok in Hidx. destruct Hidx as [Hmanager ->].
  apply bind_Ok in Hrun as ([] & s4 & Hens & Hrun).
  apply (quiet_run _ _ _ _ (quiet_wrap _ _ (quiet_ensureManager E))) in Hens.
  destruct Hens as (H4 & Hh4 & Hm4).
  apply bind_Ok in Hrun as (node & s5 & Hinfo & Hrun).
  apply wrap_Ok, GetInfo_Ok in Hinfo. destruct Hinfo as (out & _ & _ & ->).
  destruct (Swarm_Cluster_ID node =? "")%string; [discriminate |].
  apply bind_Ok in Hrun as (mtoken & s6 & Hmt & Hrun).
  apply wrap_Ok, JoinToken_Ok in Hmt. destruct Hmt as (_ & out3 & _ & Hh6).
  cbn in Hh6.
  apply bind_Ok in Hrun as (wtoken & s7 & Hwt & Hrun).
  apply wrap_Ok, JoinToken_Ok in Hwt. destruct Hwt as (_ & out4 & _ & Hh7).
  apply bind_Ok in Hrun as ([] & s8 & Hmgrs & Hrun).
  apply (forEach_Ok _ (joining E mtoken manager)) in Hmgrs.
  2:{ intros x t t' Hx. apply admit_Ok in Hx. destruct Hx as [_ Hx]. exact Hx. }
  destruct Hmgrs as (H8 & Hh8 & Hm8).
  apply bind_Ok in Hrun as ([] & s9 & Hwks & Hrun).
  apply (forEach_Ok _ (joining E wtoken manager)) in Hwks.
  2:{ intros x t t' Hx. apply admit_Ok in Hx. destruct Hx as [_ Hx]. exact Hx. }
  destruct Hwks as (H9 & Hh9 & Hm9).
  apply wrap_Ok, SwitchNode_Ok in Hrun. destruct Hrun as [_ ->].
  assert (Habsent :
            filter (fun vm => rosterHostnames roster !! Hostname vm = None) vms
            = absentFrom roster vms).
  { apply list_filter_iff. intros vm. apply rosterHostnames_lookup. }
  rewrite Habsent in Hm8, Hm9.
  exists roster, s1, manager, mtoken, wtoken,
    (H4 ++ [Ran (target s4) infoCommand (Completed out);
            Ran (target s4) (tokenCommand managerToken) (Completed out3)]
        ++ [Ran (target s6) (tokenCommand workerToken) (Completed out4)]
        ++ H8 ++ H9).
  split; [exact Hget |]. split; [exact Hq |]. split; [exact Hmanager |].
  split.
  { cbn [history]. rewrite Hh9, Hh8, Hh7, Hh6, Hh4.
    rewrite <- !app_assoc. reflexivity. }
  split; [reflexivity |].
  rewrite !mutations_app, Hm4, Hm8, Hm9. reflexivity.
Qed.

End Update.

Section UpdateClaims.

Variable E : Env.

Lemma joining_ranOn token manager nodes (P : VMNode -> Prop) :
  Forall P nodes ->
  Forall (fun m => exists vm, P vm /\ ranOn m = PublicAddress vm)
    (flat_map (joining E token manager) nodes).
Proof.
  intros Hall. apply List.Forall_flat_map.
  eapply Forall_impl; [exact Hall |]. intros vm Hvm.
  unfold joining, labelling. constructor; [eauto |].
  destruct (ParseLabels E (GetTag vm LabelsTag)) as [[| l ls] |];
    repeat constructor; eauto.
Qed.

Lemma joining_joinsVia token manager nodes :
  Forall (joinsVia (PrivateAddress manager))
    (flat_map (joining E token manager) nodes).
Proof.
  apply List.Forall_flat_map, Forall_forall. intros vm _.
  unfold joining, labelling. constructor; [reflexivity |].
  destruct (ParseLabels E (GetTag vm LabelsTag)) as [[| l ls] |];
    repeat constructor.
Qed.

Lemma roles_partition (nodes : list VMNode) :
  (forall vm, vm ∈ nodes ->
     GetTag vm RoleTag = ManagerRole \/ GetTag vm RoleTag = WorkerRole) ->
  FilterByTag nodes RoleTag ManagerRole ++ FilterByTag nodes RoleTag WorkerRole
    ≡ₚ nodes.
Proof.
  intros Hroles. unfold FilterByTag.
  assert (Heq : filter (fun vm => GetTag vm RoleTag = WorkerRole) nodes =
                filter (fun vm => GetTag vm RoleTag <> ManagerRole) nodes).
  { induction nodes as [| vm rest IH]; [reflexivity |].
    rewrite !filter_cons.
    assert (Hrest : forall vm', vm' ∈ rest ->
              GetTag vm' RoleTag = ManagerRole \/
              GetTag vm' RoleTag = WorkerRole).
    { intros vm' Hin. apply Hroles. right. exact Hin. }
    specialize (IH Hrest).
    destruct (Hroles vm) as [Hm | Hw]; [left |..].
    - rewrite decide_False by (rewrite Hm; discriminate).
      rewrite decide_False by (intros Hn; apply Hn, Hm). exact IH.
    - rewrite decide_True by exact Hw.
      rewrite decide_True by (rewrite Hw; discriminate). f_equal. exact IH. }
  rewrite Heq. apply filter_app_complement.
Qed.

(** C2. A successful [UpdateSwarm] changes the cluster by exactly the
    joins, each followed by its labelling, of the desired managers and
    then the desired workers whose hostname is absent from the live roster
    it queried.  So every join and every label update runs on a member
    whose hostname is absent, none on a member that is present; there is
    one join per such member, and when every desired member is a manager
    or a worker the members joined are exactly the absent ones. *)
Theorem UpdateSwarm_joins_absent vms s s' :
  UpdateSwarm E vms s = (Ok tt, s') ->
  exists roster s1 manager mtoken wtoken H,
    GetNodes E s = (Ok roster, s1) /\
    history s' = history s1 ++ H ++ [Switched (PublicAddress manager) true] /\
    mutations (history s1) = mutations (history s) /\
    let absent := absentFrom roster vms in
    let joined :=
      FilterByTag absent RoleTag ManagerRole
        ++ FilterByTag absent RoleTag WorkerRole in
    mutations H =
      flat_map (joining E mtoken manager) (FilterByTag absent RoleTag ManagerRole)
      ++ flat_map (joining E wtoken manager)
           (FilterByTag absent RoleTag WorkerRole) /\
    countIf isInit (mutations H) = 0%nat /\
    countIf isJoin (mutations H) = length joined /\
    countIf isUpdate (mutations H) =
      length (List.filter (declaresLabels E) joined) /\
    Forall (fun m => exists vm,
                (vm ∈ vms /\ Hostname vm ∉ map Status_Hostname roster) /\
                ranOn m = PublicAddress vm)
      (mutations H) /\
    ((forall vm, vm ∈ vms ->
        GetTag vm RoleTag = ManagerRole \/ GetTag vm RoleTag = WorkerRole) ->
     joined ≡ₚ absent).
Proof.
  intros Hrun.
  destruct (UpdateSwarm_Ok E vms s s' Hrun)
    as (roster & s1 & manager & mtoken & wtoken & H
        & Hget & _ & _ & Hh & _ & Hm).
  exists roster, s1, manager, mtoken, wtoken, H.
  split; [exact Hget |]. split; [exact Hh |].
  split.
  { destruct (quiet_run _ _ _ _ (quiet_GetNodes E) Hget) as (H1 & -> & Hm1).
    rewrite mutations_app, Hm1. apply app_nil_r. }
  cbv zeta. set (absent := absentFrom roster vms) in *.
  split; [exact Hm |]. rewrite Hm.
  destruct (joining_counts E mtoken manager
              (FilterByTag absent RoleTag ManagerRole)) as (Mi & Mj & Mu).
  destruct (joining_counts E wtoken manager
              (FilterByTag absent RoleTag WorkerRole)) as (Wi & Wj & Wu).
  rewrite !countIf_app, Mi, Mj, Mu, Wi, Wj, Wu.
  split; [reflexivity |].
  split; [rewrite length_app; reflexivity |].
  split; [rewrite List.filter_app, length_app; reflexivity |].
  assert (Habs : forall role, Forall
            (fun vm => vm ∈ vms /\ Hostname vm ∉ map Status_Hostname roster)
            (FilterByTag absent RoleTag role)).
  { intros role. apply Forall_forall. intros vm Hin.
    unfold FilterByTag, absent, absentFrom in Hin.
    rewrite !list_elem_of_filter in Hin. tauto. }
  split.
  { apply Forall_app. split; apply joining_ranOn, Habs. }
  intros Hroles. apply roles_partition. intros vm Hin. apply Hroles.
  unfold absent, absentFrom in Hin. rewrite list_elem_of_filter in Hin. tauto.
Qed.

(** C10. [UpdateSwarm] draws its join target among all managers of the
    manifest, whatever the live roster says: every join of a successful run
    refers to the private address of that one manager.  When its hostname
    is absent from the roster it is itself one of the managers this run
    joins, so the managers joined before it, and it itself, are told to
    join through a node that is not in the cluster yet. *)
Theorem UpdateSwarm_join_target_from_manifest vms s s' :
  UpdateSwarm E vms s = (Ok tt, s') ->
  let managers := FilterByTag vms RoleTag ManagerRole in
  exists roster s1 manager mtoken H,
    GetNodes E s = (Ok roster, s1) /\
    managers !! (randSource E (history s1) mod length managers)%nat
      = Some manager /\
    history s' = history s1 ++ H ++ [Switched (PublicAddress manager) true] /\
    Forall (joinsVia (PrivateAddress manager)) (mutations H) /\
    (Hostname manager ∉ map Status_Hostname roster ->
     exists before after rest,
       FilterByTag (absentFrom roster vms) RoleTag ManagerRole
         = before ++ manager :: after /\
       mutations H =
         flat_map (joining E mtoken manager) before
         ++ joining E mtoken manager manager ++ rest).
Proof.
  intros Hrun managers.
  destruct (UpdateSwarm_Ok E vms s s' Hrun)
    as (roster & s1 & manager & mtoken & wtoken & H
        & Hget & _ & Hmanager & Hh & _ & Hm).
  exists roster, s1, manager, mtoken, H.
  split; [exact Hget |]. split; [exact Hmanager |]. split; [exact Hh |].
  split.
  { rewrite Hm. apply Forall_app. split; apply joining_joinsVia. }
  intros Habsent.
  assert (Hin : manager ∈ FilterByTag (absentFrom roster vms) RoleTag ManagerRole).
  { apply list_elem_of_lookup_2 in Hmanager. unfold managers, FilterByTag in Hmanager.
    rewrite list_elem_of_filter in Hmanager. destruct Hmanager as [Hrole Hvm].
    unfold FilterByTag, absentFrom. rewrite !list_elem_of_filter. auto. }
  apply list_elem_of_split in Hin. destruct Hin as (before & after & Hsplit).
  exists before, after,
    (flat_map (joining E mtoken manager) after
     ++ flat_map (joining E wtoken manager)
          (FilterByTag (absentFrom roster vms) RoleTag WorkerRole)).
  split; [exact Hsplit |].
  rewrite Hm, Hsplit, List.flat_map_app. cbn [flat_map].
  rewrite <- !app_assoc. reflexivity.
Qed.

End UpdateClaims.

Lemma UpdateSwarm_joins_absent_witness :
  exists s' roster s1 manager H,
    UpdateSwarm (scripted grownByWorker) withWorker fresh = (Ok tt, s') /\
    GetNodes (scripted grownByWorker) fresh = (Ok roster, s1) /\
    map Status_Hostname roster = ["h1"; "h2"; "h3"] /\
    history s' = history s1 ++ H ++ [Switched (PublicAddress manager) true] /\
    countIf isJoin (mutations H) = 1%nat /\
    countIf isUpdate (mutations H) = 0%nat /\
    mutations (history s') =
      [Join "h4.pub" "h4.priv" "SWMTKN-worker" "h1.priv"].
Proof.
  set (s' := snd (UpdateSwarm (scripted grownByWorker) withWorker fresh)).
  assert (Hrun : UpdateSwarm (scripted grownByWorker) withWorker fresh
                 = (Ok tt, s')) by (vm_compute; reflexivity).
  destruct (UpdateSwarm_joins_absent (scripted grownByWorker) withWorker fresh
              s' Hrun)
    as (roster & s1 & manager & mt & wt & H
        & Hget & Hh & _ & _ & _ & Hj & Hu & _).
  exists s', roster, s1, manager, H.
  split; [exact Hrun |]. split; [exact Hget |].
  vm_compute in Hget. injection Hget as <- <-.
  split; [vm_compute; reflexivity |]. split; [exact Hh |].
  split; [exact (eq_trans Hj ltac:(vm_compute; reflexivity)) |].
  split; [exact (eq_trans Hu ltac:(vm_compute; reflexivity)) |].
  vm_compute; reflexivity.
Defined.

Lemma UpdateSwarm_join_target_from_manifest_witness :
  exists s' manager before after,
    UpdateSwarm (scripted grownByManagers) threeManagers fresh = (Ok tt, s') /\
    (Hostname manager ∉ map Status_Hostname (rosterRows ["h1"])) /\
    FilterByTag (absentFrom (rosterRows ["h1"]) threeManagers)
        RoleTag ManagerRole
      = before ++ manager :: after /\
    mutations (history s') =
      [Join "h2.pub" "h2.priv" "SWMTKN-manager" "h3.priv";
       Join "h3.pub" "h3.priv" "SWMTKN-manager" "h3.priv"].
Proof.
  set (s' := snd (UpdateSwarm (scripted grownByManagers) threeManagers fresh)).
  assert (Hrun : UpdateSwarm (scripted grownByManagers) threeManagers fresh
                 = (Ok tt, s')) by (vm_compute; reflexivity).
  destruct (UpdateSwarm_join_target_from_manifest (scripted grownByManagers)
              threeManagers fresh s' Hrun)
    as (roster & s1 & manager & mt & H & Hget & Hmgr & Hh & Hvia & Hnew).
  vm_compute in Hget. injection Hget as <- <-.
  vm_compute in Hmgr. injection Hmgr as <-.
  assert (Habsent : Hostname (member "h3" "manager" "")
                      ∉ map Status_Hostname (rosterRows ["h1"])).
  { apply (bool_decide_unpack _). vm_compute. exact I. }
  destruct (Hnew Habsent) as (before & after & rest & Hsplit & _).
  exists s', (member "h3" "manager" ""), before, after.
  split; [exact Hrun |]. split; [exact Habsent |].
  split; [exact Hsplit | vm_compute; reflexivity].
Defined.

(** ** Draining *)

Section Drain.

Variable E : Env.

(** One poll, however it ends. *)
Lemma getTasks_run node s :
  let out := runOutcome E (history s) (render (tasksCommand node)) in
  target (snd (getTasks E node s)) = target s /\
  history (snd (getTasks E node s)) =
    history s ++ issued (target s) (tasksCommand node) out /\
  match fst (getTasks E node s) with
  | Ok tasks =>
      exists stdout, out = Completed stdout /\
        decodeTasks E stdout = Some tasks /\
        pollDrained E out = AllShutdown E tasks
  | Err _ => pollDrained E out = false
  | OutOfFuel => False
  end.
Proof.
  cbv zeta. unfold getTasks, bind, wrap, runCmd, pollDrained.
  destruct (runOutcome E (history s) (render (tasksCommand node)))
    as [| | | so se | so]; cbn; rewrite ?app_nil_r; auto.
  destruct (decodeTasks E so) as [tasks |] eqn:Hd; cbn; [| auto].
  repeat split. exists so. auto.
Qed.

(** A tick whose poll does not see the node drained leads to the next
    iteration. *)
Lemma drainLoop_retry fuel node startedAt s :
  selectTicker E (history s) = true ->
  pollDrained E
    (runOutcome E (history s ++ [TickerFired]) (render (tasksCommand node)))
    = false ->
  exists s2,
    drainLoop E (S fuel) node startedAt s = drainLoop E fuel node startedAt s2 /\
    target s2 = target s /\
    history s2 =
      history s ++
      TickerFired ::
        issued (target s) (tasksCommand node)
          (runOutcome E (history s ++ [TickerFired])
             (render (tasksCommand node))).
Proof.
  intros Htick Hpoll.
  set (s1 := mkSession (target s) (history s ++ [TickerFired]) (journal s)).
  destruct (getTasks_run node s1) as (Ht & Hh & Hres).
  cbn [drainLoop]. unfold bind at 1. unfold selectCase. rewrite Htick.
  fold s1. unfold bind at 1, timeNow. unfold bind at 1, attempt.
  destruct (getTasks E node s1) as [[tasks | e |] s2]; cbn in Ht, Hh, Hres.
  - destruct Hres as (so & Hout & Hdec & Hall).
    unfold s1 in Hall; cbn in Hall. rewrite Hpoll in Hall. rewrite <- Hall.
    unfold bind at 1, logf.
    eexists. split; [reflexivity |]. cbn. rewrite Ht, Hh.
    rewrite <- app_assoc. auto.
  - unfold bind at 1, logf.
    eexists. split; [reflexivity |]. cbn. rewrite Ht, Hh.
    rewrite <- app_assoc. auto.
  - contradiction.
Qed.

(** The deadline's case ends the loop. *)
Lemma drainLoop_deadline fuel node startedAt s :
  selectTicker E (history s) = false ->
  let elapsed :=
    (clock E (history s ++ [DeadlineFired]) - startedAt)%Z in
  drainLoop E (S fuel) node startedAt s =
    (Err (DrainTimeout node elapsed),
     mkSession (target s) (history s ++ [DeadlineFired])
       (journal s ++ [LogTimedOut node elapsed])).
Proof.
  intros Hdone. cbn [drainLoop]. unfold bind at 1. unfold selectCase.
  rewrite Hdone. reflexivity.
Qed.

Lemma drainLoop_starved node startedAt on h n h1 :
  Starved E node on h n h1 ->
  selectTicker E h1 = false ->
  forall fuel s,
    (n < fuel)%nat -> target s = on -> history s = h ->
    exists s',
      drainLoop E fuel node startedAt s =
        (Err (DrainTimeout node
                (clock E (h1 ++ [DeadlineFired]) - startedAt)), s') /\
      target s' = on /\ history s' = h1 ++ [DeadlineFired].
Proof.
  intros Hst Hdone.
  induction Hst as [h | h n h' Htick Hpoll Hst IH]; intros fuel s Hfuel Ht Hh.
  - destruct fuel as [| fuel]; [lia |]. subst h.
    rewrite (drainLoop_deadline _ _ _ _ Hdone). eauto.
  - destruct fuel as [| fuel]; [lia |]. subst h on.
    destruct (drainLoop_retry fuel node startedAt s Htick Hpoll)
      as (s2 & Heq & Ht2 & Hh2).
    rewrite Heq. apply IH; [assumption | lia | assumption | assumption].
Qed.

Lemma forEach_app {A} (l1 l2 : list A) body s :
  forEach (l1 ++ l2) body s =
  bind (forEach l1 body) (fun _ => forEach l2 body) s.
Proof.
  revert s. induction l1 as [| x rest IH]; intros s; [reflexivity |].
  cbn [forEach app]. unfold bind.
  destruct (body x s) as [[[] | e |] s1]; [| reflexivity | reflexivity].
  rewrite IH. reflexivity.
Qed.

End Drain.

Section DrainClaims.

Variable E : Env.

(** Once the availability command has completed, [drainNode] is its loop
    between the creation of the context and of the ticker and their
    release. *)
Lemma drainNode_run fuel node s out :
  runOutcome E (history s) (render (drainCommand node)) = Completed out ->
  let s0 :=
    mkSession (target s)
      (history s ++
       [Ran (target s) (drainCommand node) (Completed out);
        WithTimeout drainTimeout; NewTicker tickInterval])
      (journal s ++ [LogRunning (target s) (render (drainCommand node))]) in
  drainNode E fuel node s =
    (fst (drainLoop E fuel node (clock E (history s)) s0),
     let s' := snd (drainLoop E fuel node (clock E (history s)) s0) in
     mkSession (target s') (history s' ++ [TickerStopped; ContextCancelled])
       (journal s')).
Proof.
  intros Hout s0. unfold drainNode, bind, timeNow, wrap.
  change (updateCommand (setAvailability availabilityDrain) node)
    with (drainCommand node).
  rewrite (runCmd_completed E _ _ _ Hout). cbn -[drainLoop].
  unfold deferring, bind, emit. cbn -[drainLoop].
  rewrite <- !app_assoc. cbn -[drainLoop]. fold s0.
  destruct (drainLoop E fuel node (clock E (history s)) s0) as [r s'].
  cbn. rewrite <- app_assoc. reflexivity.
Qed.

(** C5. Let draining reach [node] after the nodes before it are drained.
    If, once its availability command has completed, [n] polls in a row
    fail to see all its tasks shut down and the deadline of the context
    made with the 10-minute [drainTimeout] then fires, [drainNode] fails
    with [DrainTimeout] carrying the time elapsed since it started, and
    [DrainNodes] fails with that error at this node: its history ends with
    this node's deadline and the release of ticker and context, whatever
    nodes follow in the list. *)
Theorem DrainNodes_aborts_at_timeout fuel pre node post s s1 out n h1 :
  DrainNodes E fuel pre s = (Ok tt, s1) ->
  runOutcome E (history s1) (render (drainCommand node)) = Completed out ->
  let h0 :=
    history s1 ++
    [Ran (target s1) (drainCommand node) (Completed out);
     WithTimeout drainTimeout; NewTicker tickInterval] in
  Starved E node (target s1) h0 n h1 ->
  selectTicker E h1 = false ->
  (n < fuel)%nat ->
  let elapsed := (clock E (h1 ++ [DeadlineFired]) - clock E (history s1))%Z in
  drainTimeout = (10 * (60 * 1000000000))%Z /\
  fst (drainNode E fuel node s1) = Err (DrainTimeout node elapsed) /\
  exists s',
    DrainNodes E fuel (pre ++ node :: post) s =
      (Err (DrainingNode node (DrainTimeout node elapsed)), s') /\
    target s' = target s1 /\
    history s' = h1 ++ [DeadlineFired; TickerStopped; ContextCancelled].
Proof.
  intros Hpre Hout h0 Hst Hdone Hfuel elapsed.
  split; [reflexivity |].
  pose proof (drainNode_run fuel node s1 out Hout) as Hnode. cbv zeta in Hnode.
  set (s0 := mkSession (target s1) h0
               (journal s1 ++ [LogRunning (target s1) (render (drainCommand node))]))
    in *.
  destruct (drainLoop_starved E node (clock E (history s1)) (target s1) h0 n h1
              Hst Hdone fuel s0 Hfuel eq_refl eq_refl)
    as (s2 & Hloop & Ht2 & Hh2).
  fold h0 in Hnode. fold s0 in Hnode. rewrite Hloop in Hnode.
  cbn [fst snd] in Hnode.
  split; [rewrite Hnode; reflexivity |].
  unfold DrainNodes in *.
  apply bind_Ok in Hpre as ([] & sm & Hens & Hpre).
  unfold bind at 1. rewrite Hens. rewrite forEach_app. unfold bind at 1.
  rewrite Hpre. cbn [forEach]. unfold bind at 1, orElse at 1.
  rewrite Hnode. unfold bind, logf, fail. cbn.
  eexists. split; [reflexivity |]. cbn. rewrite Hh2, <- app_assoc. auto.
Qed.

End DrainClaims.

Lemma DrainNodes_aborts_at_timeout_witness :
  exists s',
    DrainNodes (scripted busyNodes) 5 ["n1"; "n2"; "n3"] fresh =
      (Err (DrainingNode "n2" (DrainTimeout "n2" 610000000000)), s') /\
    commands (history s') =
      [("", infoCommand);
       ("", drainCommand "n1"); ("", tasksCommand "n1");
       ("", drainCommand "n2"); ("", tasksCommand "n2");
       ("", tasksCommand "n2")].
Proof.
  set (E := scripted busyNodes).
  set (s1 := snd (DrainNodes E 5 ["n1"] fresh)).
  assert (Hpre : DrainNodes E 5 ["n1"] fresh = (Ok tt, s1))
    by (vm_compute; reflexivity).
  assert (Hout : runOutcome E (history s1) (render (drainCommand "n2"))
                 = Completed "") by (vm_compute; reflexivity).
  eassert (Hst : Starved E "n2" (target s1)
                   (history s1 ++
                    [Ran (target s1) (drainCommand "n2") (Completed "");
                     WithTimeout drainTimeout; NewTicker tickInterval])
                   2 _).
  { eapply Starved_tick; [vm_compute; reflexivity | vm_compute; reflexivity |].
    eapply Starved_tick; [vm_compute; reflexivity | vm_compute; reflexivity |].
    apply Starved_now. }
  destruct (DrainNodes_aborts_at_timeout E 5 ["n1"] "n2" ["n3"] fresh s1 ""
              2 _ Hpre Hout Hst)
    as (_ & _ & s' & Hrun & _ & Hh).
  - vm_compute; reflexivity.
  - lia.
  - exists s'. split.
    + cbn [app] in Hrun. rewrite Hrun. vm_compute. reflexivity.
    + rewrite Hh. vm_compute. reflexivity.
Defined.

Section Polling.

Variable E : Env.

(** One iteration of the loop on the ticker's case. *)
Lemma drainLoop_tick fuel node startedAt s :
  selectTicker E (history s) = true ->
  let s1 := mkSession (target s) (history s ++ [TickerFired]) (journal s) in
  let elapsed := (clock E (history s1) - startedAt)%Z in
  let next l s2 :=
    mkSession (target s2) (history s2) (journal s2 ++ [l]) in
  drainLoop E (S fuel) node startedAt s =
    match getTasks E node s1 with
    | (Ok tasks, s2) =>
        if AllShutdown E tasks
        then (Ok tt, next (LogDrained node elapsed) s2)
        else drainLoop E fuel node startedAt
               (next (LogStillWaiting node elapsed) s2)
    | (Err _, s2) =>
        drainLoop E fuel node startedAt (next (LogTasksRetry node) s2)
    | (OutOfFuel, s2) => (OutOfFuel, s2)
    end.
Proof.
  intros Htick s1 elapsed next. cbn [drainLoop]. unfold bind at 1.
  unfold selectCase. rewrite Htick. fold s1.
  unfold bind at 1, timeNow. unfold bind at 1, attempt.
  destruct (getTasks E node s1) as [[tasks | e |] s2]; [| reflexivity ..].
  destruct (AllShutdown E tasks); reflexivity.
Qed.

(** The loop keeps the target and only adds to the history. *)
Lemma drainLoop_extends node startedAt fuel : forall s,
  target (snd (drainLoop E fuel node startedAt s)) = target s /\
  exists rest,
    history (snd (drainLoop E fuel node startedAt s)) = history s ++ rest.
Proof.
  induction fuel as [| fuel IH]; intros s.
  - split; [reflexivity |]. exists []. cbn. rewrite app_nil_r. reflexivity.
  - destruct (selectTicker E (history s)) eqn:Htick.
    2:{ rewrite (drainLoop_deadline E _ _ _ _ Htick). cbn. eauto. }
    rewrite (drainLoop_tick _ _ _ _ Htick). cbv zeta.
    set (s1 := mkSession (target s) (history s ++ [TickerFired]) (journal s)).
    destruct (getTasks_run E node s1) as (Ht & Hh & Hres).
    destruct (getTasks E node s1) as [[tasks | e |] s2];
      cbn [fst snd] in Ht, Hh, Hres; [| | contradiction].
    + destruct (AllShutdown E tasks).
      * cbn. rewrite Ht, Hh. split; [reflexivity |].
        cbn. rewrite <- app_assoc. eauto.
      * match goal with
        | |- context [drainLoop E fuel node startedAt ?s3] =>
            destruct (IH s3) as (Ht' & rest & Hh')
        end.
        rewrite Ht', Hh'. cbn. rewrite Ht, Hh.
        split; [reflexivity |]. cbn. rewrite <- !app_assoc. eauto.
    + match goal with
      | |- context [drainLoop E fuel node startedAt ?s3] =>
          destruct (IH s3) as (Ht' & rest & Hh')
      end.
      rewrite Ht', Hh'. cbn. rewrite Ht, Hh.
      split; [reflexivity |]. cbn. rewrite <- !app_assoc. eauto.
Qed.

(** The loop asks for the tasks only right after a tick. *)
Lemma drainLoop_begins node startedAt fuel s :
  exists rest,
    history (snd (drainLoop E fuel node startedAt s)) = history s ++ rest /\
    (rest = [] \/ rest = [DeadlineFired] \/
     exists rest',
       selectTicker E (history s) = true /\
       rest =
         TickerFired ::
           issued (target s) (tasksCommand node)
             (runOutcome E (history s ++ [TickerFired])
                (render (tasksCommand node)))
           ++ rest').
Proof.
  destruct fuel as [| fuel].
  - exists []. cbn. rewrite app_nil_r. auto.
  - destruct (selectTicker E (history s)) eqn:Htick.
    2:{ rewrite (drainLoop_deadline E _ _ _ _ Htick). cbn. eauto. }
    rewrite (drainLoop_tick _ _ _ _ Htick). cbv zeta.
    set (s1 := mkSession (target s) (history s ++ [TickerFired]) (journal s)).
    destruct (getTasks_run E node s1) as (Ht & Hh & Hres).
    cbn [history target s1] in Hh. rewrite <- app_assoc in Hh.
    cbn [app] in Hh.
    assert (Hnext : forall l,
              let s3 := mkSession (target (snd (getTasks E node s1)))
                          (history (snd (getTasks E node s1)))
                          (journal (snd (getTasks E node s1)) ++ [l]) in
              exists rest,
                history (snd (drainLoop E fuel node startedAt s3))
                  = history s ++ rest /\
                (rest = [] \/ rest = [DeadlineFired] \/
                 exists rest',
                   true = true /\
                   rest =
                     TickerFired ::
                       issued (target s) (tasksCommand node)
                         (runOutcome E (history s ++ [TickerFired])
                            (render (tasksCommand node)))
                       ++ rest')).
    { intros l s3.
      destruct (drainLoop_extends node startedAt fuel s3) as (_ & rest & Hh').
      rewrite Hh'. cbn [history s3]. rewrite Hh, <- app_assoc.
      eexists. split; [reflexivity |]. right. right. exists rest. auto. }
    destruct (getTasks E node s1) as [[tasks | e |] s2];
      cbn [fst snd] in Ht, Hh, Hres, Hnext; [| | contradiction].
    + destruct (AllShutdown E tasks).
      * cbn [snd history]. rewrite Hh.
        eexists. split; [reflexivity |]. right. right.
        exists []. rewrite app_nil_r. auto.
      * apply Hnext.
    + apply Hnext.
Qed.

(** A drained report carries a duration read at a tick: it is no shorter
    than the one read at the loop's first tick. *)
Lemma drainLoop_drained_after node startedAt :
  clockMonotone E ->
  forall fuel s s',
    drainLoop E fuel node startedAt s = (Ok tt, s') ->
    selectTicker E (history s) = true /\
    exists elapsed,
      last (journal s') = Some (LogDrained node elapsed) /\
      (clock E (history s ++ [TickerFired]) - startedAt <= elapsed)%Z.
Proof.
  intros Hmono. induction fuel as [| fuel IH]; intros s s' Hrun;
    [discriminate |].
  destruct (selectTicker E (history s)) eqn:Htick.
  2:{ rewrite (drainLoop_deadline E _ _ _ _ Htick) in Hrun. discriminate. }
  split; [reflexivity |].
  rewrite (drainLoop_tick _ _ _ _ Htick) in Hrun. cbv zeta in Hrun.
  set (s1 := mkSession (target s) (history s ++ [TickerFired]) (journal s))
    in Hrun.
  destruct (getTasks_run E node s1) as (Ht & Hh & Hres).
  assert (Hlater : forall s3,
             history s3 = history s1 ++
               issued (target s1) (tasksCommand node)
                 (runOutcome E (history s1) (render (tasksCommand node))) ->
             drainLoop E fuel node startedAt s3 = (Ok tt, s') ->
             exists elapsed,
               last (journal s') = Some (LogDrained node elapsed) /\
               (clock E (history s ++ [TickerFired]) - startedAt <= elapsed)%Z).
  { intros s3 Hh3 Hloop. apply IH in Hloop.
    destruct Hloop as (_ & elapsed & Hlast & Hle).
    exists elapsed. split; [exact Hlast |].
    rewrite Hh3 in Hle. cbn [history target s1] in Hle.
    rewrite <- app_assoc in Hle.
    pose proof (Hmono (history s ++ [TickerFired])
                  (issued (target s) (tasksCommand node)
                     (runOutcome E (history s ++ [TickerFired])
                        (render (tasksCommand node))) ++ [TickerFired])).
    lia. }
  destruct (getTasks E node s1) as [[tasks | e |] s2];
    cbn [fst snd] in Ht, Hh, Hres; [| | contradiction].
  - destruct (AllShutdown E tasks).
    + injection Hrun as <-.
      eexists. cbn [journal]. rewrite last_snoc. split; [reflexivity |].
      cbn. lia.
    + eapply Hlater; [| exact Hrun]. exact Hh.
  - eapply Hlater; [| exact Hrun]. exact Hh.
Qed.

End Polling.

Section PollingClaims.

Variable E : Env.

(** C6. However a run of the polling loop ends, it ends in one of two
    ways only: with success, right after a poll that completed, decoded and
    showed every task shut down, or with [DrainTimeout], right after the
    deadline's case was taken (a run cut short by the fuel has not ended).
    A poll that fails is never the loop's result: after a tick whose task
    query fails the loop logs the retry and goes on to its next iteration. *)
Theorem drainLoop_ends_drained_or_timed_out fuel node startedAt s r s' :
  drainLoop E fuel node startedAt s = (r, s') ->
  ((r = Ok tt /\
    exists h stdout tasks,
      history s' =
        h ++ [TickerFired;
              Ran (target s) (tasksCommand node) (Completed stdout)] /\
      decodeTasks E stdout = Some tasks /\
      AllShutdown E tasks = true) \/
   (exists h,
      selectTicker E h = false /\
      history s' = h ++ [DeadlineFired] /\
      r = Err (DrainTimeout node
                 (clock E (h ++ [DeadlineFired]) - startedAt))) \/
   r = OutOfFuel) /\
  (forall t e t2,
      selectTicker E (history t) = true ->
      getTasks E node
        (mkSession (target t) (history t ++ [TickerFired]) (journal t))
        = (Err e, t2) ->
      drainLoop E (S fuel) node startedAt t =
      drainLoop E fuel node startedAt
        (mkSession (target t2) (history t2)
           (journal t2 ++ [LogTasksRetry node]))).
Proof.
  intros Hrun. split.
  - revert s r s' Hrun. induction fuel as [| fuel IH]; intros s r s' Hrun.
    + injection Hrun as <- <-. auto.
    + destruct (selectTicker E (history s)) eqn:Htick.
      2:{ rewrite (drainLoop_deadline E _ _ _ _ Htick) in Hrun.
          injection Hrun as <- <-. right. left. exists (history s). auto. }
      rewrite (drainLoop_tick E _ _ _ _ Htick) in Hrun. cbv zeta in Hrun.
      set (s1 := mkSession (target s) (history s ++ [TickerFired]) (journal s))
        in Hrun.
      destruct (getTasks_run E node s1) as (Ht & Hh & Hres).
      destruct (getTasks E node s1) as [[tasks | e |] s2];
        cbn [fst snd] in Ht, Hh, Hres; [| | contradiction].
      * destruct Hres as (so & Hout & Hdec & _).
        destruct (AllShutdown E tasks) eqn:Hall.
        -- injection Hrun as <- <-.
           left. split; [reflexivity |].
           exists (history s), so, tasks. cbn [history].
           rewrite Hh, Hout. cbn. rewrite <- app_assoc. auto.
        -- apply IH in Hrun.
           cbn [target] in Hrun. rewrite Ht in Hrun. exact Hrun.
      * apply IH in Hrun.
        cbn [target] in Hrun. rewrite Ht in Hrun. exact Hrun.
  - intros t e t2 Htick Hpoll.
    rewrite (drainLoop_tick E _ _ _ _ Htick). cbv zeta. rewrite Hpoll.
    reflexivity.
Qed.

End PollingClaims.

Lemma drainLoop_ends_drained_or_timed_out_witness :
  exists s',
    drainLoop (scripted flakyPoll) 5 "n1" 0 fresh = (Ok tt, s') /\
    commands (history s') = [("", tasksCommand "n1"); ("", tasksCommand "n1")] /\
    journal s' =
      [LogRunning "" (render (tasksCommand "n1"));
       LogWorkerFailed "" "connection reset";
       LogTasksRetry "n1";
       LogRunning "" (render (tasksCommand "n1"));
       LogDrained "n1" 0].
Proof.
  set (s' := snd (drainLoop (scripted flakyPoll) 5 "n1" 0 fresh)).
  assert (Hrun : drainLoop (scripted flakyPoll) 5 "n1" 0 fresh = (Ok tt, s'))
    by (vm_compute; reflexivity).
  destruct (drainLoop_ends_drained_or_timed_out (scripted flakyPoll) 5 "n1" 0
              fresh (Ok tt) s' Hrun)
    as [[(_ & h & so & tasks & Hh & _) | [(h & _ & _ & Hr) | Hr]] _];
    [| discriminate Hr | discriminate Hr].
  exists s'. split; [exact Hrun |]. split; vm_compute; reflexivity.
Defined.

(** ** The scripted clock *)

Lemma clockStep_grows h : forall t p d,
  (0 <= p)%Z -> (0 <= d)%Z ->
  let st := foldl clockStep (t, p, d) h in
  (t <= fst (fst st))%Z /\ (0 <= snd (fst st))%Z /\ (0 <= snd st)%Z.
Proof.
  induction h as [| ev rest IH]; intros t p d Hp Hd; cbn [foldl].
  - cbn. lia.
  - destruct ev as [a ok | on c o | d1 | d2 | | | |]; cbn [clockStep].
    + apply IH; lia.
    + apply IH; lia.
    + destruct (IH t p (Z.max 0 d1)) as (H1 & H2 & H3); try lia; auto.
    + destruct (IH t (Z.max 0 d2) d) as (H1 & H2 & H3); try lia; auto.
    + destruct (IH (t + p)%Z p d) as (H1 & H2 & H3); try lia;
        repeat split; try assumption; lia.
    + destruct (IH (t + d)%Z p d) as (H1 & H2 & H3); try lia;
        repeat split; try assumption; lia.
    + apply IH; lia.
    + apply IH; lia.
Qed.

Lemma scripted_clockMonotone sc : clockMonotone (scripted sc).
Proof.
  intros h h'. cbn [clock scripted]. unfold scriptedClock. rewrite foldl_app.
  destruct (clockStep_grows h 0 0 0) as (_ & Hp & Hd); try lia.
  destruct (foldl clockStep (0%Z, 0%Z, 0%Z) h) as [[t p] d]. cbn in Hp, Hd.
  destruct (clockStep_grows h' t p d Hp Hd) as (Ht & _). exact Ht.
Qed.

Lemma scripted_tickerPunctual sc : tickerPunctual (scripted sc).
Proof.
  intros h d _. cbn [clock scripted]. unfold scriptedClock. rewrite foldl_app.
  destruct (foldl clockStep (0%Z, 0%Z, 0%Z) h) as [[t p] to]. cbn. lia.
Qed.

Section IntervalClaims.

Variable E : Env.

(** C9. Once the availability command of [drainNode] has completed, the
    ticker is made with the 5-second [tickInterval] and what follows is
    either the deadline or a tick and only then the first task query (the
    query asked at that tick, which leaves its event unless the switcher
    has no runner for it); no query is made before a tick.  With a clock
    that does not run backwards and a ticker that does not fire early, that
    first tick is at least 5 seconds after the command completed, and a
    node reported drained is reported with at least 5 seconds elapsed,
    whatever its tasks were when the command ran. *)
Theorem drainNode_first_poll_after_interval fuel node s out r s' :
  clockMonotone E ->
  tickerPunctual E ->
  runOutcome E (history s) (render (drainCommand node)) = Completed out ->
  drainNode E fuel node s = (r, s') ->
  let h0 :=
    history s ++
    [Ran (target s) (drainCommand node) (Completed out);
     WithTimeout drainTimeout] in
  tickInterval = (5 * 1000000000)%Z /\
  (exists rest,
      history s' =
        h0 ++ NewTicker tickInterval :: rest
           ++ [TickerStopped; ContextCancelled] /\
      (rest = [] \/ rest = [DeadlineFired] \/
       exists o rest',
         rest = TickerFired :: issued (target s) (tasksCommand node) o ++ rest' /\
         o = runOutcome E (h0 ++ [NewTicker tickInterval; TickerFired])
               (render (tasksCommand node)) /\
         (clock E h0 + tickInterval
          <= clock E (h0 ++ [NewTicker tickInterval; TickerFired]))%Z)) /\
  (r = Ok tt ->
   exists elapsed,
     last (journal s') = Some (LogDrained node elapsed) /\
     (tickInterval <= elapsed)%Z).
Proof.
  intros Hmono Hpunct Hout Hrun h0.
  split; [reflexivity |].
  pose proof (drainNode_run E fuel node s out Hout) as Hnode.
  cbv zeta in Hnode. rewrite Hrun in Hnode.
  set (s0 := mkSession (target s) (h0 ++ [NewTicker tickInterval])
               (journal s ++ [LogRunning (target s) (render (drainCommand node))])).
  assert (Hs0 : mkSession (target s)
                  (history s ++
                   [Ran (target s) (drainCommand node) (Completed out);
                    WithTimeout drainTimeout; NewTicker tickInterval])
                  (journal s ++
                   [LogRunning (target s) (render (drainCommand node))])
                = s0).
  { unfold s0, h0. rewrite <- app_assoc. reflexivity. }
  rewrite Hs0 in Hnode. injection Hnode as Hr Hs'.
  assert (Hfirst : selectTicker E (history s0) = true ->
            (clock E h0 + tickInterval
             <= clock E (h0 ++ [NewTicker tickInterval; TickerFired]))%Z).
  { intros Htick. apply Hpunct. exact Htick. }
  split.
  - destruct (drainLoop_begins E node (clock E (history s)) fuel s0)
      as (rest & Hh & Hshape).
    exists rest. split.
    + rewrite Hs'. cbn [history]. rewrite Hh. cbn [history s0].
      rewrite <- !app_assoc. reflexivity.
    + destruct Hshape as [-> | [-> | (rest' & Htick & ->)]]; auto.
      right. right. eexists _, rest'. split; [reflexivity |].
      cbn [history target s0]. rewrite <- app_assoc. auto.
  - intros ->.
    destruct (drainLoop E fuel node (clock E (history s)) s0) as [r2 s2] eqn:Hloop.
    cbn [fst snd] in Hr, Hs'. subst r2.
    destruct (drainLoop_drained_after E node (clock E (history s)) Hmono
                fuel s0 s2 Hloop) as (Htick & elapsed & Hlast & Hle).
    exists elapsed. rewrite Hs'. cbn [journal]. split; [exact Hlast |].
    specialize (Hfirst Htick).
    cbn [history s0] in Hle. rewrite <- app_assoc in Hle. cbn [app] in Hle.
    pose proof (Hmono (history s)
                  [Ran (target s) (drainCommand node) (Completed out);
                   WithTimeout drainTimeout]) as Hstart.
    fold h0 in Hstart. lia.
Qed.

End IntervalClaims.

Lemma drainNode_first_poll_after_interval_witness :
  exists s' rest elapsed,
    drainNode (scripted idleNodes) 5 "n1" fresh = (Ok tt, s') /\
    history s' =
      [Ran "" (drainCommand "n1") (Completed ""); WithTimeout drainTimeout]
      ++ NewTicker tickInterval :: rest ++ [TickerStopped; ContextCancelled] /\
    last (journal s') = Some (LogDrained "n1" elapsed) /\
    (tickInterval <= elapsed)%Z /\
    history s' =
      [Ran "" (drainCommand "n1") (Completed ""); WithTimeout drainTimeout;
       NewTicker tickInterval;
       TickerFired; Ran "" (tasksCommand "n1") (Completed "idle");
       TickerStopped; ContextCancelled].
Proof.
  set (s' := snd (drainNode (scripted idleNodes) 5 "n1" fresh)).
  assert (Hrun : drainNode (scripted idleNodes) 5 "n1" fresh = (Ok tt, s'))
    by (vm_compute; reflexivity).
  assert (Hout : runOutcome (scripted idleNodes) (history fresh)
                   (render (drainCommand "n1")) = Completed "")
    by (vm_compute; reflexivity).
  destruct (drainNode_first_poll_after_interval (scripted idleNodes) 5 "n1"
              fresh "" (Ok tt) s'
              (scripted_clockMonotone idleNodes)
              (scripted_tickerPunctual idleNodes) Hout Hrun)
    as (_ & (rest & Hh & _) & Hlog).
  destruct (Hlog eq_refl) as (elapsed & Hlast & Hle).
  exists s', rest, elapsed. split; [exact Hrun |]. split; [exact Hh |].
  split; [exact Hlast |]. split; [exact Hle |].
  vm_compute. reflexivity.
Defined.

(** * Further properties of the coordinator *)

(** ** Queries are read-only *)

Section ReadOnly.

Variable E : Env.

Lemma quiet_attempt {A} (c : M A) : quiet c -> quiet (attempt c).
Proof.
  intros Hc s. unfold attempt. destruct (Hc s) as (H & Hh & Hm).
  destruct (c s) as [[a | e |] s1]; cbn in *; eauto.
Qed.

Lemma quiet_JoinToken tokenType : quiet (JoinToken E tokenType).
Proof.
  apply quiet_bind; [apply quiet_wrap, quiet_runCmd; reflexivity |].
  intros; apply quiet_ret.
Qed.

Lemma quiet_getTasks node : quiet (getTasks E node).
Proof.
  apply quiet_bind; [apply quiet_wrap, quiet_runCmd; reflexivity |].
  intros out. destruct (decodeTasks E out); [apply quiet_ret | apply quiet_fail].
Qed.

Lemma quiet_visitManagers addrs : forall managers,
  quiet (visitManagers E addrs managers).
Proof.
  induction addrs as [| a rest IH]; intros managers; cbn.
  - apply quiet_ret.
  - destruct (SplitHostPort E a) as [[host port] |]; [| apply quiet_ret].
    apply quiet_bind; [apply quiet_attempt, quiet_SwitchNode |].
    intros [err | []]; [apply quiet_ret |].
    apply quiet_bind; [apply quiet_attempt, quiet_GetInfo |].
    intros [err | node]; [apply quiet_ret | apply IH].
Qed.

Lemma quiet_GetManagers : quiet (GetManagers E).
Proof.
  apply quiet_bind; [apply quiet_attempt, quiet_GetInfo |].
  intros [err | node]; [apply quiet_ret | apply quiet_visitManagers].
Qed.

Lemma quiet_unchanged {A} (c : M A) s :
  quiet c -> mutations (history (snd (c s))) = mutations (history s).
Proof.
  intros Hc. destruct (Hc s) as (H & -> & Hm).
  rewrite mutations_app, Hm. apply app_nil_r.
Qed.

(** X1. The queries of the coordinator never change the cluster: however
    they end, and whatever failover switches they make, [ensureManager],
    [GetNodes], [GetManagers], [GetInfo], [JoinToken] and [getTasks] add no
    init, join or node-update command to the history. *)
Theorem queries_issue_no_mutation s tokenType node :
  mutations (history (snd (ensureManager E s))) = mutations (history s) /\
  mutations (history (snd (GetNodes E s))) = mutations (history s) /\
  mutations (history (snd (GetManagers E s))) = mutations (history s) /\
  mutations (history (snd (GetInfo E s))) = mutations (history s) /\
  mutations (history (snd (JoinToken E tokenType s))) = mutations (history s) /\
  mutations (history (snd (getTasks E node s))) = mutations (history s).
Proof.
  repeat split; apply quiet_unchanged.
  - apply quiet_ensureManager.
  - apply quiet_GetNodes.
  - apply quiet_GetManagers.
  - apply quiet_GetInfo.
  - apply quiet_JoinToken.
  - apply quiet_getTasks.
Qed.

End ReadOnly.

(** ** Listing the managers *)

Section ManagersFacts.

Variable E : Env.

Lemma attempt_Ok_inr {A} (c : M A) s a s' :
  c s = (Ok a, s') -> attempt c s = (Ok (inr a), s').
Proof. intros H. unfold attempt. rewrite H. reflexivity. Qed.

Lemma attempt_Ok_inl {A} (c : M A) s e s' :
  c s = (Err e, s') -> attempt c s = (Ok (inl e), s').
Proof. intros H. unfold attempt. rewrite H. reflexivity. Qed.

Lemma attempt_inv {A} (c : M A) s r s' :
  attempt c s = (Ok r, s') ->
  match r with
  | inl e => c s = (Err e, s')
  | inr a => c s = (Ok a, s')
  end.
Proof.
  unfold attempt. destruct (c s) as [[a | e |] s1]; intros H;
    try discriminate; injection H as <- <-; reflexivity.
Qed.

Lemma last_default_cons {A} (l : list A) x y :
  default y (last (x :: l)) = default x (last l).
Proof.
  destruct l as [| z l]; [reflexivity |].
  rewrite last_cons. destruct (last (z :: l)) eqn:Hl; [reflexivity |].
  apply last_None in Hl. discriminate.
Qed.

Lemma visitManagers_Ok addrs : forall managers s found s',
  visitManagers E addrs managers s = (Ok (inr found), s') ->
  exists visited H,
    found = managers ++ visited /\
    length visited = length addrs /\
    length (hostsOf E addrs) = length addrs /\
    history s' = history s ++ H /\
    switches H = map (fun host => (host, true)) (hostsOf E addrs) /\
    commands H = map (fun host => (host, infoCommand)) (hostsOf E addrs) /\
    target s' = default (target s) (last (hostsOf E addrs)).
Proof.
  induction addrs as [| a rest IH]; intros managers s found s' Hrun.
  - injection Hrun as <- <-. exists [], []. rewrite !app_nil_r. auto 10.
  - cbn [visitManagers] in Hrun. unfold hostsOf. cbn [omap list_omap].
    destruct (SplitHostPort E a) as [[host port] |]; [| discriminate].
    apply bind_Ok in Hrun as (sw & s1 & Hsw & Hrun).
    apply attempt_inv in Hsw. destruct sw as [err | []]; [discriminate |].
    apply SwitchNode_Ok in Hsw. destruct Hsw as [_ ->].
    apply bind_Ok in Hrun as (info & s2 & Hinfo & Hrun).
    apply attempt_inv in Hinfo. destruct info as [err | node]; [discriminate |].
    apply GetInfo_Ok in Hinfo. destruct Hinfo as (out & _ & _ & ->).
    apply IH in Hrun.
    destruct Hrun as (visited & H & -> & Hlen & Hhosts & Hh & Hsw & Hcmd & Ht).
    exists (node :: visited),
      ([Switched host true; Ran host infoCommand (Completed out)] ++ H).
    cbn [fmap option_fmap option_map fst length map].
    fold (hostsOf E rest).
    split; [rewrite <- app_assoc; reflexivity |].
    split; [cbn; lia |]. split; [cbn; lia |].
    split; [rewrite Hh; cbn; rewrite <- !app_assoc; reflexivity |].
    split; [rewrite switches_app, Hsw; reflexivity |].
    split; [rewrite commands_app, Hcmd; reflexivity |].
    rewrite Ht. cbn [target]. symmetry. apply last_default_cons.
Qed.

(** X2. A successful [GetManagers] has visited every remote manager that
    the current node reports, in listed order: every address parsed, the
    result holds one report per manager, and the history gained, after the
    first query, exactly one accepted switch and one information query per
    manager.  The coordinator is left bound to the last manager visited; it
    does not switch back. *)
Theorem GetManagers_visits_every_manager s managers s' :
  GetManagers E s = (Ok (inr managers), s') ->
  exists node out H,
    runOutcome E (history s) (render infoCommand) = Completed out /\
    unmarshalNodeInfo E out = Some node /\
    let hosts := hostsOf E (Swarm_RemoteManagers node) in
    length managers = length (Swarm_RemoteManagers node) /\
    length hosts = length (Swarm_RemoteManagers node) /\
    history s' =
      history s ++ Ran (target s) infoCommand (Completed out) :: H /\
    switches H = map (fun host => (host, true)) hosts /\
    commands H = map (fun host => (host, infoCommand)) hosts /\
    target s' = default (target s) (last hosts).
Proof.
  unfold GetManagers. intros Hrun.
  apply bind_Ok in Hrun as (info & s1 & Hinfo & Hrun).
  apply attempt_inv in Hinfo. destruct info as [err | node];
    [discriminate |].
  apply GetInfo_Ok in Hinfo. destruct Hinfo as (out & Hout & Hnode & ->).
  apply visitManagers_Ok in Hrun.
  destruct Hrun as (visited & H & -> & Hlen & Hhosts & Hh & Hsw & Hcmd & Ht).
  exists node, out, H. cbn in *.
  split; [exact Hout |]. split; [exact Hnode |].
  split; [exact Hlen |]. split; [exact Hhosts |].
  split; [rewrite Hh, <- app_assoc; reflexivity |]. auto.
Qed.

End ManagersFacts.

Lemma GetManagers_visits_every_manager_witness :
  exists s' managers,
    GetManagers (scripted allReachable) fresh = (Ok (inr managers), s') /\
    map Swarm_NodeID managers = ["id-B"; "id-C"] /\
    switches (history s') = [("B", true); ("C", true)] /\
    target s' = "C".
Proof.
  set (r := GetManagers (scripted allReachable) fresh).
  assert (Hrun : r = (Ok (inr [mkNodeInfo "id-B" "c1" [] true;
                               mkNodeInfo "id-C" "c1" [] true]), snd r))
    by (vm_compute; reflexivity).
  destruct (GetManagers_visits_every_manager (scripted allReachable) fresh _ _
              Hrun)
    as (node & out & H & _ & _ & _ & _ & Hh & Hsw & _ & Ht).
  exists (snd r), [mkNodeInfo "id-B" "c1" [] true; mkNodeInfo "id-C" "c1" [] true].
  split; [exact Hrun |]. split; [reflexivity |].
  split; vm_compute; reflexivity.
Defined.

Section ManagersFailures.

Variable E : Env.

Lemma visitManagers_app visited : forall rest managers s,
  visitManagers E (visited ++ rest) managers s =
    match visitManagers E visited managers s with
    | (Ok (inr found), s1) => visitManagers E rest found s1
    | r => r
    end.
Proof.
  induction visited as [| a more IH]; intros rest managers s;
    [reflexivity |].
  cbn [app visitManagers].
  destruct (SplitHostPort E a) as [[host port] |]; [| reflexivity].
  unfold bind.
  destruct (attempt (SwitchNode E host) s) as [[[err | []] | e |] s1];
    try reflexivity.
  destruct (attempt (GetInfo E) s1) as [[[err | node] | e |] s2];
    try reflexivity.
  apply IH.
Qed.

(** X3. [GetManagers] gives up at the first remote manager it cannot
    reach, where [ensureManager] would pass it over: after the managers
    before it were visited, an address that does not parse makes it fail
    with the reports gathered so far dropped, and a refused switch makes it
    fail right after that switch; the managers listed after it are never
    contacted. *)
Theorem GetManagers_stops_at_first_failure s node s0 visited a rest found s1 :
  GetInfo E s = (Ok node, s0) ->
  Swarm_RemoteManagers node = visited ++ a :: rest ->
  visitManagers E visited [] s0 = (Ok (inr found), s1) ->
  (SplitHostPort E a = None ->
   GetManagers E s = (Ok (inl (ManagersAddress a)), s1)) /\
  (forall host port,
      SplitHostPort E a = Some (host, port) ->
      switchAccepted E (history s1) host = false ->
      exists s2,
        GetManagers E s =
          (Ok (inl (ManagersSwitch host
                      (SwitchingToNode host (TransportError host)))), s2) /\
        target s2 = target s1 /\
        history s2 = history s1 ++ [Switched host false]).
Proof.
  intros Hinfo Hlist Hvisited.
  assert (Hstart : GetManagers E s =
                   visitManagers E (visited ++ a :: rest) [] s0).
  { unfold GetManagers, bind. rewrite (attempt_Ok_inr _ _ _ _ Hinfo), Hlist.
    reflexivity. }
  rewrite Hstart, visitManagers_app, Hvisited. split.
  - intros Hp. cbn [visitManagers]. rewrite Hp. reflexivity.
  - intros host port Hp Href. cbn [visitManagers]. rewrite Hp.
    unfold bind.
    rewrite (attempt_Ok_inl _ _ _ _ (SwitchNode_refused E _ _ Href)).
    eexists. split; [reflexivity |]. auto.
Qed.

End ManagersFailures.

Lemma GetManagers_stops_at_first_failure_witness :
  exists s2,
    GetManagers (scripted threeKnown) fresh =
      (Ok (inl (ManagersSwitch "A"
                  (SwitchingToNode "A" (TransportError "A")))), s2) /\
    target s2 = "B" /\
    switches (history s2) = [("B", true); ("A", false)].
Proof.
  set (E := scripted threeKnown).
  set (s0 := snd (GetInfo E fresh)).
  set (s1 := snd (visitManagers E ["B:2377"] [] s0)).
  assert (Hinfo : GetInfo E fresh =
            (Ok (mkNodeInfo "id-0" "c1" ["B:2377"; "A:2377"; "C:2377"] false),
             s0)) by (vm_compute; reflexivity).
  assert (Hvisited : visitManagers E ["B:2377"] [] s0 =
            (Ok (inr [mkNodeInfo "id-B" "c1" [] true]), s1))
    by (vm_compute; reflexivity).
  destruct (GetManagers_stops_at_first_failure E fresh _ s0 ["B:2377"]
              "A:2377" ["C:2377"] _ s1 Hinfo eq_refl Hvisited)
    as [_ Hrefused].
  destruct (Hrefused "A" "2377") as (s2 & Hrun & Ht & Hh).
  - vm_compute; reflexivity.
  - vm_compute; reflexivity.
  - exists s2. split; [exact Hrun |].
    split; [rewrite Ht; vm_compute; reflexivity |].
    rewrite Hh. vm_compute. reflexivity.
Defined.

(** ** Every run of the failover *)

Section FailoverRuns.

Variable E : Env.

Lemma GetInfo_run s :
  target (snd (GetInfo E s)) = target s /\
  history (snd (GetInfo E s)) =
    history s ++
    issued (target s) infoCommand
      (runOutcome E (history s) (render infoCommand)) /\
  fst (GetInfo E s) <> OutOfFuel.
Proof.
  unfold GetInfo, bind, wrap, runCmd.
  destruct (runOutcome E (history s) (render infoCommand))
    as [| | | so se | so]; cbn; rewrite ?app_nil_r; auto.
  destruct (unmarshalNodeInfo E so); cbn; auto.
Qed.

(** How the query ended, read off the runner's answer. *)
Lemma GetInfo_cases s :
  match fst (GetInfo E s) with
  | Ok node =>
      exists out,
        runOutcome E (history s) (render infoCommand) = Completed out /\
        unmarshalNodeInfo E out = Some node
  | Err _ =>
      forall out,
        runOutcome E (history s) (render infoCommand) = Completed out ->
        unmarshalNodeInfo E out = None
  | OutOfFuel => False
  end.
Proof.
  unfold GetInfo, bind, wrap, runCmd.
  destruct (runOutcome E (history s) (render infoCommand))
    as [| | | so se | so]; cbn; try discriminate.
  destruct (unmarshalNodeInfo E so) eqn:Hnode; cbn.
  - eauto.
  - intros out [= <-]. exact Hnode.
Qed.

Lemma tryRemoteManagers_outcomes addrs : forall s,
  (fst (tryRemoteManagers E addrs s) = Ok tt /\
   exists tried host later,
     hostsOf E addrs = tried ++ host :: later /\
     history (snd (tryRemoteManagers E addrs s)) =
       history s ++ map (fun h => Switched h false) tried
                 ++ [Switched host true] /\
     target (snd (tryRemoteManagers E addrs s)) = host) \/
  (fst (tryRemoteManagers E addrs s) = Err NoSuitableManager /\
   history (snd (tryRemoteManagers E addrs s)) =
     history s ++ map (fun h => Switched h false) (hostsOf E addrs) /\
   target (snd (tryRemoteManagers E addrs s)) = target s).
Proof.
  induction addrs as [| a rest IH]; intros s.
  - right. cbn. rewrite app_nil_r. auto.
  - cbn [tryRemoteManagers]. unfold hostsOf. cbn [omap list_omap].
    destruct (SplitHostPort E a) as [[host port] |];
      cbn [fmap option_fmap option_map fst]; fold (hostsOf E rest).
    + unfold orElse.
      destruct (switchAccepted E (history s) host) eqn:Hacc.
      * rewrite (SwitchNode_accepted E _ _ Hacc).
        left. split; [reflexivity |].
        exists [], host, (hostsOf E rest). auto.
      * rewrite (SwitchNode_refused E _ _ Hacc). unfold bind, logf.
        match goal with
        | |- context [tryRemoteManagers E rest ?s1] =>
            specialize (IH s1);
            destruct (tryRemoteManagers E rest s1) as [r1 s2]
        end.
        cbn [fst snd history target] in *.
        destruct IH
          as [(Hr & tried & h & later & Hhosts & Hh & Ht) | (Hr & Hh & Ht)].
        -- left. split; [exact Hr |].
           exists (host :: tried), h, later. rewrite Hhosts, Hh, <- app_assoc.
           auto.
        -- right. split; [exact Hr |]. rewrite Hh, <- app_assoc. auto.
    + unfold bind, logf.
      match goal with
      | |- context [tryRemoteManagers E rest ?s1] =>
          specialize (IH s1);
          destruct (tryRemoteManagers E rest s1) as [r1 s2]
      end.
      cbn [fst snd history target] in *.
      destruct IH
        as [(Hr & tried & h & later & Hhosts & Hh & Ht) | (Hr & Hh & Ht)].
      * left. split; [exact Hr |]. exists tried, h, later. auto.
      * right. auto.
Qed.

(** X4. Every run of [ensureManager] is one of four.  It asks for the
    information of the current node, once, and runs no other command; the
    query is the one event it leaves before any switch, and it leaves none
    when the switcher has no runner to hand it to.  Then either (1) it
    fails with the wrapped error of the query, which did not complete or
    whose output did not decode, with nothing else done; or (2) the node
    reported is a manager and it succeeds where it is; or (3) the node is
    no manager and it succeeds bound to a host of the reported manager
    addresses, in their order among the addresses that parse: every host
    before it was tried and refused, it is the first accepted, and nothing
    is tried after it; or (4) the node is no manager and it fails with
    [NoSuitableManager] after every host of the addresses that parse was
    tried and refused, still bound to the node it started on. *)
Theorem ensureManager_outcomes s :
  let o := runOutcome E (history s) (render infoCommand) in
  let r := fst (ensureManager E s) in
  let s' := snd (ensureManager E s) in
  exists H,
    history s' = history s ++ issued (target s) infoCommand o ++ H /\
    ((exists e,
        r = Err (GettingNodeInfo e) /\ H = [] /\ target s' = target s /\
        forall out, o = Completed out -> unmarshalNodeInfo E out = None) \/
     (exists out node,
        o = Completed out /\ unmarshalNodeInfo E out = Some node /\
        ((IsManager node = true /\
          r = Ok tt /\ H = [] /\ target s' = target s) \/
         (IsManager node = false /\
          r = Ok tt /\
          exists tried host later,
            hostsOf E (Swarm_RemoteManagers node) = tried ++ host :: later /\
            H = map (fun h => Switched h false) tried
                ++ [Switched host true] /\
            target s' = host) \/
         (IsManager node = false /\
          r = Err NoSuitableManager /\
          H = map (fun h => Switched h false)
                (hostsOf E (Swarm_RemoteManagers node)) /\
          target s' = target s)))).
Proof.
  cbv zeta. unfold ensureManager, bind, wrap.
  destruct (GetInfo_run s) as (Ht & Hh & Hfuel).
  pose proof (GetInfo_cases s) as Hcases.
  destruct (GetInfo E s) as [[node | e |] s1];
    cbn [fst snd] in Ht, Hh, Hfuel, Hcases.
  - destruct Hcases as (out & Hout & Hnode).
    destruct (IsManager node) eqn:Hmgr; cbn [negb].
    + exists []. cbn [fst snd]. rewrite app_nil_r. split; [exact Hh |].
      right. exists out, node. auto 10.
    + destruct (tryRemoteManagers_outcomes (Swarm_RemoteManagers node) s1)
        as [(Hr & tried & host & later & Hhosts & Hh' & Ht')
           | (Hr & Hh' & Ht')];
        rewrite Hh in Hh'; rewrite <- app_assoc in Hh'.
      * eexists. split; [exact Hh' |].
        right. exists out, node. split; [exact Hout |].
        split; [exact Hnode |]. right. left.
        split; [exact Hmgr |]. split; [exact Hr |].
        exists tried, host, later. auto.
      * eexists. split; [exact Hh' |].
        right. exists out, node. split; [exact Hout |].
        split; [exact Hnode |]. right. right.
        split; [exact Hmgr |]. split; [exact Hr |].
        split; [reflexivity | congruence].
  - exists []. cbn [fst snd]. rewrite app_nil_r. split; [exact Hh |].
    left. exists e. auto.
  - contradiction.
Qed.

End FailoverRuns.

(** ** More on the incremental update *)

Section UpdateFacts.

Variable E : Env.

(** X5. [UpdateSwarm] needs a cluster to grow: with a valid quorum, once
    the roster was listed and a manager ensured, an information query that
    reports an empty cluster identifier makes it fail with
    [NoExistingCluster] right there, before any token is fetched, and the
    cluster is as it was. *)
Theorem UpdateSwarm_needs_cluster vms s roster s1 s2 node s3 :
  let managers := FilterByTag vms RoleTag ManagerRole in
  GetNodes E s = (Ok roster, s1) ->
  length managers = 3%nat \/ length managers = 5%nat ->
  ensureManager E s1 = (Ok tt, s2) ->
  GetInfo E s2 = (Ok node, s3) ->
  Swarm_Cluster_ID node = "" ->
  UpdateSwarm E vms s = (Err NoExistingCluster, s3) /\
  mutations (history s3) = mutations (history s).
Proof.
  intros managers Hget Hn Hens Hinfo Hid. split.
  - unfold UpdateSwarm. unfold bind at 1. unfold wrap at 1. rewrite Hget.
    fold managers. rewrite (quorum_admitted _ Hn). cbn [negb].
    destruct (leader_exists managers (randSource E (history s1)) Hn)
      as [manager Hmanager].
    unfold bind at 1. rewrite Intn_pos by lia.
    unfold bind at 1. rewrite (index_Some _ _ _ _ Hmanager).
    unfold bind at 1. unfold wrap at 1. rewrite Hens.
    unfold bind at 1. unfold wrap at 1. rewrite Hinfo, Hid. reflexivity.
  - pose proof (quiet_unchanged _ s (quiet_GetNodes E)) as H1.
    pose proof (quiet_unchanged _ s1 (quiet_ensureManager E)) as H2.
    pose proof (quiet_unchanged _ s2 (quiet_GetInfo E)) as H3.
    rewrite Hget in H1. rewrite Hens in H2. rewrite Hinfo in H3.
    cbn [snd] in *. congruence.
Qed.

(** X6. [UpdateSwarm] on a cluster that already holds every desired
    hostname changes nothing: a successful run whose roster lists the
    hostname of every desired member issues no join and no label update,
    whatever the roles, labels and addresses in the manifest. *)
Theorem UpdateSwarm_nothing_to_add vms s s' roster s1 :
  UpdateSwarm E vms s = (Ok tt, s') ->
  GetNodes E s = (Ok roster, s1) ->
  (forall vm, vm ∈ vms -> Hostname vm ∈ map Status_Hostname roster) ->
  mutations (history s') = mutations (history s).
Proof.
  intros Hrun Hget Hall.
  destruct (UpdateSwarm_Ok E vms s s' Hrun)
    as (roster' & s1' & manager & mt & wt & H & Hget' & _ & _ & Hh & _ & Hm).
  rewrite Hget in Hget'. injection Hget' as <- <-.
  assert (Hnone : absentFrom roster vms = []).
  { unfold absentFrom. clear -Hall.
    induction vms as [| vm rest IH]; [reflexivity |].
    rewrite filter_cons_False.
    - apply IH. intros vm' Hin. apply Hall. right. exact Hin.
    - intros Habs. apply Habs, Hall. left. }
  rewrite Hnone in Hm. cbn in Hm.
  pose proof (quiet_unchanged _ s (quiet_GetNodes E)) as H1.
  rewrite Hget in H1. cbn [snd] in H1.
  rewrite Hh, !mutations_app, Hm, H1. cbn. rewrite app_nil_r. reflexivity.
Qed.

End UpdateFacts.

Lemma UpdateSwarm_needs_cluster_witness :
  exists s3,
    UpdateSwarm (scripted noCluster) threeManagers fresh
      = (Err NoExistingCluster, s3) /\
    commands (history s3) =
      [("", infoCommand); ("", nodesCommand);
       ("", infoCommand); ("", infoCommand)].
Proof.
  set (E := scripted noCluster).
  set (s1 := snd (GetNodes E fresh)).
  set (s2 := snd (ensureManager E s1)).
  set (s3 := snd (GetInfo E s2)).
  assert (Hget : GetNodes E fresh = (Ok (rosterRows ["h1"]), s1))
    by (vm_compute; reflexivity).
  assert (Hens : ensureManager E s1 = (Ok tt, s2))
    by (vm_compute; reflexivity).
  assert (Hinfo : GetInfo E s2 = (Ok (mkNodeInfo "id-0" "" [] true), s3))
    by (vm_compute; reflexivity).
  destruct (UpdateSwarm_needs_cluster E threeManagers fresh _ s1 s2 _ s3
              Hget (or_introl eq_refl) Hens Hinfo eq_refl) as [Hrun _].
  exists s3. split; [exact Hrun |]. vm_compute. reflexivity.
Defined.

Lemma UpdateSwarm_nothing_to_add_witness :
  exists s',
    UpdateSwarm (scripted complete) threeManagers fresh = (Ok tt, s') /\
    mutations (history s') = [] /\
    target s' = "h2.pub".
Proof.
  set (E := scripted complete).
  set (s' := snd (UpdateSwarm E threeManagers fresh)).
  set (s1 := snd (GetNodes E fresh)).
  assert (Hrun : UpdateSwarm E threeManagers fresh = (Ok tt, s'))
    by (vm_compute; reflexivity).
  assert (Hget : GetNodes E fresh
                 = (Ok (rosterRows ["h1"; "h2"; "h3"; "h9"]), s1))
    by (vm_compute; reflexivity).
  assert (Hall : forall vm, vm ∈ threeManagers ->
            Hostname vm ∈ map Status_Hostname
                            (rosterRows ["h1"; "h2"; "h3"; "h9"])).
  { intros vm Hin. unfold threeManagers in Hin.
    repeat (apply elem_of_cons in Hin; destruct Hin as [-> | Hin]);
      [| | | apply elem_of_nil in Hin; contradiction];
      apply (bool_decide_unpack _); vm_compute; exact I. }
  pose proof (UpdateSwarm_nothing_to_add E threeManagers fresh s' _ s1
                Hrun Hget Hall) as Hm.
  exists s'. split; [exact Hrun |]. split; [exact Hm |].
  vm_compute. reflexivity.
Defined.

(** ** Runs that fail part-way *)

Section Plans.

Variable E : Env.

Lemma follows_weaken {A} (c : M A) (P Q : list Mutation -> Prop) :
  follows c P -> (forall p, P p -> Q p) -> follows c Q.
Proof.
  intros Hc HPQ s. destruct (Hc s) as (H & plan & Hh & Hp & Hr).
  exists H, plan. auto.
Qed.

Lemma follows_quiet {A} (c : M A) : quiet c -> follows c (eq []).
Proof.
  intros Hc s. destruct (Hc s) as (H & Hh & Hm).
  exists H, []. rewrite Hm. split; [exact Hh |]. split; [reflexivity |].
  destruct (fst (c s)); reflexivity.
Qed.

Lemma follows_bind {A B} (c : M A) (k : A -> M B) p Q :
  follows c (eq p) ->
  (forall a, follows (k a) Q) ->
  (exists q, Q q) ->
  follows (bind c k) (fun plan => exists q, Q q /\ plan = p ++ q).
Proof.
  intros Hc Hk [q0 Hq0] s. unfold bind.
  destruct (Hc s) as (H1 & p' & Hh1 & <- & Hr1).
  destruct (c s) as [[a | e |] s1]; cbn [fst snd] in *.
  - destruct (Hk a s1) as (H2 & q & Hh2 & Hq & Hr2).
    exists (H1 ++ H2), (p ++ q).
    split; [rewrite Hh2, Hh1, <- app_assoc; reflexivity |].
    split; [eauto |]. rewrite mutations_app, Hr1.
    destruct (fst (k a s1)); [rewrite Hr2; reflexivity | |];
      apply prefix_app, Hr2.
  - exists H1, (p ++ q0). split; [exact Hh1 |]. split; [eauto |].
    apply prefix_app_r, Hr1.
  - exists H1, (p ++ q0). split; [exact Hh1 |]. split; [eauto |].
    apply prefix_app_r, Hr1.
Qed.

Lemma follows_after_quiet {A B} (c : M A) (k : A -> M B) Q :
  quiet c ->
  (forall a, follows (k a) Q) ->
  (exists q, Q q) ->
  follows (bind c k) Q.
Proof.
  intros Hc Hk Hq.
  eapply follows_weaken;
    [apply (follows_bind c k [] Q (follows_quiet c Hc) Hk Hq) |].
  intros p (q & HQ & ->). exact HQ.
Qed.

Lemma follows_then_quiet {A B} (c : M A) (k : A -> M B) p :
  follows c (eq p) -> (forall a, quiet (k a)) -> follows (bind c k) (eq p).
Proof.
  intros Hc Hk.
  eapply follows_weaken;
    [apply (follows_bind c k p (eq []) Hc
              (fun a => follows_quiet _ (Hk a)) (ex_intro _ [] eq_refl)) |].
  intros pl (q & <- & ->). rewrite app_nil_r. reflexivity.
Qed.

Lemma follows_seq {A B} (c : M A) (k : A -> M B) p q :
  follows c (eq p) -> (forall a, follows (k a) (eq q)) ->
  follows (bind c k) (eq (p ++ q)).
Proof.
  intros Hc Hk.
  eapply follows_weaken;
    [apply (follows_bind c k p (eq q) Hc Hk (ex_intro _ q eq_refl)) |].
  intros pl (q' & <- & ->). reflexivity.
Qed.

Lemma follows_wrap {A} ctx (c : M A) Q : follows c Q -> follows (wrap ctx c) Q.
Proof.
  intros Hc s. unfold wrap. destruct (Hc s) as (H & plan & Hh & Hp & Hr).
  exists H, plan.
  destruct (c s) as [[a | e |] s1]; cbn [fst snd] in *; auto.
Qed.

Lemma follows_forEach {A} (body : A -> M unit) (f : A -> list Mutation) l :
  (forall x, follows (body x) (eq (f x))) ->
  follows (forEach l body) (eq (flat_map f l)).
Proof.
  intros Hbody. induction l as [| x rest IH]; cbn [forEach flat_map].
  - apply follows_quiet, quiet_ret.
  - apply follows_seq; [apply Hbody | intros; exact IH].
Qed.

Lemma follows_intro {A} (c : M A) (Q : list Mutation -> Prop) :
  (forall s r s',
      c s = (r, s') ->
      exists H plan,
        history s' = history s ++ H /\ Q plan /\
        match r with
        | Ok _ => mutations H = plan
        | _ => mutations H `prefix_of` plan
        end) ->
  follows c Q.
Proof.
  intros Hc s. destruct (c s) as [r s'] eqn:Hrun. exact (Hc s r s' Hrun).
Qed.

Lemma prefix_of_self (l : list Mutation) : l `prefix_of` l.
Proof. exists []. rewrite app_nil_r. reflexivity. Qed.

(** What a command issued adds to the mutations: its own, or nothing
    when there was no runner for it. *)
Lemma mutations_issued on cmd o :
  mutations (issued on cmd o) `prefix_of` mutations [Ran on cmd o] /\
  (forall out,
      o = Completed out ->
      mutations (issued on cmd o) = mutations [Ran on cmd o]).
Proof.
  split.
  - destruct o; [apply prefix_nil | apply prefix_of_self ..].
  - intros out ->. reflexivity.
Qed.

(** A mutating command, however it ends, leaves at most its one event,
    and leaves it when it succeeds. *)
Lemma runCmd_then_ret ctx cmd s r s' :
  (wrap ctx (runCmd E cmd) ;;; ret tt) s = (r, s') ->
  target s' = target s /\
  history s' =
    history s ++
    issued (target s) cmd (runOutcome E (history s) (render cmd)) /\
  (r = Ok tt ->
   exists out, runOutcome E (history s) (render cmd) = Completed out).
Proof.
  intros Hrun. destruct (runCmd_session E cmd s) as [Ht Hh].
  unfold bind, wrap in Hrun.
  destruct (runCmd E cmd s) as [[o | e |] s2] eqn:Hcmd;
    injection Hrun as <- <-; repeat split; try assumption;
    try discriminate.
  intros _. apply runCmd_Ok in Hcmd. destruct Hcmd as [Hout _]. eauto.
Qed.

(** Whatever happens, [joinSwarm] runs its join on the node to join, or
    not at all. *)
Lemma follows_joinSwarm newNode managerNode token :
  follows (joinSwarm E newNode managerNode token)
    (eq [Join (PublicAddress newNode) (PrivateAddress newNode) token
           (PrivateAddress managerNode)]).
Proof.
  apply follows_intro. intros s r s' Hrun.
  unfold joinSwarm in Hrun. unfold bind at 1 in Hrun. unfold wrap at 1 in Hrun.
  destruct (switchAccepted E (history s) (PublicAddress newNode)) eqn:Hacc.
  - rewrite (SwitchNode_accepted E _ _ Hacc) in Hrun.
    apply runCmd_then_ret in Hrun. destruct Hrun as (_ & Hh & Hok).
    cbn [history target] in Hh, Hok.
    rewrite <- app_assoc in Hh.
    eexists _, _. split; [exact Hh |]. split; [reflexivity |].
    rewrite mutations_app.
    change (mutations [Switched (PublicAddress newNode) true])
      with (@nil Mutation).
    cbn [app].
    match goal with
    | |- context [mutations (issued ?on ?cmd ?o)] =>
        destruct (mutations_issued on cmd o) as [Hpre Hall]
    end.
    destruct r as [[] | e |]; [| exact Hpre | exact Hpre].
    destruct (Hok eq_refl) as [out Hout]. exact (Hall out Hout).
  - rewrite (SwitchNode_refused E _ _ Hacc) in Hrun. injection Hrun as <- <-.
    eexists [Switched (PublicAddress newNode) false], _.
    split; [reflexivity |]. split; [reflexivity |]. apply prefix_nil.
Qed.

(** Whatever happens, [labelNode] runs its update on the node to label,
    or not at all. *)
Lemma follows_labelNode node :
  follows (labelNode E node) (eq (labelling E node)).
Proof.
  apply follows_intro. intros s r s' Hrun.
  unfold labelNode in Hrun. unfold labelling.
  unfold bind at 1 in Hrun. unfold wrap at 1 in Hrun.
  destruct (switchAccepted E (history s) (PublicAddress node)) eqn:Hacc.
  2:{ rewrite (SwitchNode_refused E _ _ Hacc) in Hrun.
      injection Hrun as <- <-.
      eexists [Switched (PublicAddress node) false], _.
      split; [reflexivity |]. split; [reflexivity |]. apply prefix_nil. }
  rewrite (SwitchNode_accepted E _ _ Hacc) in Hrun.
  set (s1 := mkSession (PublicAddress node)
               (history s ++ [Switched (PublicAddress node) true]) (journal s))
    in Hrun.
  unfold bind at 1 in Hrun. unfold wrap at 1 in Hrun.
  destruct (GetInfo_run E s1) as (Ht & Hh & _).
  assert (Hquiet : mutations
                     ([Switched (PublicAddress node) true] ++
                      issued (target s1) infoCommand
                        (runOutcome E (history s1) (render infoCommand)))
                   = []).
  { destruct (runOutcome E (history s1) (render infoCommand)); reflexivity. }
  destruct (GetInfo E s1) as [[info | e |] s2]; cbn [fst snd] in Ht, Hh;
    unfold s1 in Ht, Hh, Hquiet; cbn [history target] in Ht, Hh, Hquiet;
    rewrite <- app_assoc in Hh.
  - destruct (ParseLabels E (GetTag node LabelsTag)) as [[| l ls] |].
    + injection Hrun as <- <-.
      eexists _, _. split; [exact Hh |]. split; [reflexivity | exact Hquiet].
    + apply runCmd_then_ret in Hrun. destruct Hrun as (_ & Hh' & Hok).
      rewrite Hh, Ht in Hh'. rewrite Hh in Hok. rewrite <- !app_assoc in Hh'.
      eexists _, _. split; [exact Hh' |]. split; [reflexivity |].
      rewrite app_assoc, mutations_app, Hquiet. cbn [app].
      match goal with
      | |- context [mutations (issued ?on ?cmd ?o)] =>
          destruct (mutations_issued on cmd o) as [Hpre Hall]
      end.
      destruct r as [[] | e |]; [| exact Hpre | exact Hpre].
      destruct (Hok eq_refl) as [out Hout]. exact (Hall out Hout).
    + unfold bind, logf, fail in Hrun. injection Hrun as <- <-.
      eexists _, _. cbn [history]. split; [exact Hh |].
      split; [reflexivity | rewrite Hquiet; reflexivity].
  - injection Hrun as <- <-.
    eexists _, _. split; [exact Hh |].
    split; [reflexivity |]. rewrite Hquiet. apply prefix_nil.
  - injection Hrun as <- <-.
    eexists _, _. split; [exact Hh |].
    split; [reflexivity |]. rewrite Hquiet. apply prefix_nil.
Qed.

Lemma follows_admit ctxJoin ctxLabel node managerNode token :
  follows (wrap ctxJoin (joinSwarm E node managerNode token) ;;;
           wrap ctxLabel (labelNode E node))
    (eq (joining E token managerNode node)).
Proof.
  apply (follows_seq _ _ [_] (labelling E node)).
  - apply follows_wrap, follows_joinSwarm.
  - intros _. apply follows_wrap, follows_labelNode.
Qed.

End Plans.

Section PlanTheorems.

Variable E : Env.

Lemma follows_loops ctxJ1 ctxL1 ctxJ2 ctxL2 ctxS
    (managers workers : list VMNode) (leader : VMNode) (skip : bool)
    mtoken wtoken :
  follows
    (forEach managers (fun newManager =>
       if skip && String.eqb (PublicAddress newManager) (PublicAddress leader)
       then ret tt
       else
         wrap (ctxJ1 newManager) (joinSwarm E newManager leader mtoken) ;;;
         wrap ctxL1 (labelNode E newManager)) ;;;
     forEach workers (fun worker =>
       wrap (ctxJ2 worker) (joinSwarm E worker leader wtoken) ;;;
       wrap ctxL2 (labelNode E worker)) ;;;
     wrap ctxS (SwitchNode E (PublicAddress leader)))
    (eq (flat_map (joining E mtoken leader)
           (filter (fun m => skip = true ->
                             PublicAddress m <> PublicAddress leader) managers)
         ++ flat_map (joining E wtoken leader) workers)).
Proof.
  apply follows_seq.
  - rewrite <- flat_map_skipping. apply follows_forEach. intros x.
    destruct skip; cbn [andb].
    + destruct (String.eqb_spec (PublicAddress x) (PublicAddress leader))
        as [Heq | Hne].
      * rewrite decide_False by (intros Hn; apply (Hn eq_refl), Heq).
        apply follows_quiet, quiet_ret.
      * rewrite decide_True by (intros _; exact Hne). apply follows_admit.
    + rewrite decide_True by discriminate. apply follows_admit.
  - intros _. apply follows_then_quiet.
    + apply follows_forEach. intros x. apply follows_admit.
    + intros _. apply quiet_wrap, quiet_SwitchNode.
Qed.

End PlanTheorems.

Section PlanClaims.

Variable E : Env.

Lemma filter_skip_true (leader : VMNode) (managers : list VMNode) :
  filter (fun m => true = true -> PublicAddress m <> PublicAddress leader)
    managers =
  filter (fun m => PublicAddress m <> PublicAddress leader) managers.
Proof. apply list_filter_iff. intros m. split; auto. Qed.

Lemma filter_skip_false (leader : VMNode) (managers : list VMNode) :
  filter (fun m => false = true -> PublicAddress m <> PublicAddress leader)
    managers = managers.
Proof.
  induction managers as [| m rest IH]; [reflexivity |].
  rewrite filter_cons_True by discriminate. f_equal. exact IH.
Qed.

(** X7. Every run of [CreateSwarm] has changed the cluster by the one
    sequence it sets out to issue, or by a beginning of it: the init on
    the leader, the leader's labelling, the joins and labellings of the
    other managers in manifest order, then those of the workers.  A run
    that succeeds has issued the whole sequence, on the leader drawn; a
    run that fails has issued nothing, or a beginning of that sequence and
    nothing after it.  So no worker is joined before every other manager
    was, no node is skipped after a failure, and nothing is undone. *)
Theorem CreateSwarm_follows_its_plan vms s :
  let managers := FilterByTag vms RoleTag ManagerRole in
  let i := (randSource E (history s) mod length managers)%nat in
  let r := fst (CreateSwarm E vms s) in
  let s' := snd (CreateSwarm E vms s) in
  exists H,
    history s' = history s ++ H /\
    match r with
    | Ok _ =>
        exists leader mtoken wtoken,
          managers !! i = Some leader /\
          mutations H = formationPlan E vms leader mtoken wtoken
    | _ =>
        mutations H = [] \/
        exists leader mtoken wtoken,
          managers !! i = Some leader /\
          mutations H `prefix_of` formationPlan E vms leader mtoken wtoken
    end.
Proof.
  intros managers i r s'. subst r s'.
  destruct (CreateSwarm E vms s) as [r s'] eqn:Hrun. cbn [fst snd].
  unfold CreateSwarm in Hrun. fold managers in Hrun.
  destruct (negb ((length managers =? 3)%nat || (length managers =? 5)%nat))
    eqn:Hq.
  { injection Hrun as <- <-. exists []. rewrite app_nil_r.
    split; [reflexivity | left; reflexivity]. }
  apply quorum_admitted_inv in Hq.
  unfold bind at 1 in Hrun. rewrite Intn_pos in Hrun by lia. fold i in Hrun.
  destruct (leader_exists managers (randSource E (history s)) Hq)
    as [leader Hleader]. fold i in Hleader.
  unfold bind at 1 in Hrun. rewrite (index_Some _ _ _ _ Hleader) in Hrun.
  unfold bind at 1 in Hrun. unfold wrap at 1 in Hrun.
  destruct (switchAccepted E (history s) (PublicAddress leader)) eqn:Hacc.
  2:{ rewrite (SwitchNode_refused E _ _ Hacc) in Hrun. injection Hrun as <- <-.
      eexists. split; [reflexivity |]. left. reflexivity. }
  rewrite (SwitchNode_accepted E _ _ Hacc) in Hrun.
  set (s1 := mkSession (PublicAddress leader)
               (history s ++ [Switched (PublicAddress leader) true])
               (journal s)) in Hrun.
  unfold bind at 1 in Hrun. unfold wrap at 1 in Hrun.
  destruct (GetInfo_run E s1) as (Ht2 & Hh2 & _).
  assert (Hquiet : mutations
                     ([Switched (PublicAddress leader) true] ++
                      issued (target s1) infoCommand
                        (runOutcome E (history s1) (render infoCommand)))
                   = []).
  { destruct (runOutcome E (history s1) (render infoCommand)); reflexivity. }
  destruct (GetInfo E s1) as [[node | e |] s2]; cbn [fst snd] in Ht2, Hh2;
    cbn [history target s1] in Hh2, Ht2, Hquiet; rewrite <- app_assoc in Hh2.
  2,3: injection Hrun as <- <-; eexists; split; [exact Hh2 |];
       left; exact Hquiet.
  destruct (negb (Swarm_Cluster_ID node =? "")%string).
  { injection Hrun as <- <-. eexists. split; [exact Hh2 |]. left. exact Hquiet. }
  unfold bind at 1 in Hrun. unfold wrap at 1 in Hrun.
  destruct (runCmd_session E
              (initCommand (PrivateAddress leader) (PrivateAddress leader)) s2)
    as [Ht3 Hh3].
  rewrite Ht2 in Hh3.
  destruct (mutations_issued (PublicAddress leader)
              (initCommand (PrivateAddress leader) (PrivateAddress leader))
              (runOutcome E (history s2)
                 (render (initCommand (PrivateAddress leader)
                            (PrivateAddress leader)))))
    as [Hpre Hall].
  change (mutations
            [Ran (PublicAddress leader)
               (initCommand (PrivateAddress leader) (PrivateAddress leader))
               (runOutcome E (history s2)
                  (render (initCommand (PrivateAddress leader)
                             (PrivateAddress leader))))])
    with [Init (PublicAddress leader) (PrivateAddress leader)] in Hpre, Hall.
  rewrite Hh2 in Hpre, Hall.
  destruct (runCmd E (initCommand (PrivateAddress leader)
                        (PrivateAddress leader)) s2)
    as [[out | e |] s3] eqn:Hinit; cbn [fst snd] in Ht3, Hh3.
  2,3: injection Hrun as <- <-;
       rewrite Hh2, <- !app_assoc in Hh3;
       eexists; split; [exact Hh3 |];
       right; exists leader, "", ""; split; [exact Hleader |];
       rewrite (app_assoc [Switched (PublicAddress leader) true]),
         mutations_app, Hquiet;
       cbn [app]; etransitivity; [exact Hpre |];
       unfold formationPlan; apply prefix_cons, prefix_nil.
  apply runCmd_Ok in Hinit. destruct Hinit as [Hout _].
  rewrite Hh2 in Hout. specialize (Hall out Hout).
  match type of Hrun with
  | ?c s3 = _ =>
      assert (Htail : follows c
                (fun pl => exists mt wt,
                     pl = labelling E leader
                          ++ flat_map (joining E mt leader)
                               (filter (fun m => PublicAddress m
                                                 <> PublicAddress leader)
                                  managers)
                          ++ flat_map (joining E wt leader)
                               (FilterByTag vms RoleTag WorkerRole)))
  end.
  { eapply follows_weaken.
    - apply (follows_bind _ _ (labelling E leader)
               (fun pl => exists mt wt,
                    pl = flat_map (joining E mt leader)
                           (filter (fun m => PublicAddress m
                                             <> PublicAddress leader) managers)
                         ++ flat_map (joining E wt leader)
                              (FilterByTag vms RoleTag WorkerRole))).
      + apply follows_wrap, follows_labelNode.
      + intros _.
        apply follows_after_quiet;
          [apply quiet_wrap, quiet_GetInfo | | eexists; exists "", ""; reflexivity].
        intros node'.
        apply follows_after_quiet;
          [apply quiet_wrap, quiet_JoinToken | | eexists; exists "", ""; reflexivity].
        intros mt.
        apply follows_after_quiet;
          [apply quiet_wrap, quiet_JoinToken | | eexists; exists "", ""; reflexivity].
        intros wt.
        eapply follows_weaken.
        * apply (follows_loops E
                   (fun newManager =>
                      JoiningManager (PublicAddress newManager)
                        (PublicAddress leader) (Swarm_Cluster_ID node'))
                   LabellingManager
                   (fun worker =>
                      JoiningWorker (PublicAddress worker)
                        (PublicAddress leader) (Swarm_Cluster_ID node'))
                   LabellingWorker SwitchingToManagerNode
                   managers (FilterByTag vms RoleTag WorkerRole) leader true
                   mt wt).
        * intros pl <-. rewrite filter_skip_true. eauto.
      + eexists; exists "", ""; reflexivity.
    - intros pl (q & (mt & wt & ->) & ->). eauto. }
  destruct (Htail s3) as (H & pl & Hh & (mt & wt & ->) & Hr).
  rewrite Hrun in Hh, Hr. cbn [fst snd] in Hh, Hr.
  rewrite Hh3, Hh2, <- !app_assoc in Hh.
  eexists. split; [exact Hh |].
  match goal with
  | |- context [mutations ?l] =>
      assert (Hmut : mutations l
                     = Init (PublicAddress leader) (PrivateAddress leader)
                         :: mutations H)
  end.
  { rewrite (app_assoc [Switched (PublicAddress leader) true]),
      mutations_app, Hquiet.
    rewrite app_nil_l, mutations_app, Hall. reflexivity. }
  unfold formationPlan. fold managers.
  destruct r as [[] | e |].
  - exists leader, mt, wt. split; [exact Hleader |].
    rewrite Hmut, Hr. reflexivity.
  - right. exists leader, mt, wt. split; [exact Hleader |].
    rewrite Hmut. apply prefix_cons, Hr.
  - right. exists leader, mt, wt. split; [exact Hleader |].
    rewrite Hmut. apply prefix_cons, Hr.
Qed.

End PlanClaims.

Section UpdatePlanClaims.

Variable E : Env.

Lemma follows_fail {A} e (Q : list Mutation -> Prop) :
  (exists q, Q q) -> follows (@fail A e) Q.
Proof.
  intros [q Hq] s. exists [], q. cbn. rewrite app_nil_r.
  split; [reflexivity |]. split; [exact Hq | apply prefix_nil].
Qed.

(** X8. Every run of [UpdateSwarm] has changed the cluster by the one
    sequence it sets out to issue, or by a beginning of it: the joins and
    labellings of the absent managers in manifest order, then those of the
    absent workers, all through the manager it drew.  A run that succeeds
    has listed the roster and issued the whole sequence; a run that fails
    has issued nothing, or a beginning of that sequence and nothing after
    it.  Nothing is issued before the roster is known and nothing is
    undone. *)
Theorem UpdateSwarm_follows_its_plan vms s :
  let managers := FilterByTag vms RoleTag ManagerRole in
  let r := fst (UpdateSwarm E vms s) in
  let s' := snd (UpdateSwarm E vms s) in
  exists H,
    history s' = history s ++ H /\
    match r with
    | Ok _ =>
        exists roster s1 manager mtoken wtoken,
          GetNodes E s = (Ok roster, s1) /\
          managers !! (randSource E (history s1) mod length managers)%nat
            = Some manager /\
          mutations H = updatePlan E vms roster manager mtoken wtoken
    | _ =>
        mutations H = [] \/
        exists roster s1 manager mtoken wtoken,
          GetNodes E s = (Ok roster, s1) /\
          managers !! (randSource E (history s1) mod length managers)%nat
            = Some manager /\
          mutations H `prefix_of`
            updatePlan E vms roster manager mtoken wtoken
    end.
Proof.
  intros managers r s'. subst r s'.
  destruct (UpdateSwarm E vms s) as [r s'] eqn:Hrun. cbn [fst snd].
  unfold UpdateSwarm in Hrun. fold managers in Hrun.
  unfold bind at 1 in Hrun. unfold wrap at 1 in Hrun.
  destruct (quiet_GetNodes E s) as (H1 & Hh1 & Hm1).
  destruct (GetNodes E s) as [[roster | e |] s1] eqn:Hget; cbn [snd] in Hh1.
  2,3: injection Hrun as <- <-; exists H1; split; [exact Hh1 | left; exact Hm1].
  destruct (negb ((length managers =? 3)%nat || (length managers =? 5)%nat))
    eqn:Hq.
  { injection Hrun as <- <-. exists H1. split; [exact Hh1 | left; exact Hm1]. }
  apply quorum_admitted_inv in Hq.
  unfold bind at 1 in Hrun. rewrite Intn_pos in Hrun by lia.
  destruct (leader_exists managers (randSource E (history s1)) Hq)
    as [manager Hmanager].
  unfold bind at 1 in Hrun. rewrite (index_Some _ _ _ _ Hmanager) in Hrun.
  fold (absentFrom roster vms) in Hrun.
  assert (Habsent :
            filter (fun vm => rosterHostnames roster !! Hostname vm = None) vms
            = absentFrom roster vms).
  { apply list_filter_iff. intros vm. apply rosterHostnames_lookup. }
  rewrite Habsent in Hrun.
  match type of Hrun with
  | ?c s1 = _ =>
      assert (Htail : follows c
                (fun pl => exists mt wt,
                     pl = updatePlan E vms roster manager mt wt))
  end.
  { apply follows_after_quiet;
      [apply quiet_wrap, quiet_ensureManager | |
       eexists; exists "", ""; reflexivity].
    intros _.
    apply follows_after_quiet;
      [apply quiet_wrap, quiet_GetInfo | |
       eexists; exists "", ""; reflexivity].
    intros node.
    destruct (Swarm_Cluster_ID node =? "")%string.
    { apply follows_fail. eexists; exists "", ""; reflexivity. }
    apply follows_after_quiet;
      [apply quiet_wrap, quiet_JoinToken | |
       eexists; exists "", ""; reflexivity].
    intros mt.
    apply follows_after_quiet;
      [apply quiet_wrap, quiet_JoinToken | |
       eexists; exists "", ""; reflexivity].
    intros wt.
    eapply follows_weaken.
    - apply (follows_loops E
               (fun newManager =>
                  JoiningManager (PublicAddress newManager)
                    (PublicAddress manager) (Swarm_Cluster_ID node))
               LabellingManager
               (fun worker =>
                  JoiningWorker (PublicAddress worker)
                    (PublicAddress manager) (Swarm_Cluster_ID node))
               LabellingWorker SwitchingToManagerNode
               (FilterByTag (absentFrom roster vms) RoleTag ManagerRole)
               (FilterByTag (absentFrom roster vms) RoleTag WorkerRole)
               manager false mt wt).
    - intros pl <-. rewrite filter_skip_false. exists mt, wt. reflexivity. }
  destruct (Htail s1) as (H & pl & Hh & (mt & wt & ->) & Hr).
  rewrite Hrun in Hh, Hr. cbn [fst snd] in Hh, Hr.
  exists (H1 ++ H). split; [rewrite Hh, Hh1, <- app_assoc; reflexivity |].
  rewrite mutations_app, Hm1. cbn [app].
  destruct r as [[] | e |].
  - exists roster, s1, manager, mt, wt. auto.
  - right. exists roster, s1, manager, mt, wt. auto.
  - right. exists roster, s1, manager, mt, wt. auto.
Qed.

End UpdatePlanClaims.

(** ** More on draining *)

Section DrainFacts.

Variable E : Env.

(** What [n] polls in a row leave in the history: one task query for
    each poll that found a runner. *)
Lemma Starved_polls node on h n h1 :
  Starved E node on h n h1 ->
  exists H k,
    h1 = h ++ H /\ (k <= n)%nat /\
    commands H = replicate k (on, tasksCommand node) /\
    ((forall h',
         runOutcome E h' (render (tasksCommand node)) <> RunnerMissing) ->
     k = n).
Proof.
  induction 1 as [h | h n h' Htick Hpoll Hst (H & k & -> & Hk & Hc & Hall)].
  - exists [], 0%nat. rewrite app_nil_r. auto.
  - destruct (runOutcome E (h ++ [TickerFired]) (render (tasksCommand node)))
      as [| | | so se | so] eqn:Hout; cbn [issued] in *.
    1: exists (TickerFired :: H), k.
    2-5: match type of Hst with
         | Starved _ _ _ (_ ++ [_; ?ev]) _ _ =>
             exists (TickerFired :: ev :: H), (S k)
         end.
    all: rewrite <- app_assoc; split; [reflexivity |];
      split; [lia |];
      split; [cbn; fold (commands H); rewrite Hc; reflexivity |];
      intros Hrunner; try (rewrite (Hall Hrunner); reflexivity).
    exfalso. exact (Hrunner _ Hout).
Qed.

(** After [n] polls that do not see the node drained, a poll that does
    ends the loop. *)
Lemma drainLoop_drained_run node startedAt on h n h1 :
  Starved E node on h n h1 ->
  selectTicker E h1 = true ->
  pollDrained E
    (runOutcome E (h1 ++ [TickerFired]) (render (tasksCommand node))) = true ->
  forall fuel s,
    (n < fuel)%nat -> target s = on -> history s = h ->
    exists s',
      drainLoop E fuel node startedAt s = (Ok tt, s') /\
      history s' =
        h1 ++ [TickerFired;
               Ran on (tasksCommand node)
                 (runOutcome E (h1 ++ [TickerFired])
                    (render (tasksCommand node)))] /\
      last (journal s') =
        Some (LogDrained node (clock E (h1 ++ [TickerFired]) - startedAt)).
Proof.
  intros Hst Htick Hpoll.
  induction Hst as [h | h n h' Htick' Hpoll' Hst IH];
    intros fuel s Hfuel Ht Hh.
  - destruct fuel as [| fuel]; [lia |]. subst h on.
    rewrite (drainLoop_tick E _ _ _ _ Htick). cbv zeta.
    set (s1 := mkSession (target s) (history s ++ [TickerFired]) (journal s)).
    destruct (getTasks_run E node s1) as (Ht1 & Hh1 & Hres).
    destruct (getTasks E node s1) as [[tasks | e |] s2];
      cbn [fst snd] in Ht1, Hh1, Hres; cbn [history target s1] in Hh1, Hres.
    + destruct Hres as (so & Hout & Hdec & Hall).
      rewrite Hpoll in Hall. rewrite <- Hall.
      eexists. split; [reflexivity |]. cbn [history journal].
      split; [| apply last_snoc].
      rewrite Hh1, Hout, <- app_assoc. reflexivity.
    + congruence.
    + contradiction.
  - destruct fuel as [| fuel]; [lia |]. subst h on.
    destruct (drainLoop_retry E fuel node startedAt s Htick' Hpoll')
      as (s2 & Heq & Ht2 & Hh2).
    rewrite Heq. apply (IH Htick Hpoll fuel s2); [lia | exact Ht2 | exact Hh2].
Qed.

(** X9. The polling loop ends at the first poll that sees the node
    drained: if [n] polls in a row do not, and at the next tick the task
    query completes with every task shut down, then with fuel for these
    iterations the loop succeeds right after that poll, which is the last
    event of its history, and logs the node drained with the time read at
    that last tick.  It has run one task query for that poll and one for
    each of the [n] polls before it that found a runner, and no other
    command: exactly [n + 1] task queries when the switcher never lacks a
    runner. *)
Theorem drainLoop_drained_at_poll node startedAt on h n h1 fuel s :
  Starved E node on h n h1 ->
  selectTicker E h1 = true ->
  pollDrained E
    (runOutcome E (h1 ++ [TickerFired]) (render (tasksCommand node))) = true ->
  (n < fuel)%nat -> target s = on -> history s = h ->
  exists s' H k,
    drainLoop E fuel node startedAt s = (Ok tt, s') /\
    history s' = history s ++ H /\
    (k <= n)%nat /\
    commands H = replicate (S k) (on, tasksCommand node) /\
    ((forall h',
         runOutcome E h' (render (tasksCommand node)) <> RunnerMissing) ->
     commands H = replicate (S n) (on, tasksCommand node)) /\
    history s' =
      h1 ++ [TickerFired;
             Ran on (tasksCommand node)
               (runOutcome E (h1 ++ [TickerFired])
                  (render (tasksCommand node)))] /\
    last (history s') =
      Some (Ran on (tasksCommand node)
              (runOutcome E (h1 ++ [TickerFired])
                 (render (tasksCommand node)))) /\
    last (journal s') =
      Some (LogDrained node (clock E (h1 ++ [TickerFired]) - startedAt)).
Proof.
  intros Hst Htick Hpoll Hfuel Ht Hh.
  destruct (drainLoop_drained_run node startedAt on h n h1 Hst Htick Hpoll
              fuel s Hfuel Ht Hh) as (s' & Hrun & Hh' & Hj).
  destruct (Starved_polls node on h n h1 Hst) as (H & k & -> & Hk & Hc & Hall).
  exists s'. eexists. exists k. split; [exact Hrun |].
  rewrite Hh', Hh, <- app_assoc.
  split; [reflexivity |]. split; [exact Hk |].
  assert (Hcount : forall m,
            commands H = replicate m (on, tasksCommand node) ->
            commands
              (H ++ [TickerFired;
                     Ran on (tasksCommand node)
                       (runOutcome E ((h ++ H) ++ [TickerFired])
                          (render (tasksCommand node)))])
            = replicate (S m) (on, tasksCommand node)).
  { intros m Hm. rewrite commands_app, Hm.
    change (commands [TickerFired;
                      Ran on (tasksCommand node)
                        (runOutcome E ((h ++ H) ++ [TickerFired])
                           (render (tasksCommand node)))])
      with (replicate 1 (on, tasksCommand node)).
    rewrite <- replicate_add. f_equal. lia. }
  split; [apply Hcount, Hc |].
  split; [intros Hrunner; apply Hcount; rewrite Hc, (Hall Hrunner); reflexivity |].
  split; [reflexivity |].
  split; [| exact Hj].
  rewrite (app_assoc h H).
  match goal with
  | |- last (?l ++ [?a; ?b]) = _ =>
      change (l ++ [a; b]) with (l ++ [a] ++ [b]);
      rewrite (app_assoc l); apply last_snoc
  end.
Qed.

End DrainFacts.

Lemma drainLoop_drained_at_poll_witness :
  exists s' H,
    drainLoop (scripted thirdPoll) 10 "n1" 0 pollingStarts = (Ok tt, s') /\
    history s' = history pollingStarts ++ H /\
    commands H = replicate 3 ("", tasksCommand "n1") /\
    last (journal s') = Some (LogDrained "n1" 15000000000).
Proof.
  set (E := scripted thirdPoll).
  eassert (Hst : Starved E "n1" "" (history pollingStarts) 2 _).
  { eapply Starved_tick; [vm_compute; reflexivity | vm_compute; reflexivity |].
    eapply Starved_tick; [vm_compute; reflexivity | vm_compute; reflexivity |].
    apply Starved_now. }
  destruct (drainLoop_drained_at_poll E "n1" 0 "" (history pollingStarts) 2 _
              10 pollingStarts Hst)
    as (s' & H & k & Hrun & Hh & _ & _ & Hc & _ & _ & Hj).
  - vm_compute; reflexivity.
  - vm_compute; reflexivity.
  - lia.
  - reflexivity.
  - reflexivity.
  - exists s', H. split; [exact Hrun |]. split; [exact Hh |].
    split; [| rewrite Hj; vm_compute; reflexivity].
    apply Hc. intros h'.
    change (runOutcome E h' (render (tasksCommand "n1")))
      with (tasksOf thirdPoll (render (tasksCommand "n1")) (ticksReceived h')).
    cbn [tasksOf thirdPoll].
    destruct (ticksReceived h') as [| [| [| m]]]; discriminate.
Defined.

Section DrainRuns.

Variable E : Env.

Lemma polling_quiet node on rest :
  Forall (polling node on) rest ->
  switches rest = [] /\ mutations rest = [] /\
  omap updateOf (commands rest) = [].
Proof.
  induction 1 as [| ev rest Hev _ (IHs & IHm & IHu)]; [auto |].
  destruct ev as [a ok | on' c o | d | d | | | |]; cbn in Hev;
    try contradiction; try (repeat split; assumption).
  destruct c; try contradiction. repeat split; assumption.
Qed.

(** Every event of the polling loop is a tick, the deadline, or a task
    query of the node on the target the loop started on. *)
Lemma drainLoop_polls node startedAt fuel : forall s,
  target (snd (drainLoop E fuel node startedAt s)) = target s /\
  exists rest,
    history (snd (drainLoop E fuel node startedAt s)) = history s ++ rest /\
    Forall (polling node (target s)) rest.
Proof.
  induction fuel as [| fuel IH]; intros s.
  - split; [reflexivity |]. exists []. cbn. rewrite app_nil_r. auto.
  - destruct (selectTicker E (history s)) eqn:Htick.
    2:{ rewrite (drainLoop_deadline E _ _ _ _ Htick). cbn.
        split; [reflexivity |]. eexists. split; [reflexivity |].
        repeat constructor. }
    rewrite (drainLoop_tick E _ _ _ _ Htick). cbv zeta.
    set (s1 := mkSession (target s) (history s ++ [TickerFired]) (journal s)).
    destruct (getTasks_run E node s1) as (Ht & Hh & Hres).
    cbn [history target s1] in Ht, Hh. rewrite <- app_assoc in Hh.
    assert (Hpolled : Forall (polling node (target s))
                        ([TickerFired] ++
                         issued (target s) (tasksCommand node)
                           (runOutcome E (history s ++ [TickerFired])
                              (render (tasksCommand node))))).
    { destruct (runOutcome E (history s ++ [TickerFired])
                  (render (tasksCommand node))); repeat constructor. }
    assert (Hnext : forall l,
              let s3 := mkSession (target (snd (getTasks E node s1)))
                          (history (snd (getTasks E node s1)))
                          (journal (snd (getTasks E node s1)) ++ [l]) in
              target (snd (drainLoop E fuel node startedAt s3)) = target s /\
              exists rest,
                history (snd (drainLoop E fuel node startedAt s3))
                  = history s ++ rest /\
                Forall (polling node (target s)) rest).
    { intros l s3. destruct (IH s3) as (Ht' & rest & Hh' & Hall).
      cbn [target history s3] in Ht', Hh', Hall. rewrite Ht in Ht', Hall.
      split; [exact Ht' |]. rewrite Hh', Hh, <- app_assoc.
      eexists. split; [reflexivity |].
      apply Forall_app. split; [exact Hpolled | exact Hall]. }
    destruct (getTasks E node s1) as [[tasks | e |] s2];
      cbn [fst snd] in Ht, Hh, Hres, Hnext; [| | contradiction].
    + destruct (AllShutdown E tasks).
      * cbn [fst snd target history]. split; [exact Ht |].
        eexists. split; [exact Hh |]. exact Hpolled.
      * apply Hnext.
    + apply Hnext.
Qed.

(** X10. [drainNode] makes its context and its ticker only once the
    availability command has completed.  When there is no runner to hand
    the command to, it fails with the wrapped [NoRunnerConfigured] and has
    done nothing at all: the session is as it was.  When the command was
    handed over and failed, it fails with [RunningUpdateCommand] and the
    command is all it did.  Otherwise, however the drain ends, what
    follows the creation of the context (with the 10-minute timeout) and
    of the ticker (with the 5-second period) is only ticks, the deadline
    and task queries of that node on the same target, and then the release
    of the ticker and of the context, in that order.  The target never
    changes. *)
Theorem drainNode_makes_and_releases fuel node s :
  let out := runOutcome E (history s) (render (drainCommand node)) in
  let r := fst (drainNode E fuel node s) in
  let s' := snd (drainNode E fuel node s) in
  target s' = target s /\
  match out with
  | Completed _ =>
      exists rest,
        history s' =
          history s ++
          [Ran (target s) (drainCommand node) out;
           WithTimeout drainTimeout; NewTicker tickInterval]
          ++ rest ++ [TickerStopped; ContextCancelled] /\
        Forall (polling node (target s)) rest
  | RunnerMissing =>
      s' = s /\ r = Err (RunningUpdateCommand NoRunnerConfigured)
  | _ =>
      history s' = history s ++ [Ran (target s) (drainCommand node) out] /\
      exists e, r = Err (RunningUpdateCommand e)
  end.
Proof.
  cbv zeta.
  destruct (runOutcome E (history s) (render (drainCommand node)))
    as [| | | so se | so] eqn:Hout.
  1-4: unfold drainNode, bind, timeNow, wrap, runCmd;
       change (updateCommand (setAvailability availabilityDrain) node)
         with (drainCommand node);
       rewrite Hout; cbn; eauto.
  rewrite (drainNode_run E fuel node s so Hout). cbv zeta. cbn [fst snd].
  match goal with
  | |- context [drainLoop E fuel node ?t0 ?s0] =>
      destruct (drainLoop_polls node t0 fuel s0) as (Ht & rest & Hh & Hall)
  end.
  cbn [target history] in *. split; [exact Ht |].
  exists rest. rewrite Hh, <- !app_assoc. split; [reflexivity | exact Hall].
Qed.

End DrainRuns.

Section DrainOrder.

Variable E : Env.

Lemma updates_app h1 h2 : updates (h1 ++ h2) = updates h1 ++ updates h2.
Proof. unfold updates. rewrite commands_app. apply omap_app. Qed.

Lemma drainNode_updates fuel node s :
  target (snd (drainNode E fuel node s)) = target s /\
  exists H,
    history (snd (drainNode E fuel node s)) = history s ++ H /\
    switches H = [] /\
    updates H `prefix_of` [drainUpdate (target s) node] /\
    (fst (drainNode E fuel node s) = Ok tt ->
     updates H = [drainUpdate (target s) node]).
Proof.
  destruct (runOutcome E (history s) (render (drainCommand node)))
    as [| | | so se | so] eqn:Hout.
  1: unfold drainNode, bind, timeNow, wrap, runCmd;
     change (updateCommand (setAvailability availabilityDrain) node)
       with (drainCommand node);
     rewrite Hout; cbn; split; [reflexivity |];
     exists []; rewrite app_nil_r; split; [reflexivity |];
     split; [reflexivity |]; split; [apply prefix_nil | discriminate].
  1-3: unfold drainNode, bind, timeNow, wrap, runCmd;
       change (updateCommand (setAvailability availabilityDrain) node)
         with (drainCommand node);
       rewrite Hout; cbn; split; [reflexivity |];
       eexists; split; [reflexivity |]; split; [reflexivity |];
       split; [exists []; reflexivity | reflexivity].
  rewrite (drainNode_run E fuel node s so Hout). cbv zeta. cbn [fst snd].
  match goal with
  | |- context [drainLoop E fuel node ?t0 ?s0] =>
      destruct (drainLoop_polls E node t0 fuel s0) as (Ht & rest & Hh & Hall)
  end.
  cbn [target history] in *. split; [exact Ht |].
  destruct (polling_quiet _ _ _ Hall) as (Hsw & _ & Hup).
  eexists. rewrite Hh, <- !app_assoc. split; [reflexivity |].
  split; [rewrite !switches_app, Hsw; reflexivity |].
  assert (Hu : updates
                 ([Ran (target s) (drainCommand node) (Completed so);
                   WithTimeout drainTimeout; NewTicker tickInterval] ++
                  rest ++ [TickerStopped; ContextCancelled])
               = [drainUpdate (target s) node]).
  { rewrite !updates_app. unfold updates at 2. rewrite Hup. reflexivity. }
  rewrite Hu. split; [exists []; reflexivity | reflexivity].
Qed.

Lemma drainOne_updates fuel node s :
  let c :=
    orElse (drainNode E fuel node)
      (fun err => logf (LogDrainFailed node) ;;; fail (DrainingNode node err))
  in
  target (snd (c s)) = target s /\
  exists H,
    history (snd (c s)) = history s ++ H /\
    switches H = [] /\
    updates H `prefix_of` [drainUpdate (target s) node] /\
    (fst (c s) = Ok tt -> updates H = [drainUpdate (target s) node]).
Proof.
  cbv zeta. unfold orElse.
  destruct (drainNode_updates fuel node s)
    as (Ht & H1 & Hh1 & Hs1 & Hp1 & Hu1).
  destruct (drainNode E fuel node s) as [[[] | e |] s1];
    cbn [fst snd] in Ht, Hh1, Hu1; cbn; split; try exact Ht;
    exists H1; repeat split; try assumption; discriminate.
Qed.

Lemma drainEach_updates fuel nodes : forall s,
  let c :=
    forEach nodes (fun node =>
      orElse (drainNode E fuel node)
        (fun err => logf (LogDrainFailed node) ;;; fail (DrainingNode node err)))
  in
  target (snd (c s)) = target s /\
  exists H,
    history (snd (c s)) = history s ++ H /\
    switches H = [] /\
    updates H `prefix_of` map (drainUpdate (target s)) nodes /\
    (fst (c s) = Ok tt -> updates H = map (drainUpdate (target s)) nodes).
Proof.
  set (body := fun node : string =>
         orElse (drainNode E fuel node)
           (fun err =>
              logf (LogDrainFailed node) ;;; fail (DrainingNode node err))).
  induction nodes as [| node rest IH]; intros s; cbv zeta.
  - cbn. split; [reflexivity |]. exists []. rewrite app_nil_r.
    repeat split; auto.
  - cbn [forEach]. unfold bind.
    destruct (drainOne_updates fuel node s)
      as (Ht & H1 & Hh1 & Hs1 & Hp1 & Hu1).
    cbv zeta in Ht, Hh1, Hu1. fold (body node) in Ht, Hh1, Hu1.
    destruct (body node s) as [[[] | e |] s1]; cbn [fst snd] in Ht, Hh1, Hu1.
    + destruct (IH s1) as (Ht' & H2 & Hh2 & Hs2 & Hp2 & Hu2).
      cbv zeta in Ht', Hh2, Hp2, Hu2. rewrite Ht in Ht', Hp2, Hu2.
      split; [exact Ht' |]. exists (H1 ++ H2).
      rewrite Hh2, Hh1, <- app_assoc. split; [reflexivity |].
      rewrite switches_app, Hs1, Hs2, updates_app, (Hu1 eq_refl).
      cbn [app map].
      split; [reflexivity |]. split.
      * apply prefix_cons, Hp2.
      * intros Hok. rewrite (Hu2 Hok). reflexivity.
    + cbn [fst snd]. split; [exact Ht |]. exists H1. cbn [map].
      repeat split; auto.
      * etransitivity; [exact Hp1 | apply prefix_cons, prefix_nil].
      * discriminate.
    + cbn [fst snd]. split; [exact Ht |]. exists H1. cbn [map].
      repeat split; auto.
      * etransitivity; [exact Hp1 | apply prefix_cons, prefix_nil].
      * discriminate.
Qed.

(** X11. [DrainNodes] drains in list order from one place.  After
    [ensureManager], every run keeps the target it reached, makes no
    further switch, and its node updates are the availability-drain
    commands of a beginning of the list, in order, each run on that
    target: a node is not touched before the drain of the one before it
    has ended well, and availability is never set back.  A run that
    succeeds has drained the whole list; when no manager could be ensured
    nothing at all is asked beyond that. *)
Theorem DrainNodes_drains_in_order fuel nodes s :
  let r := fst (DrainNodes E fuel nodes s) in
  let s' := snd (DrainNodes E fuel nodes s) in
  let s0 := snd (ensureManager E s) in
  exists H,
    history s' = history s0 ++ H /\
    target s' = target s0 /\
    switches H = [] /\
    updates H `prefix_of` map (drainUpdate (target s0)) nodes /\
    (r = Ok tt -> updates H = map (drainUpdate (target s0)) nodes) /\
    (fst (ensureManager E s) <> Ok tt -> H = []).
Proof.
  cbv zeta. unfold DrainNodes. unfold bind, wrap.
  destruct (ensureManager E s) as [[[] | e |] s0]; cbn [fst snd].
  - destruct (drainEach_updates fuel nodes s0) as (Ht & H & Hh & Hs & Hp & Hu).
    cbv zeta in Ht, Hh, Hp, Hu.
    exists H. repeat split; try assumption. intros Hne. contradiction.
  - exists []. rewrite app_nil_r. repeat split; auto.
    + apply prefix_nil.
    + discriminate.
  - exists []. rewrite app_nil_r. repeat split; auto.
    + apply prefix_nil.
    + discriminate.
Qed.

End DrainOrder.

(** ** Commands run on the node they are meant for *)

Section OwnNode.

Variable E : Env.

(** X12. A join or a label update is never run on a node other than the
    one it is meant for, and a node that could not be reached or queried
    is left alone.  The history of every run of [joinSwarm] and of
    [labelNode], however it ends, is this and nothing more.  When the
    switch to the node's public address is refused: that refused switch,
    and no command at all, so nothing is run on the target the coordinator
    was bound to before.  When it is accepted, [joinSwarm] issues the join
    there.  [labelNode] asks the node for its information there; when
    that query does not complete or its report does not decode, or when
    the label tag does not parse or holds no label, nothing follows;
    otherwise the one label update follows, issued on that same address
    and naming the node by the identifier it has just reported.  (A
    command leaves no event when the switcher has no runner for it.) *)
Theorem join_and_label_run_on_their_node node managerNode token s :
  let pub := PublicAddress node in
  let bound := history s ++ [Switched pub true] in
  let info := runOutcome E bound (render infoCommand) in
  let asked := bound ++ issued pub infoCommand info in
  let joined := snd (joinSwarm E node managerNode token s) in
  let labelled := snd (labelNode E node s) in
  if switchAccepted E (history s) pub then
    history joined =
      bound ++
      issued pub (joinOf node managerNode token)
        (runOutcome E bound (render (joinOf node managerNode token))) /\
    exists H,
      history labelled = asked ++ H /\
      match info with
      | Completed out =>
          match unmarshalNodeInfo E out,
                ParseLabels E (GetTag node LabelsTag) with
          | Some report, Some (l :: ls) =>
              H = issued pub (labelUpdate (l :: ls) report)
                    (runOutcome E asked
                       (render (labelUpdate (l :: ls) report)))
          | _, _ => H = []
          end
      | _ => H = []
      end
  else
    history joined = history s ++ [Switched pub false] /\
    history labelled = history s ++ [Switched pub false].
Proof.
  cbv zeta.
  destruct (joinSwarm E node managerNode token s) as [rj sj] eqn:Hjoin.
  destruct (labelNode E node s) as [rl sl] eqn:Hlabel. cbn [snd].
  unfold joinSwarm in Hjoin. unfold bind at 1 in Hjoin.
  unfold wrap at 1 in Hjoin.
  unfold labelNode in Hlabel. unfold bind at 1 in Hlabel.
  unfold wrap at 1 in Hlabel.
  destruct (switchAccepted E (history s) (PublicAddress node)) eqn:Hacc.
  2:{ rewrite (SwitchNode_refused E _ _ Hacc) in Hjoin, Hlabel.
      injection Hjoin as <- <-. injection Hlabel as <- <-.
      split; reflexivity. }
  rewrite (SwitchNode_accepted E _ _ Hacc) in Hjoin, Hlabel.
  split.
  { apply runCmd_then_ret in Hjoin. destruct Hjoin as (_ & Hh & _).
    exact Hh. }
  set (s1 := mkSession (PublicAddress node)
               (history s ++ [Switched (PublicAddress node) true]) (journal s))
    in Hlabel.
  unfold bind at 1 in Hlabel. unfold wrap at 1 in Hlabel.
  destruct (GetInfo_run E s1) as (Ht & Hh & _).
  pose proof (GetInfo_cases E s1) as Hcases.
  destruct (GetInfo E s1) as [[report | e |] s2];
    cbn [fst snd] in Ht, Hh, Hcases;
    cbn [history target s1] in Ht, Hh, Hcases.
  - destruct Hcases as (out & Hout & Hreport). rewrite Hout, Hreport.
    rewrite Hout in Hh.
    destruct (ParseLabels E (GetTag node LabelsTag)) as [[| l ls] |].
    + injection Hlabel as <- <-. exists []. rewrite app_nil_r. auto.
    + apply runCmd_then_ret in Hlabel. destruct Hlabel as (_ & Hh' & _).
      rewrite Hh, Ht in Hh'. eexists. split; [exact Hh' | reflexivity].
    + unfold bind, logf, fail in Hlabel. injection Hlabel as <- <-.
      exists []. rewrite app_nil_r. auto.
  - injection Hlabel as <- <-. exists []. rewrite app_nil_r.
    split; [exact Hh |].
    destruct (runOutcome E (history s ++ [Switched (PublicAddress node) true])
                (render infoCommand)) as [| | | so se | out];
      try reflexivity.
    rewrite (Hcases out eq_refl). reflexivity.
  - contradiction.
Qed.

End OwnNode.

(** ** Command lines *)

(** X13. The template of a command can be read back off its command
    line, whatever the parameters are: the lines of two commands built
    from different templates are never equal, so no choice of addresses,
    tokens, node names or label options makes a query's line be the line of
    an init, a join or a node update. *)
Theorem render_keeps_template c1 c2 :
  templateOfLine (render c1) = Some (templateOf c1) /\
  (render c1 = render c2 -> templateOf c1 = templateOf c2).
Proof.
  assert (Hline : forall c, templateOfLine (render c) = Some (templateOf c)).
  { intros c. destruct c as [| | n | a l | a l t m | r | o n];
      try reflexivity.
    destruct o; reflexivity. }
  split; [apply Hline |].
  intros Heq. pose proof (Hline c1) as H1. rewrite Heq, Hline in H1.
  congruence.
Qed.

(** ** No run-time panic *)

Section Sound.

Variable E : Env.

Lemma sound_intro {A} (c : M A) :
  (forall s r s',
      c s = (r, s') ->
      r <> OutOfFuel /\ forall what, r <> Err (Panic what)) ->
  sound c.
Proof.
  intros Hc s. destruct (c s) as [r s'] eqn:Hrun. exact (Hc s r s' Hrun).
Qed.

Lemma sound_ret {A} (a : A) : sound (ret a).
Proof. intros s. split; [| intros w]; discriminate. Qed.

Lemma sound_fail {A} e :
  (forall what, e <> Panic what) -> sound (@fail A e).
Proof.
  intros He s. split; [discriminate |]. intros w Heq. cbn in Heq.
  injection Heq as Heq. exact (He w Heq).
Qed.

Lemma sound_bind {A B} (c : M A) (k : A -> M B) :
  sound c -> (forall a, sound (k a)) -> sound (bind c k).
Proof.
  intros Hc Hk s. unfold bind. specialize (Hc s).
  destruct (c s) as [[a | e |] s1]; cbn [fst] in *; [apply Hk | |].
  - destruct Hc as [_ Hc]. split; [discriminate |].
    intros w Heq. injection Heq as Heq. apply (Hc w). rewrite Heq. reflexivity.
  - destruct Hc as [Hc _]. contradiction.
Qed.

(** Whatever it wraps, other than a run out of fuel, a wrapped
    computation does not end in a panic. *)
Lemma sound_wrap {A} ctx (c : M A) :
  wraps ctx -> (forall s, fst (c s) <> OutOfFuel) -> sound (wrap ctx c).
Proof.
  intros Hctx Hc s. unfold wrap. specialize (Hc s).
  destruct (c s) as [[a | e |] s1]; cbn [fst] in *.
  - split; [| intros w]; discriminate.
  - split; [discriminate |]. intros w Heq. injection Heq as Heq.
    exact (Hctx e w Heq).
  - contradiction.
Qed.

Lemma sound_forEach {A} (l : list A) body :
  (forall x, sound (body x)) -> sound (forEach l body).
Proof.
  intros Hbody. induction l as [| x rest IH]; cbn [forEach].
  - apply sound_ret.
  - apply sound_bind; [apply Hbody | intros; exact IH].
Qed.

Lemma fueled_bind {A B} (c : M A) (k : A -> M B) :
  (forall s, fst (c s) <> OutOfFuel) ->
  (forall a s, fst (k a s) <> OutOfFuel) ->
  forall s, fst (bind c k s) <> OutOfFuel.
Proof.
  intros Hc Hk s. unfold bind. specialize (Hc s).
  destruct (c s) as [[a | e |] s1]; cbn [fst] in *;
    [apply Hk | discriminate | contradiction].
Qed.

Lemma fueled_wrap {A} ctx (c : M A) :
  (forall s, fst (c s) <> OutOfFuel) ->
  forall s, fst (wrap ctx c s) <> OutOfFuel.
Proof.
  intros Hc s. unfold wrap. specialize (Hc s).
  destruct (c s) as [[a | e |] s1]; cbn [fst] in *;
    [discriminate | discriminate | contradiction].
Qed.

Lemma fueled_runCmd cmd s : fst (runCmd E cmd s) <> OutOfFuel.
Proof.
  unfold runCmd. destruct (runOutcome E (history s) (render cmd));
    discriminate.
Qed.

Lemma fueled_SwitchNode addr s : fst (SwitchNode E addr s) <> OutOfFuel.
Proof.
  unfold SwitchNode, orElse, Switch.
  destruct (switchAccepted E (history s) addr); discriminate.
Qed.

Lemma fueled_GetInfo s : fst (GetInfo E s) <> OutOfFuel.
Proof. apply GetInfo_run. Qed.

Lemma fueled_JoinToken tokenType s :
  fst (JoinToken E tokenType s) <> OutOfFuel.
Proof.
  unfold JoinToken. apply fueled_bind.
  - apply fueled_wrap, fueled_runCmd.
  - discriminate.
Qed.

Lemma fueled_joinSwarm newNode managerNode token s :
  fst (joinSwarm E newNode managerNode token s) <> OutOfFuel.
Proof.
  unfold joinSwarm. apply fueled_bind.
  - apply fueled_wrap, fueled_SwitchNode.
  - intros _. apply fueled_bind.
    + apply fueled_wrap, fueled_runCmd.
    + discriminate.
Qed.

Lemma fueled_labelNode node s : fst (labelNode E node s) <> OutOfFuel.
Proof.
  unfold labelNode. apply fueled_bind.
  - apply fueled_wrap, fueled_SwitchNode.
  - intros _. apply fueled_bind.
    + apply fueled_wrap, fueled_GetInfo.
    + intros info t.
      destruct (ParseLabels E (GetTag node LabelsTag)) as [[| l ls] |].
      * discriminate.
      * apply fueled_bind; [apply fueled_wrap, fueled_runCmd | discriminate].
      * discriminate.
Qed.

Lemma fueled_tryRemoteManagers addrs : forall s,
  fst (tryRemoteManagers E addrs s) <> OutOfFuel.
Proof.
  induction addrs as [| a rest IH]; intros s; cbn [tryRemoteManagers].
  - discriminate.
  - destruct (SplitHostPort E a) as [[host port] |].
    + unfold orElse. pose proof (fueled_SwitchNode host s) as Hsw.
      destruct (SwitchNode E host s) as [[[] | e |] s1]; cbn [fst] in *;
        [discriminate | | contradiction].
      apply fueled_bind; [discriminate | intros; apply IH].
    + apply fueled_bind; [discriminate | intros; apply IH].
Qed.

Lemma fueled_ensureManager s : fst (ensureManager E s) <> OutOfFuel.
Proof.
  unfold ensureManager. apply fueled_bind.
  - apply fueled_wrap, fueled_GetInfo.
  - intros node t. destruct (negb (IsManager node));
      [apply fueled_tryRemoteManagers | discriminate].
Qed.

Lemma fueled_GetNodes s : fst (GetNodes E s) <> OutOfFuel.
Proof.
  unfold GetNodes. apply fueled_bind.
  - apply fueled_wrap, fueled_ensureManager.
  - intros _. apply fueled_bind.
    + apply fueled_wrap, fueled_runCmd.
    + intros out t. destruct (decodeNodes E out); discriminate.
Qed.

Lemma sound_loops ctxJ1 ctxL1 ctxJ2 ctxL2 ctxS
    (managers workers : list VMNode) (leader : VMNode) (skip : bool)
    mtoken wtoken :
  (forall x, wraps (ctxJ1 x)) -> wraps ctxL1 ->
  (forall x, wraps (ctxJ2 x)) -> wraps ctxL2 -> wraps ctxS ->
  sound
    (forEach managers (fun newManager =>
       if skip && String.eqb (PublicAddress newManager) (PublicAddress leader)
       then ret tt
       else
         wrap (ctxJ1 newManager) (joinSwarm E newManager leader mtoken) ;;;
         wrap ctxL1 (labelNode E newManager)) ;;;
     forEach workers (fun worker =>
       wrap (ctxJ2 worker) (joinSwarm E worker leader wtoken) ;;;
       wrap ctxL2 (labelNode E worker)) ;;;
     wrap ctxS (SwitchNode E (PublicAddress leader))).
Proof.
  intros HJ1 HL1 HJ2 HL2 HS.
  apply sound_bind.
  - apply sound_forEach. intros x.
    destruct (skip && (PublicAddress x =? PublicAddress leader)%string);
      [apply sound_ret |].
    apply sound_bind; [apply sound_wrap; [apply HJ1 | apply fueled_joinSwarm] |].
    intros _. apply sound_wrap; [exact HL1 | apply fueled_labelNode].
  - intros _. apply sound_bind.
    + apply sound_forEach. intros x.
      apply sound_bind;
        [apply sound_wrap; [apply HJ2 | apply fueled_joinSwarm] |].
      intros _. apply sound_wrap; [exact HL2 | apply fueled_labelNode].
    + intros _. apply sound_wrap; [exact HS | apply fueled_SwitchNode].
Qed.

(** X14. [CreateSwarm] and [UpdateSwarm] never end in a run-time panic:
    the quorum check comes before the draw, so [rand.Intn] is never
    called with 0 and the index it yields is always within the manager
    list; every other failure is a wrapped error.  Neither do they run out
    of the fuel of the model. *)
Theorem formation_and_update_never_panic vms s what :
  fst (CreateSwarm E vms s) <> Err (Panic what) /\
  fst (CreateSwarm E vms s) <> OutOfFuel /\
  fst (UpdateSwarm E vms s) <> Err (Panic what) /\
  fst (UpdateSwarm E vms s) <> OutOfFuel.
Proof.
  assert (Hcreate : sound (CreateSwarm E vms)).
  { apply sound_intro. intros t r t' Hrun. unfold CreateSwarm in Hrun.
    set (managers := FilterByTag vms RoleTag ManagerRole) in Hrun.
    destruct (negb ((length managers =? 3)%nat || (length managers =? 5)%nat))
      eqn:Hq.
    { injection Hrun as <- _. split; [| intros w]; discriminate. }
    apply quorum_admitted_inv in Hq.
    unfold bind at 1 in Hrun. rewrite Intn_pos in Hrun by lia.
    destruct (leader_exists managers (randSource E (history t)) Hq)
      as [leader Hleader].
    unfold bind at 1 in Hrun. rewrite (index_Some _ _ _ _ Hleader) in Hrun.
    match type of Hrun with
    | ?c t = _ => assert (Htail : sound c)
    end.
    { apply sound_bind.
      { apply sound_wrap; [intros e w; discriminate | apply fueled_SwitchNode]. }
      intros _. apply sound_bind.
      { apply sound_wrap; [intros e w; discriminate | apply fueled_GetInfo]. }
      intros node.
      destruct (negb (Swarm_Cluster_ID node =? "")%string).
      { apply sound_fail. discriminate. }
      apply sound_bind.
      { apply sound_wrap; [intros e w; discriminate | apply fueled_runCmd]. }
      intros _. apply sound_bind.
      { apply sound_wrap; [intros e w; discriminate | apply fueled_labelNode]. }
      intros _. apply sound_bind.
      { apply sound_wrap; [intros e w; discriminate | apply fueled_GetInfo]. }
      intros node'. apply sound_bind.
      { apply sound_wrap; [intros e w; discriminate | apply fueled_JoinToken]. }
      intros mt. apply sound_bind.
      { apply sound_wrap; [intros e w; discriminate | apply fueled_JoinToken]. }
      intros wt.
      apply (sound_loops
               (fun newManager =>
                  JoiningManager (PublicAddress newManager)
                    (PublicAddress leader) (Swarm_Cluster_ID node'))
               LabellingManager
               (fun worker =>
                  JoiningWorker (PublicAddress worker)
                    (PublicAddress leader) (Swarm_Cluster_ID node'))
               LabellingWorker SwitchingToManagerNode
               managers (FilterByTag vms RoleTag WorkerRole) leader true mt wt);
        intros; intros e w; discriminate. }
    specialize (Htail t). rewrite Hrun in Htail. exact Htail. }
  assert (Hupdate : sound (UpdateSwarm E vms)).
  { unfold UpdateSwarm. apply sound_bind.
    { apply sound_wrap; [intros e w; discriminate | apply fueled_GetNodes]. }
    intros roster. apply sound_intro. intros t r t' Hrun.
    set (managers := FilterByTag vms RoleTag ManagerRole) in Hrun.
    destruct (negb ((length managers =? 3)%nat || (length managers =? 5)%nat))
      eqn:Hq.
    { injection Hrun as <- _. split; [| intros w]; discriminate. }
    apply quorum_admitted_inv in Hq.
    unfold bind at 1 in Hrun. rewrite Intn_pos in Hrun by lia.
    destruct (leader_exists managers (randSource E (history t)) Hq)
      as [manager Hmanager].
    unfold bind at 1 in Hrun. rewrite (index_Some _ _ _ _ Hmanager) in Hrun.
    match type of Hrun with
    | ?c t = _ => assert (Htail : sound c)
    end.
    { apply sound_bind.
      { apply sound_wrap;
          [intros e w; discriminate | apply fueled_ensureManager]. }
      intros _. apply sound_bind.
      { apply sound_wrap; [intros e w; discriminate | apply fueled_GetInfo]. }
      intros node.
      destruct (Swarm_Cluster_ID node =? "")%string.
      { apply sound_fail. discriminate. }
      apply sound_bind.
      { apply sound_wrap; [intros e w; discriminate | apply fueled_JoinToken]. }
      intros mt. apply sound_bind.
      { apply sound_wrap; [intros e w; discriminate | apply fueled_JoinToken]. }
      intros wt.
      apply (sound_loops
               (fun newManager =>
                  JoiningManager (PublicAddress newManager)
                    (PublicAddress manager) (Swarm_Cluster_ID node))
               LabellingManager
               (fun worker =>
                  JoiningWorker (PublicAddress worker)
                    (PublicAddress manager) (Swarm_Cluster_ID node))
               LabellingWorker SwitchingToManagerNode
               _ _ manager false mt wt);
        intros; intros e w; discriminate. }
    specialize (Htail t). rewrite Hrun in Htail. exact Htail. }
  destruct (Hcreate s) as [Hc1 Hc2]. destruct (Hupdate s) as [Hu1 Hu2].
  auto.
Qed.

End Sound.

(** ** Labels are read late *)

Section LateLabels.

Variable E : Env.

(** X15. [CreateSwarm] reads the label tag of its leader only after it
    has initialised the cluster on it.  When that tag does not parse, a
    run in which the leader accepts the switches, answers the queries with
    no cluster, and completes the init command fails with the parsing
    error, and by then the init command has been run: the failure leaves a
    cluster of one node behind, and no other member was contacted. *)
Theorem CreateSwarm_reads_labels_after_init vms s leader s1 node s2 out s3 s4
    info s5 :
  let managers := FilterByTag vms RoleTag ManagerRole in
  length managers = 3%nat \/ length managers = 5%nat ->
  managers !! (randSource E (history s) mod length managers)%nat
    = Some leader ->
  ParseLabels E (GetTag leader LabelsTag) = None ->
  SwitchNode E (PublicAddress leader) s = (Ok tt, s1) ->
  GetInfo E s1 = (Ok node, s2) ->
  Swarm_Cluster_ID node = "" ->
  runCmd E (initCommand (PrivateAddress leader) (PrivateAddress leader)) s2
    = (Ok out, s3) ->
  SwitchNode E (PublicAddress leader) s3 = (Ok tt, s4) ->
  GetInfo E s4 = (Ok info, s5) ->
  fst (CreateSwarm E vms s) = Err (LabellingWorker ParsingLabels) /\
  history (snd (CreateSwarm E vms s)) = history s5 /\
  mutations (history s5) =
    mutations (history s)
    ++ [Init (PublicAddress leader) (PrivateAddress leader)] /\
  switches (history s5) =
    switches (history s)
    ++ [(PublicAddress leader, true); (PublicAddress leader, true)].
Proof.
  intros managers Hn Hleader Hparse Hsw1 Hinfo1 Hid Hinit Hsw2 Hinfo2.
  assert (Hrun : CreateSwarm E vms s =
                 (Err (LabellingWorker ParsingLabels),
                  mkSession (target s5) (history s5)
                    (journal s5 ++ [LogBadLabels]))).
  { unfold CreateSwarm. fold managers. rewrite (quorum_admitted _ Hn).
    cbn [negb]. unfold bind at 1. rewrite Intn_pos by lia.
    unfold bind at 1. rewrite (index_Some _ _ _ _ Hleader).
    unfold bind at 1. unfold wrap at 1. rewrite Hsw1.
    unfold bind at 1. unfold wrap at 1. rewrite Hinfo1, Hid. cbn [negb String.eqb].
    unfold bind at 1. unfold wrap at 1. rewrite Hinit.
    unfold bind at 1. unfold wrap at 1. unfold labelNode.
    unfold bind at 1. unfold wrap at 1. rewrite Hsw2.
    unfold bind at 1. unfold wrap at 1. rewrite Hinfo2, Hparse.
    reflexivity. }
  rewrite Hrun. cbn [fst snd history].
  split; [reflexivity |]. split; [reflexivity |].
  apply SwitchNode_Ok in Hsw1. destruct Hsw1 as [_ ->].
  apply GetInfo_Ok in Hinfo1. destruct Hinfo1 as (o1 & _ & _ & ->).
  apply runCmd_Ok in Hinit. destruct Hinit as [_ ->].
  apply SwitchNode_Ok in Hsw2. destruct Hsw2 as [_ ->].
  apply GetInfo_Ok in Hinfo2. destruct Hinfo2 as (o2 & _ & _ & ->).
  cbn [history target]. rewrite !mutations_app, !switches_app. cbn.
  rewrite !app_nil_r, <- !app_assoc. split; reflexivity.
Qed.

End LateLabels.

Lemma CreateSwarm_reads_labels_after_init_witness :
  fst (CreateSwarm strictLabels badLabels fresh)
    = Err (LabellingWorker ParsingLabels) /\
  mutations (history (snd (CreateSwarm strictLabels badLabels fresh)))
    = [Init "M1.pub" "M1.priv"].
Proof.
  set (E := strictLabels).
  set (leader := member "M1" "manager" "zone=").
  set (s1 := snd (SwitchNode E "M1.pub" fresh)).
  set (s2 := snd (GetInfo E s1)).
  set (s3 := snd (runCmd E (initCommand "M1.priv" "M1.priv") s2)).
  set (s4 := snd (SwitchNode E "M1.pub" s3)).
  set (s5 := snd (GetInfo E s4)).
  assert (H1 : SwitchNode E (PublicAddress leader) fresh = (Ok tt, s1))
    by (vm_compute; reflexivity).
  assert (H2 : GetInfo E s1 = (Ok (mkNodeInfo "id-M1" "" [] false), s2))
    by (vm_compute; reflexivity).
  assert (H3 : runCmd E (initCommand (PrivateAddress leader)
                           (PrivateAddress leader)) s2 = (Ok "", s3))
    by (vm_compute; reflexivity).
  assert (H4 : SwitchNode E (PublicAddress leader) s3 = (Ok tt, s4))
    by (vm_compute; reflexivity).
  assert (H5 : GetInfo E s4 = (Ok (mkNodeInfo "id-M1" "" [] false), s5))
    by (vm_compute; reflexivity).
  destruct (CreateSwarm_reads_labels_after_init E badLabels fresh leader
              s1 _ s2 "" s3 s4 _ s5
              (or_introl eq_refl) eq_refl eq_refl H1 H2 eq_refl H3 H4 H5)
    as (Hr & Hh & Hm & _).
  split; [exact Hr |]. rewrite Hh, Hm. reflexivity.
Defined.

(** ** The create command *)

Section FrontEndFacts.

Variable F : FrontEnd.
Variable swarmer : Swarmer.

(** X16. [Create] asks nothing of any node unless the Clusterfile was
    opened, parsed and validated: when the file named by its first
    argument cannot be opened (or, for [-], whatever standard input
    holds cannot be parsed), cannot be parsed, or does not pass
    validation, it prints one error line and returns the error status
    with the session untouched, whatever the swarmer is.  Without a first
    argument it panics on [args[0]]. *)
Theorem Create_rejects_before_any_node clusterFile rest s :
  let opened :=
    if String.eqb clusterFile "-" then Some (standardInput F)
    else openFile F clusterFile in
  match opened with
  | None => True
  | Some f =>
      match ReadClusterfile F f with
      | None => True
      | Some cf => Validate F cf = false
      end
  end ->
  (exists line,
      Create F swarmer (clusterFile :: rest) s
        = (Ok (StatusError F, [line]), s) /\
      line ∈ [ErrReadingClusterfile; ErrParsingClusterfile;
              ErrValidatingClusterfile]) /\
  Create F swarmer [] s = (Err (Panic "index out of range"), s).
Proof.
  intros opened Hbad. split; [| reflexivity].
  unfold Create. unfold bind at 1. cbn [index lookup list_lookup ret].
  fold opened. destruct opened as [f |].
  - destruct (ReadClusterfile F f) as [cf |].
    + rewrite Hbad. cbn [negb]. eexists. split; [reflexivity |].
      right. right. left.
    + eexists. split; [reflexivity |]. right. left.
  - eexists. split; [reflexivity |]. left.
Qed.

(** X17. [Create] reports success only for a formation that happened.
    Whenever it returns, either it printed the line of success, and then
    the Clusterfile was opened, parsed and validated, [CreateSwarm] on its
    nodes succeeded, the information query after it succeeded and
    reported the identifier printed, and the status returned is the one of
    the status report; or it printed exactly one error line and returned
    the error status. *)
Theorem Create_succeeds_only_after_formation args s status printed s' :
  Create F swarmer args s = (Ok (status, printed), s') ->
  (exists clusterFile rest f cf s1 node s2,
      args = clusterFile :: rest /\
      (if String.eqb clusterFile "-" then Some (standardInput F)
       else openFile F clusterFile) = Some f /\
      ReadClusterfile F f = Some cf /\
      Validate F cf = true /\
      swarmerCreateSwarm swarmer (Nodes cf) s = (Ok tt, s1) /\
      swarmerGetInfo swarmer s1 = (Ok node, s2) /\
      Status F s2 = (Ok status, s') /\
      printed = [ClusterCreated (Swarm_Cluster_ID node)]) \/
  (status = StatusError F /\
   exists line,
     printed = [line] /\ forall id, line <> ClusterCreated id).
Proof.
  intros Hrun. unfold Create in Hrun.
  apply bind_Ok in Hrun as (clusterFile & s0 & Hidx & Hrun).
  apply index_Ok in Hidx. destruct Hidx as [Hidx ->].
  destruct args as [| a rest]; [discriminate |]. injection Hidx as ->.
  destruct (if String.eqb clusterFile "-" then Some (standardInput F)
            else openFile F clusterFile) as [f |] eqn:Hopen.
  2:{ injection Hrun as <- <- <-. right. split; [reflexivity |].
      eexists. split; [reflexivity | discriminate]. }
  destruct (ReadClusterfile F f) as [cf |] eqn:Hread.
  2:{ injection Hrun as <- <- <-. right. split; [reflexivity |].
      eexists. split; [reflexivity | discriminate]. }
  destruct (Validate F cf) eqn:Hvalid; cbn [negb] in Hrun.
  2:{ injection Hrun as <- <- <-. right. split; [reflexivity |].
      eexists. split; [reflexivity | discriminate]. }
  apply bind_Ok in Hrun as (created & s1 & Hcreate & Hrun).
  apply attempt_inv in Hcreate. destruct created as [e | []].
  { injection Hrun as <- <- <-. right. split; [reflexivity |].
    eexists. split; [reflexivity | discriminate]. }
  apply bind_Ok in Hrun as (info & s2 & Hinfo & Hrun).
  apply attempt_inv in Hinfo. destruct info as [e | node].
  { injection Hrun as <- <- <-. right. split; [reflexivity |].
    eexists. split; [reflexivity | discriminate]. }
  apply bind_Ok in Hrun as (st & s3 & Hstatus & Hrun).
  injection Hrun as <- <- <-.
  left. exists clusterFile, rest, f, cf, s1, node, s2. auto 10.
Qed.

End FrontEndFacts.

Section FrontEndQuorum.

Variable F : FrontEnd.
Variable E : Env.

(** X18. [Create] over the coordinator refuses a Clusterfile whose
    managers are not 3 or 5 without touching any node: the file may open,
    parse and pass validation, yet [Create] prints the quorum error,
    returns the error status and leaves the session as it found it. *)
Theorem Create_refuses_invalid_quorum clusterFile rest f cf s :
  (if String.eqb clusterFile "-" then Some (standardInput F)
   else openFile F clusterFile) = Some f ->
  ReadClusterfile F f = Some cf ->
  Validate F cf = true ->
  invalidQuorum (Nodes cf) ->
  Create F (managerSwarmer E) (clusterFile :: rest) s =
    (Ok (StatusError F,
         [ErrCreatingCluster
            (InvalidQuorumSize
               (length (FilterByTag (Nodes cf) RoleTag ManagerRole)))]),
     s).
Proof.
  intros Hopen Hread Hvalid [H3 H5].
  unfold Create. unfold bind at 1. cbn [index lookup list_lookup ret].
  rewrite Hopen, Hread, Hvalid. cbn [negb].
  unfold bind at 1, attempt. cbn [swarmerCreateSwarm managerSwarmer].
  unfold CreateSwarm. rewrite (quorum_rejected _ H3 H5). reflexivity.
Qed.

End FrontEndQuorum.

Lemma Create_rejects_before_any_node_witness :
  exists line,
    Create (frontEnd false) (managerSwarmer (scripted (virgin 0)))
      ["cluster.yml"] fresh
    = (Ok (StatusError (frontEnd false), [line]), fresh) /\
    line ∈ [ErrReadingClusterfile; ErrParsingClusterfile;
            ErrValidatingClusterfile].
Proof.
  apply (Create_rejects_before_any_node (frontEnd false)
           (managerSwarmer (scripted (virgin 0))) "cluster.yml" [] fresh).
  reflexivity.
Defined.

Lemma Create_succeeds_only_after_formation_witness :
  exists s',
    Create (frontEnd true) (managerSwarmer (scripted (virgin 0)))
      ["cluster.yml"] fresh
    = (Ok (0%Z, [ClusterCreated ""]), s') /\
    target s' = "M1.pub".
Proof.
  set (r := Create (frontEnd true) (managerSwarmer (scripted (virgin 0)))
              ["cluster.yml"] fresh).
  assert (Hrun : r = (Ok (0%Z, [ClusterCreated ""]), snd r))
    by (vm_compute; reflexivity).
  destruct (Create_succeeds_only_after_formation (frontEnd true)
              (managerSwarmer (scripted (virgin 0))) _ fresh _ _ _ Hrun)
    as [(cfn & rest & f & cf & s1 & node & s2 & _) | (_ & line & Hl & Hne)].
  - exists (snd r). split; [exact Hrun |]. vm_compute. reflexivity.
  - injection Hl as <-. exfalso. exact (Hne "" eq_refl).
Defined.

Lemma Create_refuses_invalid_quorum_witness :
  Create frontEndOfTwo (managerSwarmer (scripted (virgin 0)))
    ["cluster.yml"] fresh
  = (Ok (StatusError frontEndOfTwo,
         [ErrCreatingCluster
            (InvalidQuorumSize
               (length (FilterByTag twoManagers RoleTag ManagerRole)))]),
     fresh).
Proof.
  apply (Create_refuses_invalid_quorum frontEndOfTwo (scripted (virgin 0))
           "cluster.yml" [] "two" (mkClusterfile twoManagers) fresh).
  - reflexivity.
  - reflexivity.
  - reflexivity.
  - split; vm_compute; lia.
Defined.
